(** * My_Films: a shallow embedding of [bot.py] and its checked properties

    The bot keeps a per-user list of watched films in a JSON document,
    queries TMDB for search results, genres and recommendations, and
    drives three conversations (add, list/delete, recommend) from button
    taps.  Part I follows the functions of [bot.py] under their own names
    and adds the model of the scheduler, the text of the data file, the
    sample data and the invariants; Part II holds the lemmas, Part III
    the properties of the specification and Part IV further properties
    of the code. *)

From Stdlib Require Import ZArith List String Ascii Bool Lia.
From Stdlib Require Import DecimalString DecimalZ DecimalFacts DecimalPos.
From stdpp Require Import base gmap strings list.
Import ListNotations.

Local Open Scope Z_scope.

(* ===================================================================== *)
(** * Part I. Definitions                                                 *)
(* ===================================================================== *)

(** ** Rate limiter ([class RateLimiter], lines 39-59)

    Timestamps are the readings of [time.time()], counted in clock ticks
    (an integer number of milliseconds); [time_window] is in the same
    unit.  [requests] is the list [self.requests]. *)

Record RateLimiter := mkRateLimiter {
  max_requests : nat;
  time_window : Z;
  requests : list Z
}.

(** [RateLimiter.__init__] *)
Definition RateLimiter_init (max_requests : nat) (time_window : Z) : RateLimiter :=
  mkRateLimiter max_requests time_window [].

(** [tmdb_rate_limiter = RateLimiter(max_requests=8, time_window=1.0)] *)
Definition tmdb_rate_limiter : RateLimiter := RateLimiter_init 8 1000.

(** What [acquire] does once it has pruned the list: it goes on to the
    final [append], it suspends in [asyncio.sleep(wait_time)], or the
    expression [self.requests[0]] raises on an empty list. *)
Inductive Suspension :=
| Proceed
| Sleep (wait_time : Z)
| RaiseIndexError.

(** Lines 46-54: the part of [acquire] that runs before its only
    suspension point.  [now] is the first reading of the clock. *)
Definition acquire_enter (now : Z) (rl : RateLimiter) : RateLimiter * Suspension :=
  let reqs :=
    List.filter (fun req_time => now - req_time <? time_window rl) (requests rl) in
  let rl' := mkRateLimiter (max_requests rl) (time_window rl) reqs in
  if (max_requests rl <=? length reqs)%nat then
    match reqs with
    | [] => (rl', RaiseIndexError)
    | r0 :: _ =>
        let wait_time := time_window rl - (now - r0) in
        if 0 <? wait_time then (rl', Sleep wait_time) else (rl', Proceed)
    end
  else (rl', Proceed).

(** Line 56: [self.requests.append(time.time())], [t] being the second
    reading of the clock. *)
Definition acquire_record (t : Z) (rl : RateLimiter) : RateLimiter :=
  mkRateLimiter (max_requests rl) (time_window rl) (requests rl ++ [t]).

(** The one process-wide limiter together with the callers that are
    suspended inside [acquire].  [clock] is the latest reading of the
    clock, [sleeping] holds the wake-up deadline [now + wait_time] of every
    suspended call, and [recorded] lists, oldest first, every timestamp
    that an [acquire] has appended so far. *)
Record Config := mkConfig {
  clock : Z;
  limiter : RateLimiter;
  sleeping : list Z;
  recorded : list Z
}.

Definition idle (rl : RateLimiter) (t0 : Z) : Config := mkConfig t0 rl [] [].

(** The scheduler is cooperative: a call runs alone from its entry to its
    [await] and from its wake-up to its return.
    - [Enter now t]: a caller enters [acquire] and reads [now]; when the
      call does not sleep it reads the clock again ([t]) and appends it.
    - [Resume deadline t]: the suspended call whose sleep ends at
      [deadline] wakes up, reads [t] and appends it. *)
Inductive Event :=
| Enter (now t : Z)
| Resume (deadline t : Z).

Fixpoint remove_one (d : Z) (l : list Z) : option (list Z) :=
  match l with
  | [] => None
  | x :: l' => if x =? d then Some l'
               else match remove_one d l' with
                    | Some r => Some (x :: r)
                    | None => None
                    end
  end.

(** One step of the schedule; [None] when the event cannot happen: the
    clock never runs backwards, a sleep lasts at least [wait_time], and at
    most [callers] calls are inside [acquire] at any time. *)
Definition step (callers : nat) (cfg : Config) (ev : Event) : option Config :=
  match ev with
  | Enter now t =>
      if (clock cfg <=? now) && (length (sleeping cfg) <? callers)%nat then
        match acquire_enter now (limiter cfg) with
        | (rl', Proceed) =>
            if now <=? t
            then Some (mkConfig t (acquire_record t rl') (sleeping cfg)
                                (recorded cfg ++ [t]))
            else None
        | (rl', Sleep wait_time) =>
            Some (mkConfig now rl' ((now + wait_time) :: sleeping cfg)
                           (recorded cfg))
        | (rl', RaiseIndexError) =>
            Some (mkConfig now rl' (sleeping cfg) (recorded cfg))
        end
      else None
  | Resume deadline t =>
      match remove_one deadline (sleeping cfg) with
      | Some rest =>
          if (clock cfg <=? t) && (deadline <=? t)
          then Some (mkConfig t (acquire_record t (limiter cfg)) rest
                              (recorded cfg ++ [t]))
          else None
      | None => None
      end
  end.

Fixpoint run (callers : nat) (evs : list Event) (cfg : Config) : option Config :=
  match evs with
  | [] => Some cfg
  | ev :: evs' =>
      match step callers cfg ev with
      | Some cfg' => run callers evs' cfg'
      | None => None
      end
  end.

(** The timestamps of [l] inside the sliding window [s <= t < s + w]. *)
Definition in_window (w s t : Z) : bool := (s <=? t) && (t <? s + w).

Definition window_count (w s : Z) (l : list Z) : nat :=
  length (List.filter (in_window w s) l).

(** ** Python values used by the handlers

    Text is held as the bytes of its UTF-8 encoding.  [isdigit], [strip]
    and [int_] follow Python on ASCII text; [len] and [slice_chars] count
    characters, as [len(s)] and [s[:n]] do. *)

(** [s.startswith(prefix)] *)
Definition startswith (s prefix : string) : bool := String.prefix prefix s.

Definition is_digit (c : ascii) : bool :=
  ((48 <=? nat_of_ascii c) && (nat_of_ascii c <=? 57))%nat.

(** [s.isdigit()]: a non-empty string of digits. *)
Fixpoint all_digits (s : string) : bool :=
  match s with
  | EmptyString => true
  | String c s' => is_digit c && all_digits s'
  end.

Definition isdigit (s : string) : bool :=
  match s with
  | EmptyString => false
  | _ => all_digits s
  end.

(** White space as [str.strip()] and [int()] see it. *)
Definition is_space (c : ascii) : bool :=
  let n := nat_of_ascii c in
  ((n =? 32) || ((9 <=? n) && (n <=? 13)) || ((28 <=? n) && (n <=? 31)))%nat.

Fixpoint lstrip (s : string) : string :=
  match s with
  | EmptyString => EmptyString
  | String c s' => if is_space c then lstrip s' else s
  end.

Fixpoint rstrip (s : string) : string :=
  match s with
  | EmptyString => EmptyString
  | String c s' =>
      match rstrip s' with
      | EmptyString => if is_space c then EmptyString else String c EmptyString
      | r => String c r
      end
  end.

(** [s.strip()] *)
Definition strip (s : string) : string := rstrip (lstrip s).

(** [s.split(sep)] for a one-character separator: never an empty list. *)
Fixpoint split (sep : ascii) (s : string) : list string :=
  match s with
  | EmptyString => [EmptyString]
  | String c s' =>
      if Ascii.eqb c sep then EmptyString :: split sep s'
      else match split sep s' with
           | [] => [String c EmptyString]
           | w :: ws => String c w :: ws
           end
  end.

(** The digits of an integer literal: groups of digits separated by single
    underscores, as [int()] accepts them; [None] otherwise. *)
Fixpoint literal_digits (after_digit : bool) (s : string) : option string :=
  match s with
  | EmptyString => if after_digit then Some EmptyString else None
  | String c s' =>
      if is_digit c then
        match literal_digits true s' with
        | Some r => Some (String c r)
        | None => None
        end
      else if Ascii.eqb c "_" then
        if after_digit then literal_digits false s' else None
      else None
  end.

Definition unsigned_literal (s : string) : option Z :=
  match literal_digits false s with
  | Some ds =>
      match NilEmpty.uint_of_string ds with
      | Some u => Some (Z.of_uint u)
      | None => None
      end
  | None => None
  end.

(** White space as [int()] skips it around an ASCII literal: the blank and
    the characters 9 to 13.  The separators 28 to 31, which [str.strip()]
    removes, are not among it. *)
Definition is_int_space (c : ascii) : bool :=
  let n := nat_of_ascii c in
  ((n =? 32) || ((9 <=? n) && (n <=? 13)))%nat.

Fixpoint int_lstrip (s : string) : string :=
  match s with
  | EmptyString => EmptyString
  | String c s' => if is_int_space c then int_lstrip s' else s
  end.

Fixpoint int_rstrip (s : string) : string :=
  match s with
  | EmptyString => EmptyString
  | String c s' =>
      match int_rstrip s' with
      | EmptyString => if is_int_space c then EmptyString else String c EmptyString
      | r => String c r
      end
  end.

(** [int(s)]; [None] stands for [ValueError]. *)
Definition int_ (s : string) : option Z :=
  match int_rstrip (int_lstrip s) with
  | String c s' =>
      if Ascii.eqb c "-" then option_map Z.opp (unsigned_literal s')
      else if Ascii.eqb c "+" then unsigned_literal s'
      else unsigned_literal (String c s')
  | EmptyString => None
  end.

(** [str(i)] *)
Definition str (i : Z) : string := NilZero.string_of_int (Z.to_int i).

(** Text that consists of ASCII characters. *)
Fixpoint is_ascii (s : string) : bool :=
  match s with
  | EmptyString => true
  | String c s' => (nat_of_ascii c <? 128)%nat && is_ascii s'
  end.

(** A byte that continues a character of UTF-8 text ([10xxxxxx]); every
    other byte begins one. *)
Definition is_continuation (c : ascii) : bool :=
  let n := nat_of_ascii c in ((128 <=? n) && (n <? 192))%nat.

(** [len(s)]: the number of characters. *)
Fixpoint len (s : string) : nat :=
  match s with
  | EmptyString => 0
  | String c s' => if is_continuation c then len s' else S (len s')
  end.

(** [s[:n]]: the first [n] characters, all of [s] when it has fewer. *)
Fixpoint slice_chars (n : nat) (s : string) : string :=
  match s with
  | EmptyString => EmptyString
  | String c s' =>
      if is_continuation c then String c (slice_chars n s')
      else match n with
           | O => EmptyString
           | S n' => String c (slice_chars n' s')
           end
  end.

(** [l[i]] with Python's negative indices; [None] stands for
    [IndexError]. *)
Definition normalize_index (len : nat) (i : Z) : option nat :=
  if (0 <=? i) && (i <? Z.of_nat len) then Some (Z.to_nat i)
  else if (- Z.of_nat len <=? i) && (i <? 0) then Some (Z.to_nat (i + Z.of_nat len))
  else None.

Definition getitem {A} (l : list A) (i : Z) : option A :=
  match normalize_index (length l) i with
  | Some n => l !! n
  | None => None
  end.

(** [l.pop(i)]: the list that is left. *)
Definition pop {A} (l : list A) (i : Z) : option (list A) :=
  match normalize_index (length l) i with
  | Some n => Some (delete n l)
  | None => None
  end.

(** [l[start:stop]]: a negative bound counts from the end, and both are
    cut to the list. *)
Definition slice_bound (len : nat) (i : Z) : Z :=
  if i <? 0 then Z.max 0 (i + Z.of_nat len) else Z.min i (Z.of_nat len).

Definition slice {A} (l : list A) (start stop : Z) : list A :=
  let a := slice_bound (length l) start in
  let b := slice_bound (length l) stop in
  take (Z.to_nat (b - a)) (drop (Z.to_nat a) l).

(** A [dict] with integer keys, in insertion order. *)
Fixpoint dict_get {V} (k : Z) (d : list (Z * V)) : option V :=
  match d with
  | [] => None
  | (k', v) :: d' => if k' =? k then Some v else dict_get k d'
  end.

Fixpoint dict_set {V} (k : Z) (v : V) (d : list (Z * V)) : list (Z * V) :=
  match d with
  | [] => [(k, v)]
  | (k', v') :: d' => if k' =? k then (k, v) :: d' else (k', v') :: dict_set k v d'
  end.

(** ** Data model *)

(** A saved film, [{'id': .., 'title': .., 'genres': [..]}]. *)
Record Film := mkFilm {
  film_id : Z;
  film_title : string;
  film_genres : list string
}.

(** An item of a TMDB [results] array.  [release_date] and [genre_ids]
    hold what [film.get('release_date', '')] and
    [film.get('genre_ids', [])] give. *)
Record Candidate := mkCandidate {
  cand_id : Z;
  cand_title : string;
  release_date : string;
  genre_ids : list Z
}.

(** The genre taxonomy, a [dict] from genre id to name. *)
Definition Genres := list (Z * string).

(** [{g['id']: g['name'] for g in ...}] *)
Definition genres_of_list (gs : list (Z * string)) : Genres :=
  fold_left (fun d g => dict_set (fst g) (snd g) d) gs [].

(** [context.user_data]: a key is present when its field is [Some]. *)
Record Session := mkSession {
  ud_add_title : option string;
  ud_add_results : option (list Candidate);
  ud_recommend_films : option (list Film);
  ud_recommend_film : option Film;
  ud_film_page : option Z;
  ud_recommend_genre_id : option Z;
  ud_genre_page : option Z;
  ud_list_films : option (list Film)
}.

Definition empty_session : Session :=
  mkSession None None None None None None None None.

(** The process-wide state: the document in [DATA_FILE] ([None] while the
    file does not exist), [_genre_cache] ([None] is Python's [None]) and
    whether [http_client] has been created. *)
Record World := mkWorld {
  data_file : option (gmap string (list Film));
  _genre_cache : option Genres;
  http_client : bool
}.

Record State := mkState {
  world : World;
  user_data : Session
}.

(** Conversation states (lines 27-30); [END] is [ConversationHandler.END]. *)
Inductive ConvState :=
| ADD_TITLE | ADD_CHOICE
| RECOMMEND_CHOOSE | RECOMMEND_FILM_PICK | RECOMMEND_GENRE_PICK
| RECOMMEND_MORE_FILM | RECOMMEND_MORE_GENRE
| LIST_SHOW | LIST_DELETE
| END.

(** The exceptions the handlers tell apart.  [HTTPError] is whatever the
    [httpx] call, [raise_for_status()] or the decoding of the body raises. *)
Inductive Exn :=
| ValueError | IndexError | KeyError | AttributeError | HTTPError.

(** The texts the bot sends, one constructor per literal of the source,
    with the values that are formatted into it. *)
Inductive Text :=
| TxtFilmNotFound                (* 'Фильм не найден. Попробуйте ещё раз или /cancel.' *)
| TxtChooseFilm                  (* 'Выберите нужный фильм:' *)
| TxtSearchError                 (* 'Ошибка при поиске фильма. ...' *)
| TxtUnexpectedError             (* 'Произошла ошибка. ...' *)
| TxtNoAddResults                (* 'Ошибка: данные о фильмах не найдены. ...' *)
| TxtChoiceError                 (* 'Ошибка при выборе фильма. ...' *)
| TxtAlreadyInList               (* 'Этот фильм уже есть в вашем списке.' *)
| TxtAdded (title : string) (genre_names : list string)
                                 (* 'Фильм "{title}"{genre_str} добавлен!' *)
| TxtSaveError                   (* 'Ошибка при сохранении фильма. ...' *)
| TxtNoFilmsForRecommendations   (* 'У вас нет фильмов для рекомендаций.' *)
| TxtPickFilm                    (* 'Выберите фильм:' *)
| TxtPickGenre                   (* 'Выберите жанр:' *)
| TxtUnknownChoice               (* 'Неизвестный выбор.' *)
| TxtClosed                      (* 'Рекомендации закрыты.' *)
| TxtOpening (tmdb_url : string) (* 'Открываю фильм на TMDB:\n{tmdb_url}' *)
| TxtNoMore                      (* 'Больше рекомендаций нет.' *)
| TxtFilmRecommendations (title : string) (lines : list (string * list string))
                                 (* 'Рекомендации по фильму "{title}":' and the lines *)
| TxtGenreRecommendations (genre_name : option string)
                          (lines : list (string * list string))
                                 (* 'Рекомендации по жанру "{genre_name}":' and the lines;
                                    [None] is 'Неизвестный жанр' *)
| TxtRecommendError              (* 'Ошибка при получении рекомендаций.' *)
| TxtListEmpty                   (* 'Ваш список фильмов пуст.' *)
| TxtYourFilms (films : list Film)      (* 'Ваши фильмы:' and the lines *)
| TxtChooseDelete                (* 'Выберите фильм для удаления:' *)
| TxtUpdatedList (films : list Film)    (* 'Обновленный список фильмов:' and the lines *)
| TxtDeleteNotFound              (* 'Ошибка: фильм не найден.' *)
| TxtDeleted (title : string)    (* 'Фильм '{title}' удален из вашего списка!' *)
| TxtWantUpdatedList             (* 'Хотите посмотреть обновленный список?' *)
| TxtListNowEmpty                (* 'Ваш список фильмов теперь пуст.' *)
| TxtDeleteError                 (* 'Ошибка при удалении фильма.' *)
| TxtSessionExpired              (* 'Сессия устарела, начните заново.' *)
| TxtStart                       (* 'Привет! Я бот для учёта просмотренных фильмов. ...' *)
| TxtHelp                        (* 'По всем вопросам пишите ...' *)
| TxtEnterTitle                  (* 'Введите название фильма:' *)
| TxtAddCancelled                (* 'Добавление отменено.' *)
| TxtWhichRecommendation         (* 'Какой тип рекомендации вас интересует?' *)
| TxtRecommendCancelled.         (* 'Рекомендации отменены.' *)

(** Button captions. *)
Inductive Label :=
| LblCandidate (title year : string)    (* '{title} ({year})' *)
| LblTitle (title : string)
| LblNumbered (n : nat) (title : string)  (* '{i+1}. {title}' *)
| LblDeleteFilm (button_text : string)  (* the cross and the shortened title *)
| LblCancelDelete | LblDelete | LblShowUpdated
| LblBack | LblMore | LblClose
| LblByFilm | LblByGenre.

Inductive Button :=
| CallbackButton (label : Label) (callback_data : string)
| UrlButton (label : Label) (url : string).

Inductive Markup :=
| NoMarkup
| global_keyboard
| InlineKeyboardMarkup (inline_keyboard : list (list Button)).

(** The requests sent to TMDB. *)
Inductive Request :=
| SearchRequest (query : string)
| GenreListRequest
| RecommendationsRequest (film_id page : Z)
| DiscoverRequest (with_genres page : Z).

(** What a handler does to the outside, in order. *)
Inductive Action :=
| Answer                                   (* query.answer() *)
| ReplyText (text : Text) (reply_markup : Markup)
| EditText (text : Text) (reply_markup : Markup)
| HttpGet (request : Request)
| WriteFile (data : gmap string (list Film)).

(** What a TMDB call gives back: the exception it raises or its value. *)
Inductive Reply (A : Type) :=
| Fails (e : Exn)
| Gives (a : A).
Arguments Fails {A} e.
Arguments Gives {A} a.

(** The metadata service as one handler run sees it.  A search or
    recommendation call gives the decoded [results] array once
    [raise_for_status()] has passed; the genre call gives [status_code]
    and the decoded [genres] array as pairs of id and name. *)
Record Tmdb := mkTmdb {
  tmdb_search : string -> Reply (list Candidate);
  tmdb_genre_list : Reply (Z * list (Z * string));
  tmdb_recommendations : Z -> Z -> Reply (list Candidate);
  tmdb_discover : Z -> Z -> Reply (list Candidate)
}.

(** ** Handlers as stateful computations

    A handler runs to completion on the process state and the session of
    its user; it returns or raises, and leaves a trace of actions.  State
    changes made before an exception stay. *)
Inductive Result (A : Type) :=
| Return (a : A)
| Raise (e : Exn).
Arguments Return {A} a.
Arguments Raise {A} e.

Definition M (A : Type) : Type := State -> Result A * State * list Action.

Definition ret {A} (a : A) : M A := fun st => (Return a, st, []).

Definition raise {A} (e : Exn) : M A := fun st => (Raise e, st, []).

Definition bind {A B} (m : M A) (f : A -> M B) : M B := fun st =>
  match m st with
  | (Return a, st', tr) =>
      match f a st' with
      | (r, st'', tr') => (r, st'', tr ++ tr')
      end
  | (Raise e, st', tr) => (Raise e, st', tr)
  end.

Notation "'let*' x := m 'in' k" := (bind m (fun x => k))
  (at level 10, x binder, k at level 200).
Notation "m >>> k" := (bind m (fun _ => k))
  (at level 100, k at level 200, right associativity).

(** [try: body except <handles>: handler] *)
Definition try_except {A} (body : M A) (handles : Exn -> bool)
    (handler : Exn -> M A) : M A := fun st =>
  match body st with
  | (Return a, st', tr) => (Return a, st', tr)
  | (Raise e, st', tr) =>
      if handles e then
        match handler e st' with
        | (r, st'', tr') => (r, st'', tr ++ tr')
        end
      else (Raise e, st', tr)
  end.

Definition emit (a : Action) : M unit := fun st => (Return tt, st, [a]).

Definition get_world : M World := fun st => (Return (world st), st, []).

Definition put_world (w : World) : M unit := fun st =>
  (Return tt, mkState w (user_data st), []).

Definition get_user_data : M Session := fun st => (Return (user_data st), st, []).

Definition put_user_data (ud : Session) : M unit := fun st =>
  (Return tt, mkState (world st) ud, []).

(** [d[key]] on a key that may be absent, and the results of [int_],
    [getitem] and [pop]. *)
Definition or_raise {A} (e : Exn) (o : option A) : M A :=
  match o with
  | Some a => ret a
  | None => raise e
  end.

Definition any_exception (e : Exn) : bool := true.

Definition value_or_index_error (e : Exn) : bool :=
  match e with
  | ValueError | IndexError => true
  | _ => false
  end.

Definition value_error (e : Exn) : bool :=
  match e with
  | ValueError => true
  | _ => false
  end.

(** [context.user_data[key] = value], one per key. *)
Definition set_add_title (v : string) (ud : Session) : Session :=
  mkSession (Some v) (ud_add_results ud) (ud_recommend_films ud)
    (ud_recommend_film ud) (ud_film_page ud) (ud_recommend_genre_id ud)
    (ud_genre_page ud) (ud_list_films ud).

Definition set_add_results (v : list Candidate) (ud : Session) : Session :=
  mkSession (ud_add_title ud) (Some v) (ud_recommend_films ud)
    (ud_recommend_film ud) (ud_film_page ud) (ud_recommend_genre_id ud)
    (ud_genre_page ud) (ud_list_films ud).

Definition set_recommend_films (v : list Film) (ud : Session) : Session :=
  mkSession (ud_add_title ud) (ud_add_results ud) (Some v)
    (ud_recommend_film ud) (ud_film_page ud) (ud_recommend_genre_id ud)
    (ud_genre_page ud) (ud_list_films ud).

Definition set_recommend_film (v : Film) (ud : Session) : Session :=
  mkSession (ud_add_title ud) (ud_add_results ud) (ud_recommend_films ud)
    (Some v) (ud_film_page ud) (ud_recommend_genre_id ud)
    (ud_genre_page ud) (ud_list_films ud).

Definition set_film_page (v : Z) (ud : Session) : Session :=
  mkSession (ud_add_title ud) (ud_add_results ud) (ud_recommend_films ud)
    (ud_recommend_film ud) (Some v) (ud_recommend_genre_id ud)
    (ud_genre_page ud) (ud_list_films ud).

Definition set_recommend_genre_id (v : Z) (ud : Session) : Session :=
  mkSession (ud_add_title ud) (ud_add_results ud) (ud_recommend_films ud)
    (ud_recommend_film ud) (ud_film_page ud) (Some v)
    (ud_genre_page ud) (ud_list_films ud).

Definition set_genre_page (v : Z) (ud : Session) : Session :=
  mkSession (ud_add_title ud) (ud_add_results ud) (ud_recommend_films ud)
    (ud_recommend_film ud) (ud_film_page ud) (ud_recommend_genre_id ud)
    (Some v) (ud_list_films ud).

Definition set_list_films (v : list Film) (ud : Session) : Session :=
  mkSession (ud_add_title ud) (ud_add_results ud) (ud_recommend_films ud)
    (ud_recommend_film ud) (ud_film_page ud) (ud_recommend_genre_id ud)
    (ud_genre_page ud) (Some v).

Definition update_user_data (f : Session -> Session) : M unit :=
  let* ud := get_user_data in put_user_data (f ud).

Definition answer : M unit := emit Answer.

Definition reply_text (text : Text) (reply_markup : Markup) : M unit :=
  emit (ReplyText text reply_markup).

Definition edit_text (text : Text) (reply_markup : Markup) : M unit :=
  emit (EditText text reply_markup).

(** ** Film store ([load_films], [save_films], lines 62-70) *)

(** The document [load_films] reads: [{}] while the file does not exist. *)
Definition stored (w : World) : gmap string (list Film) :=
  match data_file w with
  | None => ∅
  | Some data => data
  end.

Definition load_films : M (gmap string (list Film)) :=
  let* w := get_world in ret (stored w).

Definition save_films (data : gmap string (list Film)) : M unit :=
  let* w := get_world in
  put_world (mkWorld (Some data) (_genre_cache w) (http_client w)) >>>
  emit (WriteFile data).

(** ** The data file as text ([json.load] and [json.dump], lines 62-70)

    [DATA_FILE] holds JSON text, which is read and written as UTF-8 and
    is held here as these bytes.  A JSON value as [json.load] gives it; a
    number with a fraction or an exponent would be a [float], which no
    document of the bot holds and which has no place here. *)
#[local] Unset Elimination Schemes.
Inductive Json :=
| JNull
| JBool (b : bool)
| JInt (i : Z)
| JStr (s : string)
| JList (items : list Json)
| JDict (members : list (string * Json)).
#[local] Set Elimination Schemes.

Definition quote : ascii := ascii_of_nat 34.
Definition backslash : ascii := ascii_of_nat 92.
Definition newline : ascii := ascii_of_nat 10.

Definition hex_digit (n : nat) : ascii :=
  if (n <? 10)%nat then ascii_of_nat (48 + n) else ascii_of_nat (87 + n).

(** The escapes of [json.dump(..., ensure_ascii=False)]: the quote, the
    backslash and the control characters; every other character is
    written as it is. *)
Definition escape (c : ascii) : string :=
  let n := nat_of_ascii c in
  if Ascii.eqb c quote then String backslash (String quote EmptyString)
  else if Ascii.eqb c backslash then String backslash (String backslash EmptyString)
  else if (n =? 10)%nat then String backslash "n"
  else if (n =? 13)%nat then String backslash "r"
  else if (n =? 9)%nat then String backslash "t"
  else if (n =? 8)%nat then String backslash "b"
  else if (n =? 12)%nat then String backslash "f"
  else if (n <? 32)%nat then
    String backslash
      (String "u" (String "0" (String "0"
         (String (hex_digit (n / 16)) (String (hex_digit (n mod 16)) EmptyString)))))
  else String c EmptyString.

Fixpoint escape_all (s : string) : string :=
  match s with
  | EmptyString => EmptyString
  | String c s' => escape c +:+ escape_all s'
  end.

Definition encode_string (s : string) : string :=
  String quote (escape_all s +:+ String quote EmptyString).

Fixpoint spaces (n : nat) : string :=
  match n with
  | O => EmptyString
  | S n' => String " " (spaces n')
  end.

(** The line break and the indentation of nesting depth [level], for
    [indent=2]. *)
Definition newline_indent (level : nat) : string :=
  String newline (spaces (2 * level)).

(** [json.dumps(v, ensure_ascii=False, indent=2)], at nesting depth
    [level]. *)
Fixpoint encode (level : nat) (v : Json) : string :=
  match v with
  | JNull => "null"
  | JBool true => "true"
  | JBool false => "false"
  | JInt i => str i
  | JStr s => encode_string s
  | JList [] => "[]"
  | JList (x :: xs) =>
      "[" +:+ newline_indent (S level) +:+ encode (S level) x +:+
      (fix rest (l : list Json) : string :=
         match l with
         | [] => newline_indent level +:+ "]"
         | y :: l' =>
             "," +:+ newline_indent (S level) +:+ encode (S level) y +:+ rest l'
         end) xs
  | JDict [] => "{}"
  | JDict ((k, x) :: ms) =>
      "{" +:+ newline_indent (S level) +:+ encode_string k +:+ ": " +:+
      encode (S level) x +:+
      (fix rest (l : list (string * Json)) : string :=
         match l with
         | [] => newline_indent level +:+ "}"
         | (k', y) :: l' =>
             "," +:+ newline_indent (S level) +:+ encode_string k' +:+ ": " +:+
             encode (S level) y +:+ rest l'
         end) ms
  end.

(** White space between the tokens of JSON text. *)
Definition is_json_space (c : ascii) : bool :=
  let n := nat_of_ascii c in
  ((n =? 32) || (n =? 9) || (n =? 10) || (n =? 13))%nat.

Fixpoint skip_space (s : string) : string :=
  match s with
  | EmptyString => EmptyString
  | String c s' => if is_json_space c then skip_space s' else s
  end.

Definition hex_value (c : ascii) : option nat :=
  let n := nat_of_ascii c in
  if ((48 <=? n) && (n <=? 57))%nat then Some (n - 48)%nat
  else if ((97 <=? n) && (n <=? 102))%nat then Some (n - 87)%nat
  else if ((65 <=? n) && (n <=? 70))%nat then Some (n - 55)%nat
  else None.

(** The UTF-8 bytes of a character of the basic plane.  A surrogate (a
    code from D800 to DFFF, the 28th block of 2048 codes) has none:
    [None]. *)
Definition utf8 (code : nat) : option string :=
  if (code <? 128)%nat then Some (String (ascii_of_nat code) EmptyString)
  else if (code <? 2048)%nat then
    Some (String (ascii_of_nat (192 + code / 64))
            (String (ascii_of_nat (128 + code mod 64)) EmptyString))
  else if (code / 2048 =? 27)%nat then None
  else
    Some (String (ascii_of_nat (224 + code / 4096))
            (String (ascii_of_nat (128 + (code / 64) mod 64))
               (String (ascii_of_nat (128 + code mod 64)) EmptyString))).

Definition unescape (c : ascii) : option ascii :=
  if Ascii.eqb c quote then Some quote
  else if Ascii.eqb c backslash then Some backslash
  else if Ascii.eqb c "/" then Some "/"%char
  else if Ascii.eqb c "b" then Some (ascii_of_nat 8)
  else if Ascii.eqb c "f" then Some (ascii_of_nat 12)
  else if Ascii.eqb c "n" then Some (ascii_of_nat 10)
  else if Ascii.eqb c "r" then Some (ascii_of_nat 13)
  else if Ascii.eqb c "t" then Some (ascii_of_nat 9)
  else None.

Definition prepend (t : string) (r : option (string * string))
    : option (string * string) :=
  match r with
  | Some (s, rest) => Some (t +:+ s, rest)
  | None => None
  end.

(** A string literal after its opening quote: the characters it stands
    for and the text after its closing quote.  [None] is a literal that
    [json.load] refuses (no closing quote, a control character, an unknown
    escape) or one with an escaped surrogate. *)
Fixpoint scan_string (s : string) : option (string * string) :=
  match s with
  | EmptyString => None
  | String c s' =>
      if Ascii.eqb c quote then Some (EmptyString, s')
      else if Ascii.eqb c backslash then
        match s' with
        | String e s'' =>
            if Ascii.eqb e "u" then
              match s'' with
              | String h1 (String h2 (String h3 (String h4 r))) =>
                  match hex_value h1, hex_value h2, hex_value h3, hex_value h4 with
                  | Some x1, Some x2, Some x3, Some x4 =>
                      match utf8 (((x1 * 16 + x2) * 16 + x3) * 16 + x4) with
                      | Some t => prepend t (scan_string r)
                      | None => None
                      end
                  | _, _, _, _ => None
                  end
              | _ => None
              end
            else
              match unescape e with
              | Some c' => prepend (String c' EmptyString) (scan_string s'')
              | None => None
              end
        | EmptyString => None
        end
      else if (nat_of_ascii c <? 32)%nat then None
      else prepend (String c EmptyString) (scan_string s')
  end.

(** The digits at the head of a text, and the rest. *)
Fixpoint span_digits (s : string) : string * string :=
  match s with
  | String c s' =>
      if is_digit c then
        let (ds, rest) := span_digits s' in (String c ds, rest)
      else (EmptyString, s)
  | EmptyString => (EmptyString, EmptyString)
  end.

Definition starts_fraction (s : string) : bool :=
  match s with
  | String c _ => Ascii.eqb c "." || Ascii.eqb c "e" || Ascii.eqb c "E"
  | EmptyString => false
  end.

(** An integer: digits without a leading zero, after an optional minus
    sign.  What goes on as a fraction or an exponent is a [float]. *)
Definition scan_natural (s : string) : option (Z * string) :=
  let (ds, rest) := span_digits s in
  match ds with
  | EmptyString => None
  | String d ds' =>
      if Ascii.eqb d "0" && negb (String.eqb ds' EmptyString) then None
      else if starts_fraction rest then None
      else
        match NilEmpty.uint_of_string ds with
        | Some u => Some (Z.of_uint u, rest)
        | None => None
        end
  end.

Definition scan_number (s : string) : option (Z * string) :=
  match s with
  | String c s' =>
      if Ascii.eqb c "-" then
        match scan_natural s' with
        | Some (n, rest) => Some (- n, rest)
        | None => None
        end
      else scan_natural s
  | EmptyString => None
  end.

(** The words [null], [true] and [false]. *)
Definition scan_word (s : string) : option (Json * string) :=
  match s with
  | String "n" (String "u" (String "l" (String "l" rest))) => Some (JNull, rest)
  | String "t" (String "r" (String "u" (String "e" rest))) => Some (JBool true, rest)
  | String "f" (String "a" (String "l" (String "s" (String "e" rest)))) =>
      Some (JBool false, rest)
  | _ => None
  end.

(** The value at the head of a text and the text after it, as the decoder
    of [json.load] scans it.  [fuel] bounds the nesting and the number of
    items. *)
Fixpoint scan_value (fuel : nat) (s : string) : option (Json * string) :=
  match fuel with
  | O => None
  | S fuel' =>
      match s with
      | EmptyString => None
      | String c r =>
          if Ascii.eqb c quote then
            match scan_string r with
            | Some (t, rest) => Some (JStr t, rest)
            | None => None
            end
          else if Ascii.eqb c "[" then
            match skip_space r with
            | String c' rest =>
                if Ascii.eqb c' "]" then Some (JList [], rest)
                else
                  match scan_items fuel' (String c' rest) with
                  | Some (items, rest') => Some (JList items, rest')
                  | None => None
                  end
            | EmptyString => None
            end
          else if Ascii.eqb c "{" then
            match skip_space r with
            | String c' rest =>
                if Ascii.eqb c' "}" then Some (JDict [], rest)
                else
                  match scan_members fuel' (String c' rest) with
                  | Some (members, rest') => Some (JDict members, rest')
                  | None => None
                  end
            | EmptyString => None
            end
          else if Ascii.eqb c "n" || Ascii.eqb c "t" || Ascii.eqb c "f" then
            scan_word s
          else
            match scan_number s with
            | Some (i, rest) => Some (JInt i, rest)
            | None => None
            end
      end
  end

with scan_items (fuel : nat) (s : string) : option (list Json * string) :=
  match fuel with
  | O => None
  | S fuel' =>
      match scan_value fuel' s with
      | Some (v, rest) =>
          match skip_space rest with
          | String c rest' =>
              if Ascii.eqb c "," then
                match scan_items fuel' (skip_space rest') with
                | Some (vs, rest'') => Some (v :: vs, rest'')
                | None => None
                end
              else if Ascii.eqb c "]" then Some ([v], rest')
              else None
          | EmptyString => None
          end
      | None => None
      end
  end

with scan_members (fuel : nat) (s : string)
    : option (list (string * Json) * string) :=
  match fuel with
  | O => None
  | S fuel' =>
      match s with
      | String q r =>
          if Ascii.eqb q quote then
            match scan_string r with
            | Some (k, rest) =>
                match skip_space rest with
                | String c rest' =>
                    if Ascii.eqb c ":" then
                      match scan_value fuel' (skip_space rest') with
                      | Some (v, rest'') =>
                          match skip_space rest'' with
                          | String c' rest''' =>
                              if Ascii.eqb c' "," then
                                match scan_members fuel' (skip_space rest''') with
                                | Some (ms, rest4) => Some ((k, v) :: ms, rest4)
                                | None => None
                                end
                              else if Ascii.eqb c' "}" then Some ([(k, v)], rest''')
                              else None
                          | EmptyString => None
                          end
                      | None => None
                      end
                    else None
                | EmptyString => None
                end
            | None => None
            end
          else None
      | EmptyString => None
      end
  end.

(** [json.loads(text)]: one value, with white space around it. *)
Definition decode (text : string) : option Json :=
  match scan_value (S (String.length text)) (skip_space text) with
  | Some (v, rest) =>
      match skip_space rest with
      | EmptyString => Some v
      | _ => None
      end
  | None => None
  end.

(** ** Documents as JSON values

    A document is a [dict] from user id to a list of film records, each a
    [dict] with the keys ['id'], ['title'] and ['genres'] (line 193).  The
    users of a document are written in the order of [map_to_list]; the
    order Python keeps is not modelled. *)
Definition Document := gmap string (list Film).

Definition json_of_film (f : Film) : Json :=
  JDict [("id"%string, JInt (film_id f));
         ("title"%string, JStr (film_title f));
         ("genres"%string, JList (map JStr (film_genres f)))].

Definition json_of_document (data : Document) : Json :=
  JDict (map (fun entry => (fst entry, JList (map json_of_film (snd entry))))
             (map_to_list data)).

(** The [dict] of an object's members: of two members with one key the
    later one counts. *)
Definition dict_of_members {A} (members : list (string * A)) : gmap string A :=
  list_to_map (reverse members).

Definition string_of_json (v : Json) : option string :=
  match v with
  | JStr s => Some s
  | _ => None
  end.

(** The film record a value stands for; [None] when it is of another
    shape. *)
Definition film_of_json (v : Json) : option Film :=
  match v with
  | JDict members =>
      let d := dict_of_members members in
      match d !! "id"%string, d !! "title"%string, d !! "genres"%string with
      | Some (JInt i), Some (JStr title), Some (JList genres) =>
          if bool_decide (size d = 3%nat) then
            match mapM string_of_json genres with
            | Some names => Some (mkFilm i title names)
            | None => None
            end
          else None
      | _, _, _ => None
      end
  | _ => None
  end.

Definition films_of_json (v : Json) : option (list Film) :=
  match v with
  | JList items => mapM film_of_json items
  | _ => None
  end.

Definition document_of_json (v : Json) : option Document :=
  match v with
  | JDict members =>
      match mapM (fun member =>
                    match films_of_json (snd member) with
                    | Some films => Some (fst member, films)
                    | None => None
                    end) members with
      | Some entries => Some (dict_of_members entries)
      | None => None
      end
  | _ => None
  end.

(** [json.dump(data, f, ensure_ascii=False, indent=2)]: the text written. *)
Definition json_dump (data : Document) : string :=
  encode 0 (json_of_document data).

(** [json.load(f)] on a file that holds [text]: the document, or [None]
    when [json.load] raises or the value is no document. *)
Definition json_load (text : string) : option Document :=
  match decode text with
  | Some v => document_of_json v
  | None => None
  end.

(** [load_films()] and [save_films(data)] on the file itself: [None] is a
    file that does not exist. *)
Definition load_films_from (file : option string) : option Document :=
  match file with
  | None => Some ∅
  | Some text => json_load text
  end.

Definition save_films_to (data : Document) : option string :=
  Some (json_dump data).

(** The nodes of a value: a bound on the fuel its text needs. *)
Fixpoint weight (v : Json) : nat :=
  match v with
  | JList items =>
      S ((fix sum (l : list Json) : nat :=
            match l with
            | [] => O
            | x :: l' => S (weight x + sum l')
            end) items)
  | JDict members =>
      S ((fix sum (l : list (string * Json)) : nat :=
            match l with
            | [] => O
            | (_, x) :: l' => S (weight x + sum l')
            end) members)
  | _ => 1%nat
  end.

(** A text before which an integer ends: not a digit, and no fraction or
    exponent. *)
Definition ends_number (rest : string) : bool :=
  match rest with
  | String c _ => negb (is_digit c) && negb (starts_fraction rest)
  | EmptyString => true
  end.

(** The items and members after the first, with the closing bracket, and
    their nodes, as [encode] and [weight] go through them. *)
Definition encode_items (level : nat) (items : list Json) : string :=
  (fix rest (l : list Json) : string :=
     match l with
     | [] => newline_indent level +:+ "]"
     | y :: l' =>
         "," +:+ newline_indent (S level) +:+ encode (S level) y +:+ rest l'
     end) items.

Definition encode_members (level : nat) (members : list (string * Json)) : string :=
  (fix rest (l : list (string * Json)) : string :=
     match l with
     | [] => newline_indent level +:+ "}"
     | (k', y) :: l' =>
         "," +:+ newline_indent (S level) +:+ encode_string k' +:+ ": " +:+
         encode (S level) y +:+ rest l'
     end) members.

Definition weight_items (items : list Json) : nat :=
  (fix sum (l : list Json) : nat :=
     match l with
     | [] => O
     | x :: l' => S (weight x + sum l')
     end) items.

Definition weight_members (members : list (string * Json)) : nat :=
  (fix sum (l : list (string * Json)) : nat :=
     match l with
     | [] => O
     | (_, x) :: l' => S (weight x + sum l')
     end) members.

(** Where the text of a value begins: no white space and no closing
    bracket. *)
Definition begins_value (c : ascii) : Prop :=
  is_json_space c = false /\ Ascii.eqb c "]" = false /\ Ascii.eqb c "}" = false.

(** The property of a value that its text is read back, at every depth
    and before every text at which a number would end. *)
Definition reads_back (v : Json) : Prop :=
  forall level rest fuel,
    ends_number rest = true -> (weight v <= fuel)%nat ->
    scan_value fuel (encode level v +:+ rest) = Some (v, rest).

(** The file a process state stands for: [data_file] is the document
    that [load_films] reads from it. *)
Definition holds (file : option string) (w : World) : Prop :=
  match file, data_file w with
  | None, None => True
  | Some text, Some data => json_load text = Some data
  | _, _ => False
  end.

(** [if not http_client: http_client = httpx.AsyncClient(...)] *)
Definition ensure_http_client : M unit :=
  let* w := get_world in
  if http_client w then ret tt
  else put_world (mkWorld (data_file w) (_genre_cache w) true).

(** [await tmdb_rate_limiter.acquire()] followed by the [GET] and the
    decoding of its answer.  The limiter delays the call and changes
    nothing else (with [max_requests = 8] its [acquire] never raises), so
    only the request and the reply appear here. *)
Definition http_get {A} (request : Request) (reply : Reply A) : M A :=
  emit (HttpGet request) >>>
  match reply with
  | Fails e => raise e
  | Gives a => ret a
  end.

(** ** Commands that only answer (lines 93-117, 206-217, 439-447) *)

Definition start : M (option ConvState) :=
  reply_text TxtStart global_keyboard >>> ret None.

Definition help_command : M (option ConvState) :=
  reply_text TxtHelp global_keyboard >>> ret None.

Definition add_start : M (option ConvState) :=
  reply_text TxtEnterTitle global_keyboard >>> ret (Some ADD_TITLE).

Definition add_cancel : M (option ConvState) :=
  reply_text TxtAddCancelled global_keyboard >>> ret (Some END).

Definition recommend_start : M (option ConvState) :=
  reply_text TxtWhichRecommendation
    (InlineKeyboardMarkup [[CallbackButton LblByFilm "by_film"];
                           [CallbackButton LblByGenre "by_genre"]]) >>>
  ret (Some RECOMMEND_CHOOSE).

Definition recommend_cancel : M (option ConvState) :=
  reply_text TxtRecommendCancelled global_keyboard >>> ret (Some END).

Definition close_recommendations : M (option ConvState) :=
  answer >>> edit_text TxtClosed NoMarkup >>> ret (Some END).

Section Handlers.

(** The answers of the metadata service during one handler run. *)
Variable tmdb : Tmdb.

(** ** Genre taxonomy ([get_genres], lines 73-90)

    [if _genre_cache:] is true for a non-empty dictionary only.  The
    value returned inside [try] is [Some]; falling out of the [try], by
    another status code or by an exception, is [None]. *)
Definition get_genres : M Genres :=
  let* w := get_world in
  match _genre_cache w with
  | Some (g :: gs) => ret (g :: gs)
  | _ =>
      ensure_http_client >>>
      let* returned :=
        try_except
          (let* resp := http_get GenreListRequest (tmdb_genre_list tmdb) in
           if fst resp =? 200 then
             let genres := genres_of_list (snd resp) in
             let* w := get_world in
             put_world (mkWorld (data_file w) (Some genres) (http_client w)) >>>
             ret (Some genres)
           else ret None)
          any_exception
          (fun _ => ret None) in
      match returned with
      | Some genres => ret genres
      | None => ret []
      end
  end.

(** ** Adding a film (lines 120-204) *)

(** [add_save_film(update_or_query, context, film)].  [from_user_id] is
    the value of [str(update_or_query.from_user.id)], or [None] when the
    object passed has no attribute [from_user] and the lookup raises. *)
Definition add_save_film (from_user_id : option string) (film : Candidate)
    : M (option ConvState) :=
  try_except
    (let* user_id := or_raise AttributeError from_user_id in
     let* films := load_films in
     let user_films := default [] (films !! user_id) in
     if existsb (fun f => film_id f =? cand_id film) user_films then
       reply_text TxtAlreadyInList global_keyboard >>>
       ret (Some END)
     else
       let* genres := get_genres in
       let genre_names :=
         map (fun gid => default EmptyString (dict_get gid genres)) (genre_ids film) in
       let user_films :=
         user_films ++ [mkFilm (cand_id film) (cand_title film) genre_names] in
       let films := <[user_id := user_films]> films in
       save_films films >>>
       reply_text (TxtAdded (cand_title film) genre_names) global_keyboard >>>
       ret (Some END))
    any_exception
    (fun _ =>
       reply_text TxtSaveError global_keyboard >>>
       ret (Some END)).

(** [add_title].  Two things of the libraries are taken as given:
    [RequestException] is the class test of [httpx.RequestException]
    ([None] if the module has no such attribute, in which case evaluating
    the [except] clause raises [AttributeError]), and [update_from_user_id]
    is the value of [str(update.from_user.id)] for the [Update] that is
    handed to [add_save_film]. *)
Definition add_title (RequestException : option (Exn -> bool))
    (update_from_user_id : option string) (text : string) : M (option ConvState) :=
  let title := strip text in
  update_user_data (set_add_title title) >>>
  try_except
    (ensure_http_client >>>
     let* results := http_get (SearchRequest title) (tmdb_search tmdb title) in
     match results with
     | [] =>
         reply_text TxtFilmNotFound global_keyboard >>>
         ret (Some ADD_TITLE)
     | [film] => add_save_film update_from_user_id film
     | _ =>
         let keyboard :=
           imap (fun i film =>
                   [CallbackButton
                      (LblCandidate (cand_title film) (substring 0 4 (release_date film)))
                      (str (Z.of_nat i))])
                (take 5 results) in
         update_user_data (set_add_results results) >>>
         reply_text TxtChooseFilm (InlineKeyboardMarkup keyboard) >>>
         ret (Some ADD_CHOICE)
     end)
    any_exception
    (fun e =>
       match RequestException with
       | None => raise AttributeError
       | Some is_request_exception =>
           if is_request_exception e then
             reply_text TxtSearchError global_keyboard >>>
             ret (Some ADD_TITLE)
           else
             reply_text TxtUnexpectedError global_keyboard >>>
             ret (Some ADD_TITLE)
       end).

(** [add_choice]; [user_id] is [str(query.from_user.id)] and [data] is
    [query.data]. *)
Definition add_choice (user_id : string) (data : string) : M (option ConvState) :=
  answer >>>
  let* ud := get_user_data in
  match ud_add_results ud with
  | None =>
      edit_text TxtNoAddResults NoMarkup >>>
      ret (Some END)
  | Some add_results =>
      try_except
        (let* idx := or_raise ValueError (int_ data) in
         let* film := or_raise IndexError (getitem add_results idx) in
         add_save_film (Some user_id) film)
        value_or_index_error
        (fun _ =>
           edit_text TxtChoiceError NoMarkup >>>
           ret (Some END))
  end.

(** ** Recommendations (lines 219-437) *)

Definition items_per_page : Z := 5.

(** The single row [[Close]] under an empty or failed page. *)
Definition close_only : Markup :=
  InlineKeyboardMarkup [[CallbackButton LblClose "close_recommendations"]].

Definition tmdb_url (film_id : string) : string :=
  "https://www.themoviedb.org/movie/" +:+ film_id.

(** [[genres_dict.get(gid, '') for gid in genres if genres_dict.get(gid)]] *)
Definition known_genre_names (genres_dict : Genres) (genres : list Z) : list string :=
  omap (fun gid =>
          match dict_get gid genres_dict with
          | Some (String c name) => Some (String c name)
          | _ => None
          end) genres.

(** The text lines and the link buttons of a page of recommendations. *)
Definition recommendation_lines (genres_dict : Genres) (films : list Candidate)
    : list (string * list string) :=
  map (fun rec_film =>
         (cand_title rec_film, known_genre_names genres_dict (genre_ids rec_film)))
      films.

Definition recommendation_buttons (films : list Candidate) : list (list Button) :=
  imap (fun i rec_film =>
          [UrlButton (LblNumbered (i + 1) (cand_title rec_film))
                     (tmdb_url (str (cand_id rec_film)))])
       films.

(** [recommend_choose] *)
Definition recommend_choose (user_id : string) (data : string) : M (option ConvState) :=
  answer >>>
  if String.eqb data "by_film" then
    let* all_films := load_films in
    let films := default [] (all_films !! user_id) in
    match films with
    | [] =>
        edit_text TxtNoFilmsForRecommendations NoMarkup >>>
        ret (Some END)
    | _ =>
        let keyboard :=
          imap (fun i f => [CallbackButton (LblTitle (film_title f)) (str (Z.of_nat i))])
               films in
        edit_text TxtPickFilm (InlineKeyboardMarkup keyboard) >>>
        update_user_data (set_recommend_films films) >>>
        ret (Some RECOMMEND_FILM_PICK)
    end
  else if String.eqb data "by_genre" then
    let* genres := get_genres in
    let keyboard :=
      map (fun g => [CallbackButton (LblTitle (snd g)) (str (fst g))]) genres in
    edit_text TxtPickGenre (InlineKeyboardMarkup keyboard) >>>
    ret (Some RECOMMEND_GENRE_PICK)
  else
    edit_text TxtUnknownChoice NoMarkup >>>
    ret (Some END).

(** Lines 281-282. *)
Definition tmdb_page (bot_page : Z) : Z := (bot_page - 1) / 4 + 1.

Definition tmdb_results_offset (bot_page : Z) : Z :=
  ((bot_page - 1) mod 4) * items_per_page.

(** Lines 295-304: the films shown on page [bot_page], from the upstream
    [results] and the ids of the films the user has saved. *)
Definition page_films (user_films : list Z) (bot_page : Z) (results : list Candidate)
    : list Candidate :=
  let new_films :=
    List.filter (fun f => negb (existsb (Z.eqb (cand_id f)) user_films)) results in
  let start_idx := tmdb_results_offset bot_page in
  let end_idx := start_idx + items_per_page in
  match slice new_films start_idx end_idx with
  | [] => slice results start_idx end_idx
  | shown => shown
  end.

(** Lines 274-341: the page of recommendations for [film]. *)
Definition show_film_page (user_id : string) (film : Film) : M (option ConvState) :=
  try_except
    (let* ud := get_user_data in
     let* bot_page := or_raise KeyError (ud_film_page ud) in
     let* all_films := load_films in
     let user_films := map film_id (default [] (all_films !! user_id)) in
     ensure_http_client >>>
     let* results :=
       http_get (RecommendationsRequest (film_id film) (tmdb_page bot_page))
                (tmdb_recommendations tmdb (film_id film) (tmdb_page bot_page)) in
     match page_films user_films bot_page results with
     | [] =>
         edit_text TxtNoMore close_only >>>
         ret (Some RECOMMEND_MORE_FILM)
     | shown =>
         let* genres_dict := get_genres in
         let nav_buttons :=
           (if 1 <? bot_page
            then [CallbackButton LblBack ("film_page_" +:+ str (bot_page - 1))]
            else []) ++
           [CallbackButton LblMore "more_film";
            CallbackButton LblClose "close_recommendations"] in
         edit_text
           (TxtFilmRecommendations (film_title film)
              (recommendation_lines genres_dict shown))
           (InlineKeyboardMarkup (recommendation_buttons shown ++ [nav_buttons])) >>>
         ret (Some RECOMMEND_MORE_FILM)
     end)
    any_exception
    (fun _ =>
       edit_text TxtRecommendError close_only >>>
       ret (Some RECOMMEND_MORE_FILM)).

(** [recommend_film_pick].  The first part (lines 247-273) finds the film
    to recommend for: [Some film], or [None] when it has already answered
    and returned [END]. *)
Definition recommend_film_pick (user_id : string) (data : string)
    : M (option ConvState) :=
  answer >>>
  if String.eqb data "close_recommendations" then
    edit_text TxtClosed NoMarkup >>>
    ret (Some END)
  else if startswith data "add_rec_" then
    let* film_id := or_raise IndexError (split "_" data !! 2%nat) in
    edit_text (TxtOpening (tmdb_url film_id)) NoMarkup >>>
    ret (Some END)
  else
    let* chosen :=
      if startswith data "film_page_" then
        let* part := or_raise IndexError (split "_" data !! 2%nat) in
        let* page := or_raise ValueError (int_ part) in
        update_user_data (set_film_page page) >>>
        let* ud := get_user_data in
        let* film := or_raise KeyError (ud_recommend_film ud) in
        ret (Some film)
      else if String.eqb data "more_film" then
        let* ud := get_user_data in
        let page := default 1 (ud_film_page ud) + 1 in
        update_user_data (set_film_page page) >>>
        let* film := or_raise KeyError (ud_recommend_film ud) in
        ret (Some film)
      else
        try_except
          (let* idx := or_raise ValueError (int_ data) in
           let* ud := get_user_data in
           let* recommend_films := or_raise KeyError (ud_recommend_films ud) in
           let* film := or_raise IndexError (getitem recommend_films idx) in
           update_user_data (set_recommend_film film) >>>
           update_user_data (set_film_page 1) >>>
           ret (Some film))
          value_or_index_error
          (fun _ =>
             edit_text TxtUnknownChoice NoMarkup >>>
             ret None) in
    match chosen with
    | None => ret (Some END)
    | Some film => show_film_page user_id film
    end.

(** Lines 379-437: the page of recommendations for [genre_id]. *)
Definition show_genre_page (user_id : string) (genre_id : Z) : M (option ConvState) :=
  try_except
    (let* genres_dict := get_genres in
     let genre_name := dict_get genre_id genres_dict in
     let* ud := get_user_data in
     let* page := or_raise KeyError (ud_genre_page ud) in
     let* all_films := load_films in
     let user_films := map film_id (default [] (all_films !! user_id)) in
     ensure_http_client >>>
     let* results :=
       http_get (DiscoverRequest genre_id page) (tmdb_discover tmdb genre_id page) in
     let new_films :=
       match List.filter (fun f => negb (existsb (Z.eqb (cand_id f)) user_films))
                         results with
       | [] => take 5 results
       | unseen => unseen
       end in
     match new_films with
     | [] =>
         edit_text TxtNoMore close_only >>>
         ret (Some RECOMMEND_MORE_GENRE)
     | _ =>
         let nav_buttons :=
           (if 1 <? page
            then [CallbackButton LblBack ("genre_page_" +:+ str (page - 1))]
            else []) ++
           [CallbackButton LblMore "more_genre";
            CallbackButton LblClose "close_recommendations"] in
         edit_text
           (TxtGenreRecommendations genre_name
              (recommendation_lines genres_dict new_films))
           (InlineKeyboardMarkup (recommendation_buttons new_films ++ [nav_buttons])) >>>
         ret (Some RECOMMEND_MORE_GENRE)
     end)
    any_exception
    (fun _ =>
       edit_text TxtRecommendError close_only >>>
       ret (Some RECOMMEND_MORE_GENRE)).

(** [recommend_genre_pick] *)
Definition recommend_genre_pick (user_id : string) (data : string)
    : M (option ConvState) :=
  answer >>>
  if String.eqb data "close_recommendations" then
    edit_text TxtClosed NoMarkup >>>
    ret (Some END)
  else if startswith data "add_rec_" then
    let* film_id := or_raise IndexError (split "_" data !! 2%nat) in
    edit_text (TxtOpening (tmdb_url film_id)) NoMarkup >>>
    ret (Some END)
  else
    let* chosen :=
      if String.eqb data "more_genre" then
        let* ud := get_user_data in
        let page := default 1 (ud_genre_page ud) + 1 in
        update_user_data (set_genre_page page) >>>
        let* genre_id := or_raise KeyError (ud_recommend_genre_id ud) in
        ret (Some genre_id)
      else if startswith data "genre_page_" then
        let* part := or_raise IndexError (split "_" data !! 2%nat) in
        let* page := or_raise ValueError (int_ part) in
        update_user_data (set_genre_page page) >>>
        let* ud := get_user_data in
        let* genre_id := or_raise KeyError (ud_recommend_genre_id ud) in
        ret (Some genre_id)
      else
        try_except
          (let* genre_id := or_raise ValueError (int_ data) in
           update_user_data (set_recommend_genre_id genre_id) >>>
           update_user_data (set_genre_page 1) >>>
           ret (Some genre_id))
          value_error
          (fun _ =>
             edit_text TxtUnknownChoice NoMarkup >>>
             ret None) in
    match chosen with
    | None => ret (Some END)
    | Some genre_id => show_genre_page user_id genre_id
    end.

(** ** Listing and deleting (lines 449-468 and 487-584) *)

Definition delete_button : Markup :=
  InlineKeyboardMarkup [[CallbackButton LblDelete "show_delete_interface"]].

(** [list_films]; [user_id] is [str(update.message.from_user.id)]. *)
Definition list_films (user_id : string) : M (option ConvState) :=
  let* all_films := load_films in
  let films := default [] (all_films !! user_id) in
  match films with
  | [] =>
      reply_text TxtListEmpty global_keyboard >>>
      ret (Some END)
  | _ =>
      update_user_data (set_list_films films) >>>
      reply_text (TxtYourFilms films) delete_button >>>
      ret (Some LIST_SHOW)
  end.

(** [film['title'][:30] + "..." if len(film['title']) > 30 else film['title']] *)
Definition button_text (title : string) : string :=
  if (30 <? len title)%nat then slice_chars 30 title +:+ "..." else title.

(** [list_delete_film].  [films] is the list object held by the session
    under ['list_films'] (a fresh empty list when the key is absent), so
    [films.pop] changes the session at once; a return value [None] is a
    handler that runs off its last [elif]. *)
Definition list_delete_film (user_id : string) (data : string) : M (option ConvState) :=
  answer >>>
  let* ud := get_user_data in
  let films := default [] (ud_list_films ud) in
  if String.eqb data "show_delete_interface" then
    match films with
    | [] =>
        reply_text TxtListEmpty global_keyboard >>>
        ret (Some END)
    | _ =>
        let keyboard :=
          imap (fun i film =>
                  [CallbackButton (LblDeleteFilm (button_text (film_title film)))
                                  ("delete_" +:+ str (Z.of_nat i))])
               films ++
          [[CallbackButton LblCancelDelete "cancel_delete"]] in
        edit_text TxtChooseDelete (InlineKeyboardMarkup keyboard) >>>
        ret (Some LIST_SHOW)
    end
  else if String.eqb data "cancel_delete" then
    edit_text (TxtYourFilms films) delete_button >>>
    ret (Some LIST_SHOW)
  else if String.eqb data "show_updated_list" then
    match films with
    | [] =>
        reply_text TxtListEmpty global_keyboard >>>
        ret (Some END)
    | _ =>
        edit_text (TxtUpdatedList films) delete_button >>>
        ret (Some LIST_SHOW)
    end
  else if startswith data "delete_" then
    try_except
      (let* part := or_raise IndexError (split "_" data !! 1%nat) in
       let* film_index := or_raise ValueError (int_ part) in
       if Z.of_nat (length films) <=? film_index then
         reply_text TxtDeleteNotFound global_keyboard >>>
         ret (Some END)
       else
         let* film_to_delete := or_raise IndexError (getitem films film_index) in
         let* films := or_raise IndexError (pop films film_index) in
         update_user_data (set_list_films films) >>>
         let* all_films := load_films in
         save_films (<[user_id := films]> all_films) >>>
         reply_text (TxtDeleted (film_title film_to_delete)) global_keyboard >>>
         match films with
         | _ :: _ =>
             reply_text TxtWantUpdatedList
               (InlineKeyboardMarkup
                  [[CallbackButton LblShowUpdated "show_updated_list"]]) >>>
             update_user_data (set_list_films films) >>>
             ret (Some LIST_SHOW)
         | [] =>
             reply_text TxtListNowEmpty global_keyboard >>>
             ret (Some END)
         end)
      value_or_index_error
      (fun _ =>
         reply_text TxtDeleteError global_keyboard >>>
         ret (Some END))
  else ret None.

(** ** Event router ([universal_callback_handler], lines 620-640) *)
Definition universal_callback_handler (user_id : string) (data : string)
    : M (option ConvState) :=
  let* ud := get_user_data in
  if startswith data "delete_" ||
     String.eqb data "show_delete_interface" || String.eqb data "cancel_delete" ||
     String.eqb data "show_updated_list" then
    list_delete_film user_id data
  else if String.eqb data "by_film" || String.eqb data "by_genre" then
    recommend_choose user_id data
  else if startswith data "film_page_" || String.eqb data "more_film" ||
          String.eqb data "close_recommendations" || startswith data "add_rec_" ||
          (isdigit data && bool_decide (is_Some (ud_recommend_films ud))) then
    recommend_film_pick user_id data
  else if startswith data "genre_page_" || String.eqb data "more_genre" ||
          startswith data "add_rec_" || String.eqb data "close_recommendations" ||
          (isdigit data && bool_decide (is_Some (ud_recommend_genre_id ud))) then
    recommend_genre_pick user_id data
  else if isdigit data && bool_decide (is_Some (ud_add_results ud)) then
    add_choice user_id data
  else
    answer >>>
    edit_text TxtSessionExpired NoMarkup >>>
    ret (Some END).

End Handlers.

(** ** The bot as a whole

    The process state and the session of every user.  An update is handled
    to completion before the next one, each with the session of its own
    user.  Which handler an update reaches is the business of the
    conversation handlers of the framework; here every handler may run at
    every point, which covers each of their choices. *)
Record Bot := mkBot {
  bot_world : World;
  bot_sessions : gmap string Session
}.

(** A freshly started process that has no [DATA_FILE] yet. *)
Definition new_bot : Bot := mkBot (mkWorld None None false) ∅.

Inductive Update :=
| CommandStart | CommandHelp | CommandAdd | CommandCancelAdd
| CommandRecommend | CommandCancelRecommend | CommandList
| TitleMessage (text : string)
| TapAddChoice (data : string)
| TapRecommendChoose (data : string)
| TapRecommendFilm (data : string)
| TapRecommendGenre (data : string)
| TapCloseRecommendations
| TapListDelete (data : string)
| TapOther (data : string).

Section Dispatch.

(** What the libraries provide: the class test of
    [httpx.RequestException], if the module has that attribute, and
    whether an [Update] object has an attribute [from_user]. *)
Variable RequestException : option (Exn -> bool).
Variable Update_has_from_user : bool.

Definition handler (tmdb : Tmdb) (user_id : string) (u : Update) : M (option ConvState) :=
  match u with
  | CommandStart => start
  | CommandHelp => help_command
  | CommandAdd => add_start
  | CommandCancelAdd => add_cancel
  | CommandRecommend => recommend_start
  | CommandCancelRecommend => recommend_cancel
  | CommandList => list_films user_id
  | TitleMessage text =>
      add_title tmdb RequestException
        (if Update_has_from_user then Some user_id else None) text
  | TapAddChoice data => add_choice tmdb user_id data
  | TapRecommendChoose data => recommend_choose tmdb user_id data
  | TapRecommendFilm data => recommend_film_pick tmdb user_id data
  | TapRecommendGenre data => recommend_genre_pick tmdb user_id data
  | TapCloseRecommendations => close_recommendations
  | TapListDelete data => list_delete_film user_id data
  | TapOther data => universal_callback_handler tmdb user_id data
  end.

(** One update of user [user_id], with the answers [tmdb] gives while it
    is handled. *)
Definition handle_update (bot : Bot) (ev : Tmdb * string * Update) : Bot :=
  match ev with
  | (tmdb, user_id, u) =>
      let ud := default empty_session (bot_sessions bot !! user_id) in
      match handler tmdb user_id u (mkState (bot_world bot) ud) with
      | (_, st, _) => mkBot (world st) (<[user_id := user_data st]> (bot_sessions bot))
      end
  end.

Definition run_bot (evs : list (Tmdb * string * Update)) (bot : Bot) : Bot :=
  fold_left handle_update evs bot.

End Dispatch.

(** ** The precedence order of the event router, in the words of the
    specification

    A tap is matched against five shapes in a fixed order: delete-related
    payloads, the choice of the recommendation mode, film-recommendation
    payloads (a prefix, or a numeric pick while a film list is pending),
    genre-recommendation payloads (the same, with a pending genre), and the
    numeric pick among pending search results. *)
Inductive Target :=
| ToListDelete | ToRecommendChoose | ToRecommendFilm | ToRecommendGenre | ToAddChoice.

Definition delete_related (data : string) : bool :=
  startswith data "delete_" ||
  bool_decide (data ∈ ["show_delete_interface"; "cancel_delete"; "show_updated_list"]).

Definition recommend_mode_choice (data : string) : bool :=
  bool_decide (data ∈ ["by_film"; "by_genre"]).

Definition film_recommendation (ud : Session) (data : string) : bool :=
  startswith data "film_page_" ||
  bool_decide (data ∈ ["more_film"; "close_recommendations"]) ||
  startswith data "add_rec_" ||
  (isdigit data && bool_decide (is_Some (ud_recommend_films ud))).

Definition genre_recommendation (ud : Session) (data : string) : bool :=
  startswith data "genre_page_" ||
  bool_decide (data ∈ ["more_genre"; "close_recommendations"]) ||
  startswith data "add_rec_" ||
  (isdigit data && bool_decide (is_Some (ud_recommend_genre_id ud))).

Definition add_disambiguation (ud : Session) (data : string) : bool :=
  isdigit data && bool_decide (is_Some (ud_add_results ud)).

Definition precedence (ud : Session) (data : string) : list (bool * Target) :=
  [(delete_related data, ToListDelete);
   (recommend_mode_choice data, ToRecommendChoose);
   (film_recommendation ud data, ToRecommendFilm);
   (genre_recommendation ud data, ToRecommendGenre);
   (add_disambiguation ud data, ToAddChoice)].

(** The target of the first shape that matches. *)
Fixpoint first_match (shapes : list (bool * Target)) : option Target :=
  match shapes with
  | [] => None
  | (true, target) :: _ => Some target
  | (false, _) :: shapes' => first_match shapes'
  end.

Definition deliver (tmdb : Tmdb) (user_id data : string) (target : Target)
    : M (option ConvState) :=
  match target with
  | ToListDelete => list_delete_film user_id data
  | ToRecommendChoose => recommend_choose tmdb user_id data
  | ToRecommendFilm => recommend_film_pick tmdb user_id data
  | ToRecommendGenre => recommend_genre_pick tmdb user_id data
  | ToAddChoice => add_choice tmdb user_id data
  end.

(** ** Sample data *)

Definition dune : Film := mkFilm 438631 "Dune" ["Science Fiction"].
Definition alien : Film := mkFilm 348 "Alien" ["Horror"].
Definition heat : Film := mkFilm 949 "Heat" [].

Definition sample_films : list Film := [dune; alien; heat].

(** User 7 has saved three films and has just listed them. *)
Definition sample_state : State :=
  mkState (mkWorld (Some {["7" := sample_films]}) None false)
          (set_list_films sample_films empty_session).

Definition dune_candidate : Candidate := mkCandidate 438631 "Dune" "2021-09-15" [878].

(** A metadata service that is down. *)
Definition tmdb_down : Tmdb :=
  mkTmdb (fun _ => Fails HTTPError) (Fails HTTPError)
         (fun _ _ => Fails HTTPError) (fun _ _ => Fails HTTPError).

Definition dune_1984 : Candidate := mkCandidate 841 "Dune" "1984-12-14" [28; 878].

(** A metadata service that finds two films for every title and knows one
    genre. *)
Definition tmdb_two_dunes : Tmdb :=
  mkTmdb (fun _ => Gives [dune_candidate; dune_1984])
         (Gives (200, [(878, "Science Fiction")]))
         (fun _ _ => Gives []) (fun _ _ => Gives []).

(** A metadata service that finds exactly one film for every title, the
    Dune of 2021. *)
Definition tmdb_one_dune : Tmdb :=
  mkTmdb (fun _ => Gives [dune_candidate])
         (Gives (200, [(878, "Science Fiction")]))
         (fun _ _ => Gives []) (fun _ _ => Gives []).

(** User 7 types a title, taps the first of the two films found, and taps
    it once more. *)
Definition two_taps : list (Tmdb * string * Update) :=
  [(tmdb_two_dunes, "7", TitleMessage "Dune");
   (tmdb_two_dunes, "7", TapAddChoice "0");
   (tmdb_two_dunes, "7", TapAddChoice "0")].

(** An upstream page of twenty films with the ids 1 to 20. *)
Definition upstream_page : list Candidate :=
  map (fun i => mkCandidate (Z.of_nat i) ("Film " +:+ str (Z.of_nat i)) "" [])
      (seq 1 20).

Definition tmdb_twenty : Tmdb :=
  mkTmdb (fun _ => Gives []) (Gives (200, []))
         (fun _ _ => Gives upstream_page) (fun _ _ => Gives []).

(** User 7 has saved the film with id 1 and opens page 1 of the
    recommendations for a film. *)
Definition viewer_state : State :=
  mkState (mkWorld (Some {["7" := [mkFilm 1 "Film 1" []]]}) None true)
          (set_film_page 1 empty_session).

(** A metadata service whose every page of a genre is [upstream_page]. *)
Definition tmdb_genre_twenty : Tmdb :=
  mkTmdb (fun _ => Gives []) (Gives (200, []))
         (fun _ _ => Gives []) (fun _ _ => Gives upstream_page).

(** Users 7 and 8 have a list each, user 7 has just listed theirs, and the
    genres are cached. *)
Definition shared_bot : Bot :=
  mkBot (mkWorld (Some {["7" := sample_films; "8" := [heat]]})
                 (Some [(878, "Science Fiction")]) true)
        {["7" := set_list_films sample_films empty_session]}.

(** User 7 deletes the first film, searches for a title, picks the second
    film found while the service is down, and asks for recommendations. *)
Definition busy_evening : list (Tmdb * string * Update) :=
  [(tmdb_two_dunes, "7", TapListDelete "delete_0");
   (tmdb_two_dunes, "7", TitleMessage "Dune");
   (tmdb_down, "7", TapAddChoice "1");
   (tmdb_down, "7", CommandRecommend);
   (tmdb_down, "7", TapRecommendChoose "by_genre")].

(** ** Invariants *)

(** No two films of a list share their id. *)
Definition unique_ids (films : list Film) : Prop := NoDup (map film_id films).

Definition document_unique (data : gmap string (list Film)) : Prop :=
  forall user_id films, data !! user_id = Some films -> unique_ids films.

Definition session_unique (ud : Session) : Prop :=
  forall films, ud_list_films ud = Some films -> unique_ids films.

Definition state_unique (st : State) : Prop :=
  document_unique (stored (world st)) /\ session_unique (user_data st).

Definition bot_unique (bot : Bot) : Prop :=
  document_unique (stored (bot_world bot)) /\
  forall user_id ud, bot_sessions bot !! user_id = Some ud -> session_unique ud.

(** The invariant of a limiter used by one caller at a time. *)
Record limiter_inv (mx : nat) (w : Z) (cfg : Config) : Prop := {
  inv_max : max_requests (limiter cfg) = mx;
  inv_win : time_window (limiter cfg) = w;
  inv_past : Forall (fun t => t <= clock cfg) (requests (limiter cfg));
  inv_live : forall s, clock cfg - w < s ->
    window_count w s (recorded cfg) = window_count w s (requests (limiter cfg));
  inv_bound : forall s, (window_count w s (recorded cfg) <= mx)%nat;
  inv_sub : sublist (requests (limiter cfg)) (recorded cfg);
  inv_sleep : match sleeping cfg with
              | [] => True
              | [d] => exists r0 rest,
                  requests (limiter cfg) = r0 :: rest /\ r0 + w <= d /\
                  (length (requests (limiter cfg)) <= mx)%nat /\
                  clock cfg - w < r0
              | _ => False
              end
}.

(** [keeps V m]: running [m] keeps [state_unique], and a value it returns
    satisfies [V]. *)
Definition keeps {A} (V : A -> Prop) (m : M A) : Prop :=
  forall st, state_unique st ->
    state_unique (m st).1.2 /\ forall a, (m st).1.1 = Return a -> V a.

(** ** What a run may do

    [obeys P T E V m]: started in a state that satisfies [P], the run of
    [m] ends in such a state, every action it leaves satisfies [T], an
    exception it raises satisfies [E] and a value it returns [V]. *)
Definition obeys {A} (P : State -> Prop) (T : Action -> Prop) (E : Exn -> Prop)
    (V : A -> Prop) (m : M A) : Prop :=
  forall st, P st ->
    P (m st).1.2 /\ Forall T (m st).2 /\
    match (m st).1.1 with
    | Return a => V a
    | Raise e => E e
    end.

(** The process state as some state that satisfies [P] has it. *)
Definition world_of (P : State -> Prop) (w : World) : Prop :=
  exists st, P st /\ world st = w.

Definition session_of (P : State -> Prop) (ud : Session) : Prop :=
  exists st, P st /\ user_data st = ud.

(** The keys of [context.user_data] and the test [key in context.user_data]. *)
Inductive Key :=
| KeyAddTitle | KeyAddResults | KeyRecommendFilms | KeyRecommendFilm
| KeyFilmPage | KeyRecommendGenreId | KeyGenrePage | KeyListFilms.

Definition has_key (k : Key) (ud : Session) : bool :=
  match k with
  | KeyAddTitle => bool_decide (is_Some (ud_add_title ud))
  | KeyAddResults => bool_decide (is_Some (ud_add_results ud))
  | KeyRecommendFilms => bool_decide (is_Some (ud_recommend_films ud))
  | KeyRecommendFilm => bool_decide (is_Some (ud_recommend_film ud))
  | KeyFilmPage => bool_decide (is_Some (ud_film_page ud))
  | KeyRecommendGenreId => bool_decide (is_Some (ud_recommend_genre_id ud))
  | KeyGenrePage => bool_decide (is_Some (ud_genre_page ud))
  | KeyListFilms => bool_decide (is_Some (ud_list_films ud))
  end.

(** [if _genre_cache:] *)
Definition cache_populated (w : World) : bool :=
  match _genre_cache w with
  | Some (_ :: _) => true
  | _ => false
  end.

Definition is_write (a : Action) : bool :=
  match a with
  | WriteFile _ => true
  | _ => false
  end.

(** What the run of a handler for [user_id] leaves as it was in [st0]:
    the lists of the other users, a populated genre cache, the keys of
    the session and the HTTP client once it exists. *)
Definition follows (user_id : string) (st0 st : State) : Prop :=
  (forall other, other <> user_id ->
     stored (world st) !! other = stored (world st0) !! other) /\
  (cache_populated (world st0) = true ->
     _genre_cache (world st) = _genre_cache (world st0)) /\
  (forall k, has_key k (user_data st0) = true -> has_key k (user_data st) = true) /\
  (http_client (world st0) = true -> http_client (world st) = true).

(** The result of a handler that answers the tap and then goes on with a
    run that gives [r]. *)
Definition answered {A} (r : Result A * State * list Action)
    : Result A * State * list Action :=
  (r.1.1, r.1.2, Answer :: r.2).

(** A run that reads the data file only. *)
Definition same_file (d : option (gmap string (list Film))) (st : State) : Prop :=
  data_file (world st) = d.

Definition no_write (a : Action) : Prop := is_write a = false.

Definition never (e : Exn) : Prop := False.

Definition key_or_value_error (e : Exn) : Prop := e = KeyError \/ e = ValueError.

(** A change of the session that removes no key. *)
Definition grows (f : Session -> Session) : Prop :=
  forall ud k, has_key k ud = true -> has_key k (f ud) = true.

(** The states before and after [http_client] is created, the genre cache
    is filled with [genres], and the list of [user_id] is written. *)
Definition with_client (st : State) : State :=
  mkState (mkWorld (data_file (world st)) (_genre_cache (world st)) true)
          (user_data st).

Definition with_cache (genres : Genres) (st : State) : State :=
  mkState (mkWorld (data_file (world st)) (Some genres) (http_client (world st)))
          (user_data st).

Definition with_list (user_id : string) (films : list Film) (st : State) : State :=
  mkState (mkWorld (Some (<[user_id := films]> (stored (world st))))
                   (_genre_cache (world st)) (http_client (world st)))
          (user_data st).

(* ===================================================================== *)
(** * Part II. Properties                                                 *)
(* ===================================================================== *)

(** ** Rate limiter *)

Lemma window_count_app w s l1 l2 :
  window_count w s (l1 ++ l2) = (window_count w s l1 + window_count w s l2)%nat.
Proof. unfold window_count. by rewrite List.filter_app, length_app. Qed.

Lemma window_count_le_length w s l : (window_count w s l <= length l)%nat.
Proof. unfold window_count. apply List.filter_length_le. Qed.

Lemma window_count_pruned w s now l :
  now - w < s ->
  window_count w s (List.filter (fun r => now - r <? w) l) = window_count w s l.
Proof.
  intros Hs. unfold window_count.
  induction l as [|x l IH]; simpl; [done|].
  destruct (now - x <? w) eqn:Hx; simpl.
  - destruct (in_window w s x); simpl; by rewrite IH.
  - assert (in_window w s x = false) as ->.
    { unfold in_window. apply Z.ltb_ge in Hx.
      apply andb_false_iff. left. apply Z.leb_gt. lia. }
    done.
Qed.

Lemma window_count_all w s l :
  Forall (fun t => s <= t < s + w) l -> window_count w s l = length l.
Proof.
  unfold window_count. induction 1 as [|x l Hx _ IH]; simpl; [done|].
  assert (in_window w s x = true) as ->.
  { unfold in_window. apply andb_true_iff. split; [apply Z.leb_le|apply Z.ltb_lt]; lia. }
  simpl. by rewrite IH.
Qed.

Lemma window_count_single w s t :
  window_count w s [t] = if in_window w s t then 1%nat else 0%nat.
Proof. unfold window_count. simpl. by destruct (in_window w s t). Qed.

Lemma limiter_inv_idle mx w t0 :
  limiter_inv mx w (idle (RateLimiter_init mx w) t0).
Proof.
  constructor; simpl; auto; try constructor.
  intros; unfold window_count; simpl; lia.
Qed.

Lemma filter_sublist {A} (f : A -> bool) l : sublist (List.filter f l) l.
Proof.
  induction l as [|x l IH]; simpl; [constructor|].
  destruct (f x); by constructor.
Qed.

Lemma window_count_sublist w s l1 l2 :
  sublist l1 l2 -> (window_count w s l1 <= window_count w s l2)%nat.
Proof.
  unfold window_count. induction 1 as [|x l1 l2 _ IH|x l1 l2 _ IH]; simpl.
  - lia.
  - destruct (in_window w s x); simpl; lia.
  - destruct (in_window w s x); simpl; lia.
Qed.

Lemma pruned_length_bound mx w cfg now :
  limiter_inv mx w cfg -> clock cfg <= now ->
  (length (List.filter (fun r => (now - r <? w)%Z) (requests (limiter cfg))) <= mx)%nat.
Proof.
  intros I Hnow.
  set (reqs := List.filter _ _).
  assert (Forall (fun t => now - w + 1 <= t < now - w + 1 + w) reqs) as Hall.
  { apply List.Forall_forall. intros t Ht. apply List.filter_In in Ht as [Hin Hlt].
    apply Z.ltb_lt in Hlt.
    pose proof (proj1 (List.Forall_forall _ _) (inv_past _ _ _ I) t Hin) as Hle.
    simpl in Hle. lia. }
  rewrite <- (window_count_all w _ _ Hall). subst reqs.
  rewrite window_count_pruned by lia.
  rewrite <- (inv_live _ _ _ I) by lia. apply (inv_bound _ _ _ I).
Qed.

Lemma limiter_inv_step mx w cfg ev cfg' :
  limiter_inv mx w cfg -> step 1 cfg ev = Some cfg' -> limiter_inv mx w cfg'.
Proof.
  intros I Hstep.
  pose proof (inv_max _ _ _ I) as Hmx. pose proof (inv_win _ _ _ I) as Hw.
  pose proof (inv_sleep _ _ _ I) as Hsleep.
  destruct ev as [now t | d t]; simpl in Hstep.
  - (* a caller enters: nobody is asleep *)
    destruct (clock cfg <=? now) eqn:Hclk; simpl in Hstep; [|done].
    apply Z.leb_le in Hclk.
    destruct (sleeping cfg) as [|d0 sl] eqn:Hsl; simpl in Hstep; [|by destruct sl].
    pose proof (pruned_length_bound mx w cfg now I Hclk) as Hlen.
    unfold acquire_enter in Hstep. rewrite Hmx, Hw in Hstep.
    set (reqs := List.filter (fun r => now - r <? w) (requests (limiter cfg))) in *.
    assert (Hpast : Forall (fun x => x <= now) reqs).
    { apply List.Forall_forall. intros x Hx. apply List.filter_In in Hx as [Hx _].
      pose proof (proj1 (List.Forall_forall _ _) (inv_past _ _ _ I) x Hx).
      simpl in *. lia. }
    assert (Hlive : forall s, now - w < s ->
              window_count w s (recorded cfg) = window_count w s reqs).
    { intros s Hs. subst reqs. rewrite window_count_pruned by lia.
      apply (inv_live _ _ _ I). lia. }
    assert (Hhead : forall r0 rest, reqs = r0 :: rest -> now - r0 < w).
    { intros r0 rest Hreqs.
      assert (In r0 reqs) as Hin by (rewrite Hreqs; left; done).
      subst reqs. apply List.filter_In in Hin as [_ Hin]. by apply Z.ltb_lt in Hin. }
    assert (Hsub : sublist reqs (recorded cfg)).
    { subst reqs. etrans; [apply filter_sublist|apply (inv_sub _ _ _ I)]. }
    clearbody reqs.
    destruct (mx <=? length reqs)%nat eqn:Hfull.
    + apply Nat.leb_le in Hfull.
      destruct reqs as [|r0 rest].
      * injection Hstep as <-. split; simpl.
        -- done.
        -- done.
        -- done.
        -- exact Hlive.
        -- apply (inv_bound _ _ _ I).
        -- apply sublist_nil_l.
        -- done.
      * specialize (Hhead r0 rest eq_refl).
        destruct (0 <? w - (now - r0)) eqn:Hwait;
          [|apply Z.ltb_ge in Hwait; lia].
        injection Hstep as <-. split; simpl.
        -- done.
        -- done.
        -- done.
        -- exact Hlive.
        -- apply (inv_bound _ _ _ I).
        -- exact Hsub.
        -- exists r0, rest. repeat split; auto; lia.
    + apply Nat.leb_gt in Hfull.
      destruct (now <=? t) eqn:Hnt; [|done]. apply Z.leb_le in Hnt.
      injection Hstep as <-. split; simpl.
      * done.
      * done.
      * apply Forall_app. split.
        -- eapply Forall_impl; [exact Hpast|]. simpl. intros; lia.
        -- constructor; [lia|constructor].
      * intros s Hs. rewrite !window_count_app. rewrite Hlive by lia. done.
      * intros s. rewrite window_count_app, window_count_single.
        destruct (in_window w s t) eqn:Hin.
        -- unfold in_window in Hin. apply andb_true_iff in Hin as [H1 H2].
           apply Z.leb_le in H1. apply Z.ltb_lt in H2.
           rewrite Hlive by lia.
           pose proof (window_count_le_length w s reqs). lia.
        -- pose proof (inv_bound _ _ _ I s). lia.
      * by apply sublist_app.
      * done.
  - (* the sleeping caller wakes up *)
    destruct (sleeping cfg) as [|d0 [|d1 sl]] eqn:Hsl; simpl in Hstep; try done.
    destruct (d0 =? d) eqn:Hd; [|done]. apply Z.eqb_eq in Hd. subst d0.
    destruct (clock cfg <=? t) eqn:Hclk; simpl in Hstep; [|done].
    destruct (d <=? t) eqn:Hdt; [|done].
    apply Z.leb_le in Hclk. apply Z.leb_le in Hdt.
    destruct Hsleep as (r0 & rest & Hreq & Hdl & Hlen & Hr0).
    injection Hstep as <-. split; simpl.
    + done.
    + done.
    + apply Forall_app. split.
      * eapply Forall_impl; [exact (inv_past _ _ _ I)|]. simpl. intros; lia.
      * constructor; [lia|constructor].
    + intros s Hs. rewrite !window_count_app.
      rewrite (inv_live _ _ _ I) by lia. done.
    + intros s. rewrite window_count_app, window_count_single.
      destruct (in_window w s t) eqn:Hin.
      * unfold in_window in Hin. apply andb_true_iff in Hin as [H1 H2].
        apply Z.leb_le in H1. apply Z.ltb_lt in H2.
        rewrite (inv_live _ _ _ I) by lia. rewrite Hreq in *.
        change (r0 :: rest) with ([r0] ++ rest).
        rewrite window_count_app, window_count_single.
        assert (in_window w s r0 = false) as ->.
        { unfold in_window. apply andb_false_iff. left. apply Z.leb_gt. lia. }
        pose proof (window_count_le_length w s rest). simpl in Hlen. lia.
      * pose proof (inv_bound _ _ _ I s). lia.
    + apply sublist_app; [apply (inv_sub _ _ _ I)|done].
    + done.
Qed.

Lemma limiter_inv_run mx w evs : forall cfg cfg',
  limiter_inv mx w cfg -> run 1 evs cfg = Some cfg' -> limiter_inv mx w cfg'.
Proof.
  induction evs as [|ev evs IH]; simpl; intros cfg cfg' I Hrun.
  - by injection Hrun as <-.
  - destruct (step 1 cfg ev) as [cfg1|] eqn:Hstep; [|done].
    eapply IH; [|exact Hrun]. eapply limiter_inv_step; eauto.
Qed.

(** ** Python values *)

Lemma is_digit_not_space c : is_digit c = true -> is_space c = false.
Proof.
  unfold is_digit, is_space. intros H.
  apply andb_true_iff in H as [H1 H2].
  apply Nat.leb_le in H1. apply Nat.leb_le in H2.
  repeat (apply orb_false_iff; split).
  - apply Nat.eqb_neq. lia.
  - apply andb_false_iff. right. apply Nat.leb_gt. lia.
  - apply andb_false_iff. right. apply Nat.leb_gt. lia.
Qed.

Lemma is_digit_not_sign c :
  is_digit c = true -> Ascii.eqb c "-" = false /\ Ascii.eqb c "+" = false /\
                       Ascii.eqb c "_" = false.
Proof.
  intros H. repeat split; apply Ascii.eqb_neq; intros ->; discriminate H.
Qed.

Lemma string_of_uint_digits u : all_digits (NilEmpty.string_of_uint u) = true.
Proof. induction u; simpl; auto. Qed.

Lemma rstrip_digits s : all_digits s = true -> rstrip s = s.
Proof.
  induction s as [|c s IH]; simpl; [done|].
  intros H. apply andb_true_iff in H as [Hc Hs].
  rewrite (IH Hs). destruct s; [|done].
  by rewrite (is_digit_not_space c Hc).
Qed.

Lemma strip_digits s : all_digits s = true -> strip s = s.
Proof.
  intros H. unfold strip.
  destruct s as [|c s]; [done|]. simpl in H.
  apply andb_true_iff in H as [Hc Hs]. simpl lstrip.
  rewrite (is_digit_not_space c Hc).
  apply rstrip_digits. simpl. by rewrite Hc, Hs.
Qed.

Lemma is_digit_not_int_space c : is_digit c = true -> is_int_space c = false.
Proof.
  unfold is_digit, is_int_space. intros H.
  apply andb_true_iff in H as [H1 H2].
  apply Nat.leb_le in H1. apply Nat.leb_le in H2.
  apply orb_false_iff. split.
  - apply Nat.eqb_neq. lia.
  - apply andb_false_iff. right. apply Nat.leb_gt. lia.
Qed.

Lemma int_rstrip_digits s : all_digits s = true -> int_rstrip s = s.
Proof.
  induction s as [|c s IH]; simpl; [done|].
  intros H. apply andb_true_iff in H as [Hc Hs].
  rewrite (IH Hs). destruct s; [|done].
  by rewrite (is_digit_not_int_space c Hc).
Qed.

Lemma int_strip_digits s :
  all_digits s = true -> int_rstrip (int_lstrip s) = s.
Proof.
  intros H. destruct s as [|c s]; [done|]. simpl in H.
  apply andb_true_iff in H as [Hc Hs]. simpl int_lstrip.
  rewrite (is_digit_not_int_space c Hc).
  apply int_rstrip_digits. simpl. by rewrite Hc, Hs.
Qed.

Lemma literal_digits_all s :
  all_digits s = true ->
  literal_digits true s = Some s /\ (s <> EmptyString -> literal_digits false s = Some s).
Proof.
  induction s as [|c s IH]; simpl; [done|].
  intros H. apply andb_true_iff in H as [Hc Hs].
  rewrite Hc. destruct (IH Hs) as [-> _]. done.
Qed.

Lemma unsigned_literal_uint u :
  u <> Decimal.Nil ->
  unsigned_literal (NilEmpty.string_of_uint u) = Some (Z.of_uint u).
Proof.
  intros Hu. unfold unsigned_literal.
  destruct (literal_digits_all _ (string_of_uint_digits u)) as [_ ->].
  - by rewrite NilEmpty.usu.
  - by destruct u.
Qed.

Lemma string_of_uint_pos p :
  exists c s, NilEmpty.string_of_uint (Pos.to_uint p) = String c s /\ is_digit c = true.
Proof.
  pose proof (DecimalPos.Unsigned.to_uint_nonnil p) as Hn.
  pose proof (string_of_uint_digits (Pos.to_uint p)) as Hd.
  destruct (Pos.to_uint p) eqn:E; [done|..]; simpl in *; eauto.
Qed.

Lemma str_pos p : str (Z.pos p) = NilEmpty.string_of_uint (Pos.to_uint p).
Proof.
  unfold str. simpl. pose proof (DecimalPos.Unsigned.to_uint_nonnil p).
  by destruct (Pos.to_uint p).
Qed.

Lemma str_neg p :
  str (Z.neg p) = String "-" (NilEmpty.string_of_uint (Pos.to_uint p)).
Proof.
  unfold str. simpl. pose proof (DecimalPos.Unsigned.to_uint_nonnil p).
  by destruct (Pos.to_uint p).
Qed.

Lemma of_uint_pos p : Z.of_uint (Pos.to_uint p) = Z.pos p.
Proof. exact (DecimalZ.of_to (Z.pos p)). Qed.

(** [int(str(i)) == i] *)
Lemma int_str i : int_ (str i) = Some i.
Proof.
  destruct i as [|p|p].
  - reflexivity.
  - rewrite str_pos. unfold int_.
    rewrite int_strip_digits by apply string_of_uint_digits.
    destruct (string_of_uint_pos p) as (c & s & E & Hc).
    pose proof (unsigned_literal_uint (Pos.to_uint p)
                  (DecimalPos.Unsigned.to_uint_nonnil p)) as Hu.
    rewrite E in *. destruct (is_digit_not_sign c Hc) as (-> & -> & _).
    by rewrite Hu, of_uint_pos.
  - rewrite str_neg. unfold int_. simpl int_lstrip.
    pose proof (string_of_uint_digits (Pos.to_uint p)) as Hd.
    destruct (string_of_uint_pos p) as (c & s & E & Hc).
    assert (int_rstrip (String "-" (NilEmpty.string_of_uint (Pos.to_uint p)))
            = String "-" (NilEmpty.string_of_uint (Pos.to_uint p))) as ->.
    { simpl. rewrite (int_rstrip_digits _ Hd). by rewrite E. }
    simpl. rewrite unsigned_literal_uint by apply DecimalPos.Unsigned.to_uint_nonnil.
    simpl. by rewrite of_uint_pos.
Qed.

Lemma split_no_sep sep s :
  (forall c s1 s2, s = s1 +:+ String c s2 -> Ascii.eqb c sep = false) ->
  split sep s = [s].
Proof.
  induction s as [|c s IH]; intros H; simpl; [done|].
  rewrite (H c EmptyString s eq_refl).
  rewrite IH; [done|].
  intros c' s1 s2 ->. apply (H c' (String c s1) s2). done.
Qed.

Lemma all_digits_no_underscore s c s1 s2 :
  all_digits s = true -> s = s1 +:+ String c s2 -> Ascii.eqb c "_" = false.
Proof.
  revert s. induction s1 as [|c1 s1 IH]; intros s H ->; simpl in H.
  - apply andb_true_iff in H as [H _]. by apply is_digit_not_sign in H as (_ & _ & ?).
  - apply andb_true_iff in H as [_ H]. by eapply IH.
Qed.

Lemma split_str i : split "_" (str i) = [str i].
Proof.
  apply split_no_sep. intros c s1 s2 E.
  destruct i as [|p|p].
  - eapply all_digits_no_underscore; [|exact E]. reflexivity.
  - rewrite str_pos in E.
    eapply all_digits_no_underscore; [|exact E]. apply string_of_uint_digits.
  - rewrite str_neg in E. destruct s1 as [|c1 s1]; simpl in E.
    + by injection E as <- _.
    + injection E as _ E.
      eapply all_digits_no_underscore; [|exact E]. apply string_of_uint_digits.
Qed.

(** The payload of a delete button is read back as its index. *)
Lemma delete_payload i :
  startswith ("delete_" +:+ str i) "delete_" = true /\
  split "_" ("delete_" +:+ str i) !! 1%nat = Some (str i).
Proof.
  split; [unfold startswith; cbn; by destruct (str i)|].
  change ("delete_" +:+ str i) with
    (String "d" (String "e" (String "l" (String "e" (String "t" (String "e"
       (String "_" (str i)))))))).
  cbn [split Ascii.eqb Bool.eqb]. rewrite split_str. reflexivity.
Qed.

(** ** Deleting a film *)

Lemma normalize_index_nonneg len i :
  0 <= i < Z.of_nat len -> normalize_index len i = Some (Z.to_nat i).
Proof.
  intros H. unfold normalize_index.
  assert ((0 <=? i) && (i <? Z.of_nat len) = true) as ->; [|done].
  apply andb_true_iff. split; [apply Z.leb_le|apply Z.ltb_lt]; lia.
Qed.

Lemma normalize_index_negative len i :
  - Z.of_nat len <= i < 0 -> normalize_index len i = Some (Z.to_nat (i + Z.of_nat len)).
Proof.
  intros H. unfold normalize_index.
  assert ((0 <=? i) && (i <? Z.of_nat len) = false) as ->.
  { apply andb_false_iff. left. apply Z.leb_gt. lia. }
  assert ((- Z.of_nat len <=? i) && (i <? 0) = true) as ->; [|done].
  apply andb_true_iff. split; [apply Z.leb_le|apply Z.ltb_lt]; lia.
Qed.

(** Unfolds the plumbing of a handler run, leaving the tests on data. *)
Ltac run_handler :=
  cbv beta iota delta
    [bind ret raise try_except emit get_world put_world get_user_data
     put_user_data or_raise update_user_data answer reply_text edit_text
     load_films save_films ensure_http_client http_get any_exception
     value_or_index_error value_error];
  cbn [app world user_data data_file _genre_cache http_client fst snd].

Lemma delete_payload_tests i :
  String.eqb ("delete_" +:+ str i) "show_delete_interface" = false /\
  String.eqb ("delete_" +:+ str i) "cancel_delete" = false /\
  String.eqb ("delete_" +:+ str i) "show_updated_list" = false.
Proof. repeat split; reflexivity. Qed.

(** A delete tap whose index Python accepts as position [n] of the
    snapshot: the record at [n] goes, the rest is saved in its order. *)
Lemma list_delete_film_removes user_id st i n film :
  let films := default [] (ud_list_films (user_data st)) in
  i < Z.of_nat (length films) ->
  normalize_index (length films) i = Some n ->
  films !! n = Some film ->
  let rest := take n films ++ drop (S n) films in
  let saved := <[user_id := rest]> (stored (world st)) in
  list_delete_film user_id ("delete_" +:+ str i) st =
  (Return (Some (match rest with [] => END | _ => LIST_SHOW end)),
   mkState (mkWorld (Some saved) (_genre_cache (world st)) (http_client (world st)))
           (set_list_films rest (user_data st)),
   [Answer; WriteFile saved;
    ReplyText (TxtDeleted (film_title film)) global_keyboard;
    match rest with
    | [] => ReplyText TxtListNowEmpty global_keyboard
    | _ => ReplyText TxtWantUpdatedList
             (InlineKeyboardMarkup [[CallbackButton LblShowUpdated "show_updated_list"]])
    end]).
Proof.
  intros films Hi Hn Hfilm rest saved.
  destruct (delete_payload i) as [Hpre Hsplit].
  destruct (delete_payload_tests i) as (T1 & T2 & T3).
  unfold list_delete_film. rewrite Hpre, Hsplit, T1, T2, T3.
  run_handler. rewrite int_str.
  fold films.
  assert ((Z.of_nat (length films) <=? i) = false) as -> by (apply Z.leb_gt; lia).
  unfold getitem, pop. rewrite Hn, Hfilm, delete_take_drop. fold rest.
  by destruct rest.
Qed.

Lemma list_delete_film_beyond user_id st i :
  Z.of_nat (length (default [] (ud_list_films (user_data st)))) <= i ->
  list_delete_film user_id ("delete_" +:+ str i) st =
  (Return (Some END), st, [Answer; ReplyText TxtDeleteNotFound global_keyboard]).
Proof.
  intros Hi.
  destruct (delete_payload i) as [Hpre Hsplit].
  destruct (delete_payload_tests i) as (T1 & T2 & T3).
  unfold list_delete_film. rewrite Hpre, Hsplit, T1, T2, T3.
  run_handler. rewrite int_str.
  assert ((Z.of_nat (length (default [] (ud_list_films (user_data st)))) <=? i) = true)
    as -> by (apply Z.leb_le; lia).
  by destruct st.
Qed.

(** ** Uniqueness of the saved ids *)

Lemma keeps_ret {A} (V : A -> Prop) a : V a -> keeps V (ret a).
Proof. intros Ha st Hst. simpl. split; [done|]. by intros ? [= <-]. Qed.

Lemma keeps_raise {A} (V : A -> Prop) e : keeps V (raise e).
Proof. intros st Hst. simpl. split; [done|]. by intros ? [=]. Qed.

Lemma keeps_bind {A B} (V1 : A -> Prop) (V2 : B -> Prop) m f :
  keeps V1 m -> (forall a, V1 a -> keeps V2 (f a)) -> keeps V2 (bind m f).
Proof.
  intros Hm Hf st Hst. unfold bind.
  destruct (Hm st Hst) as [H1 H2].
  destruct (m st) as [[[a|e] st'] tr]; simpl in *.
  - destruct (Hf a (H2 a eq_refl) st' H1) as [H3 H4].
    destruct (f a st') as [[r st''] tr']. simpl in *. done.
  - split; [done|]. by intros ? [=].
Qed.

Lemma keeps_try {A} (V : A -> Prop) body handles handler :
  keeps V body -> (forall e, keeps V (handler e)) ->
  keeps V (try_except body handles handler).
Proof.
  intros Hb Hh st Hst. unfold try_except.
  destruct (Hb st Hst) as [H1 H2].
  destruct (body st) as [[[a|e] st'] tr]; simpl in *; [done|].
  destruct (handles e).
  - destruct (Hh e st' H1) as [H3 H4].
    destruct (handler e st') as [[r st''] tr']. simpl in *. done.
  - split; [done|]. by intros ? [=].
Qed.

Lemma keeps_weaken {A} (V V' : A -> Prop) m :
  keeps V m -> (forall a, V a -> V' a) -> keeps V' m.
Proof.
  intros Hm HV st Hst. destruct (Hm st Hst) as [H1 H2]. split; [done|].
  intros a Ha. auto.
Qed.

Lemma keeps_emit a : keeps (fun _ => True) (emit a).
Proof. intros st Hst. simpl. done. Qed.

Lemma keeps_get_user_data : keeps session_unique get_user_data.
Proof. intros st Hst. simpl. split; [done|]. intros ? [= <-]. apply Hst. Qed.

Lemma keeps_get_world :
  keeps (fun w => document_unique (stored w)) get_world.
Proof. intros st Hst. simpl. split; [done|]. intros ? [= <-]. apply Hst. Qed.

Lemma keeps_put_world w :
  document_unique (stored w) -> keeps (fun _ => True) (put_world w).
Proof. intros Hw st Hst. simpl. split; [|done]. split; [done|apply Hst]. Qed.

Lemma keeps_put_user_data ud :
  session_unique ud -> keeps (fun _ => True) (put_user_data ud).
Proof. intros Hud st Hst. simpl. split; [|done]. split; [apply Hst|done]. Qed.

Lemma keeps_or_raise {A} e (o : option A) :
  keeps (fun a => o = Some a) (or_raise e o).
Proof.
  destruct o; simpl.
  - by apply keeps_ret.
  - apply keeps_raise.
Qed.

(** Every step of a handler, one rule at a time; values about which
    nothing is needed get the trivial condition. *)
Lemma keeps_bind_any {A B} (V2 : B -> Prop) (m : M A) f :
  keeps (fun _ => True) m -> (forall a, keeps V2 (f a)) -> keeps V2 (bind m f).
Proof. intros Hm Hf. eapply keeps_bind; [exact Hm|]. intros a _. apply Hf. Qed.

Lemma keeps_any {A} (V : A -> Prop) m : keeps V m -> keeps (fun _ => True) m.
Proof. intros H. eapply keeps_weaken; [exact H|]. done. Qed.

Lemma keeps_update_user_data f :
  (forall ud, session_unique ud -> session_unique (f ud)) ->
  keeps (fun _ => True) (update_user_data f).
Proof.
  intros Hf. unfold update_user_data.
  eapply keeps_bind; [apply keeps_get_user_data|].
  intros ud Hud. apply keeps_put_user_data. auto.
Qed.

Lemma keeps_load_films : keeps document_unique load_films.
Proof.
  unfold load_films. eapply keeps_bind; [apply keeps_get_world|].
  intros w Hw. by apply keeps_ret.
Qed.

Lemma keeps_save_films data :
  document_unique data -> keeps (fun _ => True) (save_films data).
Proof.
  intros Hd. unfold save_films. apply keeps_bind_any.
  - apply (keeps_any _ _ keeps_get_world).
  - intros w. apply keeps_bind_any; [by apply keeps_put_world|].
    intros _. apply keeps_emit.
Qed.

Lemma keeps_ensure_http_client : keeps (fun _ => True) ensure_http_client.
Proof.
  unfold ensure_http_client. eapply keeps_bind; [apply keeps_get_world|].
  intros w Hw. destruct (http_client w).
  - by apply keeps_ret.
  - by apply keeps_put_world.
Qed.

Lemma keeps_http_get {A} request (reply : Reply A) :
  keeps (fun _ => True) (http_get request reply).
Proof.
  unfold http_get. apply keeps_bind_any; [apply keeps_emit|].
  intros _. destruct reply.
  - apply keeps_raise.
  - by apply keeps_ret.
Qed.

Lemma session_unique_set f :
  (forall ud, ud_list_films (f ud) = ud_list_films ud) ->
  forall ud, session_unique ud -> session_unique (f ud).
Proof. intros Hf ud Hud films. rewrite Hf. apply Hud. Qed.

Lemma session_unique_set_list_films films ud :
  unique_ids films -> session_unique (set_list_films films ud).
Proof. intros H films' [= <-]. done. Qed.

(** Steps that touch neither the document nor the saved snapshot. *)
Ltac keeps_leaf :=
  first
    [ apply keeps_ret; exact I
    | apply keeps_raise
    | apply keeps_emit
    | apply keeps_ensure_http_client
    | apply keeps_http_get
    | apply (keeps_any _ _ keeps_get_user_data)
    | apply (keeps_any _ _ keeps_get_world)
    | apply (keeps_any _ _ keeps_load_films)
    | apply (keeps_any _ _ (keeps_or_raise _ _))
    | apply keeps_update_user_data; apply session_unique_set; reflexivity ].

Ltac keeps_step :=
  first
    [ keeps_leaf
    | apply keeps_bind_any; [|intros ?]
    | apply keeps_try; [|intros ?]
    | match goal with
      | |- keeps _ (if ?b then _ else _) => destruct b
      | |- keeps _ (match ?x with _ => _ end) => destruct x
      end ].

Ltac keeps_auto := unfold answer, reply_text, edit_text; repeat keeps_step.

Lemma keeps_get_genres tmdb : keeps (fun _ => True) (get_genres tmdb).
Proof.
  unfold get_genres. eapply keeps_bind; [apply keeps_get_world|].
  intros w Hw.
  assert (keeps (fun _ : Genres => True)
            (ensure_http_client >>>
             let* returned :=
               try_except
                 (let* resp := http_get GenreListRequest (tmdb_genre_list tmdb) in
                  if fst resp =? 200 then
                    let genres := genres_of_list (snd resp) in
                    let* w := get_world in
                    put_world (mkWorld (data_file w) (Some genres) (http_client w)) >>>
                    ret (Some genres)
                  else ret None)
                 any_exception (fun _ => ret None) in
             match returned with
             | Some genres => ret genres
             | None => ret []
             end)) as Hmiss.
  { apply keeps_bind_any; [keeps_leaf|]. intros _.
    apply keeps_bind_any; [|intros ?; keeps_auto].
    apply keeps_try; [|intros ?; keeps_auto].
    apply keeps_bind_any; [keeps_leaf|]. intros resp.
    destruct (fst resp =? 200); [|keeps_auto].
    eapply keeps_bind; [apply keeps_get_world|]. intros w' Hw'.
    apply keeps_bind_any; [by apply keeps_put_world|]. intros _. keeps_auto. }
  destruct (_genre_cache w) as [[|g gs]|]; [exact Hmiss| |exact Hmiss].
  by apply keeps_ret.
Qed.

Lemma unique_ids_nil : unique_ids [].
Proof. constructor. Qed.

Lemma unique_ids_lookup (data : gmap string (list Film)) user_id :
  document_unique data -> unique_ids (default [] (data !! user_id)).
Proof.
  intros Hd. destruct (data !! user_id) as [films|] eqn:E; simpl.
  - by eapply Hd.
  - apply unique_ids_nil.
Qed.

Lemma unique_ids_append films id title genres :
  existsb (fun f => film_id f =? id) films = false ->
  unique_ids films -> unique_ids (films ++ [mkFilm id title genres]).
Proof.
  unfold unique_ids. intros Hnew Hu. rewrite map_app. simpl.
  apply NoDup_app. split; [done|]. split; [|apply NoDup_singleton].
  intros x Hx Hx'. apply list_elem_of_singleton in Hx' as ->.
  apply list_elem_of_In, in_map_iff in Hx as (f & Hf & Hin).
  assert (existsb (fun f => film_id f =? id) films = true) as Ht; [|congruence].
  apply existsb_exists. exists f. split; [done|]. by apply Z.eqb_eq.
Qed.

Lemma unique_ids_delete n films :
  unique_ids films -> unique_ids (delete n films).
Proof.
  unfold unique_ids. revert n. induction films as [|f films IH]; intros n Hu.
  - by destruct n.
  - simpl in Hu. apply NoDup_cons in Hu as [Hf Hu]. destruct n as [|n]; simpl.
    + done.
    + apply NoDup_cons. split; [|by apply IH].
      intros Hin. apply Hf.
      apply list_elem_of_In, in_map_iff in Hin as (g & Hg & Hin).
      apply list_elem_of_In, in_map_iff. exists g. split; [done|].
      apply list_elem_of_In. apply list_elem_of_In in Hin.
      by eapply list_elem_of_delete_inv.
Qed.

Lemma unique_ids_pop films i rest :
  pop films i = Some rest -> unique_ids films -> unique_ids rest.
Proof.
  unfold pop. destruct (normalize_index (length films) i); [|done].
  intros [= <-]. apply unique_ids_delete.
Qed.

Lemma document_unique_insert (data : gmap string (list Film)) user_id films :
  document_unique data -> unique_ids films ->
  document_unique (<[user_id := films]> data).
Proof.
  intros Hd Hf u l. rewrite lookup_insert.
  case_decide; [by intros [= <-]|]. apply Hd.
Qed.

Lemma keeps_add_save_film tmdb from_user_id film :
  keeps (fun _ => True) (add_save_film tmdb from_user_id film).
Proof.
  unfold add_save_film. apply keeps_try; [|intros ?; keeps_auto].
  apply keeps_bind_any; [keeps_leaf|]. intros user_id.
  eapply keeps_bind; [apply keeps_load_films|]. intros films Hfilms.
  destruct (existsb _ _) eqn:Hdup; [keeps_auto|].
  apply keeps_bind_any; [apply keeps_get_genres|]. intros genres.
  apply keeps_bind_any; [|intros ?; keeps_auto].
  apply keeps_save_films. apply document_unique_insert; [done|].
  apply unique_ids_append; [done|]. by apply unique_ids_lookup.
Qed.

Lemma keeps_add_title tmdb RequestException update_from_user_id text :
  keeps (fun _ => True) (add_title tmdb RequestException update_from_user_id text).
Proof.
  unfold add_title. apply keeps_bind_any; [keeps_leaf|]. intros _.
  apply keeps_try; [|intros ?; keeps_auto].
  apply keeps_bind_any; [keeps_leaf|]. intros _.
  apply keeps_bind_any; [keeps_leaf|]. intros results.
  destruct results as [|film [|film' results]]; [keeps_auto| |keeps_auto].
  apply keeps_add_save_film.
Qed.

Lemma keeps_add_choice tmdb user_id data :
  keeps (fun _ => True) (add_choice tmdb user_id data).
Proof.
  unfold add_choice. apply keeps_bind_any; [keeps_auto|]. intros _.
  apply keeps_bind_any; [keeps_leaf|]. intros ud.
  destruct (ud_add_results ud); [|keeps_auto].
  apply keeps_try; [|intros ?; keeps_auto].
  apply keeps_bind_any; [keeps_leaf|]. intros idx.
  apply keeps_bind_any; [keeps_leaf|]. intros film.
  apply keeps_add_save_film.
Qed.

Lemma keeps_list_films user_id : keeps (fun _ => True) (list_films user_id).
Proof.
  unfold list_films. eapply keeps_bind; [apply keeps_load_films|].
  intros all_films Hall.
  pose proof (unique_ids_lookup all_films user_id Hall) as Hu.
  destruct (default [] (all_films !! user_id)) as [|f films]; [keeps_auto|].
  apply keeps_bind_any; [|intros ?; keeps_auto].
  apply keeps_update_user_data. intros ud _.
  by apply session_unique_set_list_films.
Qed.

Lemma keeps_list_delete_film user_id data :
  keeps (fun _ => True) (list_delete_film user_id data).
Proof.
  unfold list_delete_film. apply keeps_bind_any; [keeps_auto|]. intros _.
  eapply keeps_bind; [apply keeps_get_user_data|]. intros ud Hud.
  assert (unique_ids (default [] (ud_list_films ud))) as Hfilms.
  { destruct (ud_list_films ud) eqn:E; simpl; [by apply Hud|apply unique_ids_nil]. }
  destruct (String.eqb data "show_delete_interface"); [keeps_auto|].
  destruct (String.eqb data "cancel_delete"); [keeps_auto|].
  destruct (String.eqb data "show_updated_list"); [keeps_auto|].
  destruct (startswith data "delete_"); [|keeps_auto].
  apply keeps_try; [|intros ?; keeps_auto].
  apply keeps_bind_any; [keeps_leaf|]. intros part.
  apply keeps_bind_any; [keeps_leaf|]. intros film_index.
  destruct (Z.of_nat (length (default [] (ud_list_films ud))) <=? film_index);
    [keeps_auto|].
  apply keeps_bind_any; [keeps_leaf|]. intros film_to_delete.
  eapply keeps_bind; [apply keeps_or_raise|]. intros rest Hrest.
  pose proof (unique_ids_pop _ _ _ Hrest Hfilms) as Hu.
  apply keeps_bind_any.
  { apply keeps_update_user_data. intros ? _. by apply session_unique_set_list_films. }
  intros _. eapply keeps_bind; [apply keeps_load_films|]. intros all_films Hall.
  apply keeps_bind_any.
  { apply keeps_save_films. by apply document_unique_insert. }
  intros _. apply keeps_bind_any; [keeps_leaf|]. intros _.
  destruct rest as [|f rest]; [keeps_auto|].
  apply keeps_bind_any; [keeps_leaf|]. intros _.
  apply keeps_bind_any; [|intros ?; keeps_auto].
  apply keeps_update_user_data. intros ? _. by apply session_unique_set_list_films.
Qed.

Lemma keeps_recommend_choose tmdb user_id data :
  keeps (fun _ => True) (recommend_choose tmdb user_id data).
Proof.
  unfold recommend_choose. apply keeps_bind_any; [keeps_auto|]. intros _.
  destruct (String.eqb data "by_film"); [keeps_auto|].
  destruct (String.eqb data "by_genre"); [|keeps_auto].
  apply keeps_bind_any; [apply keeps_get_genres|]. intros genres. keeps_auto.
Qed.

Lemma keeps_show_film_page tmdb user_id film :
  keeps (fun _ => True) (show_film_page tmdb user_id film).
Proof.
  unfold show_film_page. apply keeps_try; [|intros ?; keeps_auto].
  do 5 (apply keeps_bind_any; [keeps_leaf|]; intros ?).
  destruct (page_films _ _ _); [keeps_auto|].
  apply keeps_bind_any; [apply keeps_get_genres|]. intros genres. keeps_auto.
Qed.

Lemma keeps_recommend_film_pick tmdb user_id data :
  keeps (fun _ => True) (recommend_film_pick tmdb user_id data).
Proof.
  unfold recommend_film_pick. apply keeps_bind_any; [keeps_auto|]. intros _.
  destruct (String.eqb data "close_recommendations"); [keeps_auto|].
  destruct (startswith data "add_rec_"); [keeps_auto|].
  apply keeps_bind_any; [keeps_auto|]. intros [film|]; [|keeps_auto].
  apply keeps_show_film_page.
Qed.

Lemma keeps_show_genre_page tmdb user_id genre_id :
  keeps (fun _ => True) (show_genre_page tmdb user_id genre_id).
Proof.
  unfold show_genre_page. apply keeps_try; [|intros ?; keeps_auto].
  apply keeps_bind_any; [apply keeps_get_genres|]. intros genres. keeps_auto.
Qed.

Lemma keeps_recommend_genre_pick tmdb user_id data :
  keeps (fun _ => True) (recommend_genre_pick tmdb user_id data).
Proof.
  unfold recommend_genre_pick. apply keeps_bind_any; [keeps_auto|]. intros _.
  destruct (String.eqb data "close_recommendations"); [keeps_auto|].
  destruct (startswith data "add_rec_"); [keeps_auto|].
  apply keeps_bind_any; [keeps_auto|]. intros [genre_id|]; [|keeps_auto].
  apply keeps_show_genre_page.
Qed.

Lemma keeps_universal_callback_handler tmdb user_id data :
  keeps (fun _ => True) (universal_callback_handler tmdb user_id data).
Proof.
  unfold universal_callback_handler.
  apply keeps_bind_any; [keeps_leaf|]. intros ud.
  destruct (_ || _); [apply keeps_list_delete_film|].
  destruct (_ || _); [apply keeps_recommend_choose|].
  destruct (_ || _); [apply keeps_recommend_film_pick|].
  destruct (_ || _); [apply keeps_recommend_genre_pick|].
  destruct (_ && _); [apply keeps_add_choice|].
  keeps_auto.
Qed.

Lemma keeps_handler RequestException Update_has_from_user tmdb user_id u :
  keeps (fun _ => True) (handler RequestException Update_has_from_user tmdb user_id u).
Proof.
  destruct u; simpl.
  - unfold start. keeps_auto.
  - unfold help_command. keeps_auto.
  - unfold add_start. keeps_auto.
  - unfold add_cancel. keeps_auto.
  - unfold recommend_start. keeps_auto.
  - unfold recommend_cancel. keeps_auto.
  - apply keeps_list_films.
  - apply keeps_add_title.
  - apply keeps_add_choice.
  - apply keeps_recommend_choose.
  - apply keeps_recommend_film_pick.
  - apply keeps_recommend_genre_pick.
  - unfold close_recommendations. keeps_auto.
  - apply keeps_list_delete_film.
  - apply keeps_universal_callback_handler.
Qed.

Lemma bot_unique_new : bot_unique new_bot.
Proof.
  split.
  - intros u films. unfold new_bot, stored. simpl. by rewrite lookup_empty.
  - intros u ud. unfold new_bot. simpl. by rewrite lookup_empty.
Qed.

Lemma session_unique_empty : session_unique empty_session.
Proof. intros films. done. Qed.

(** Every update keeps the ids of every user's films distinct, in the
    document and in the snapshots held by the sessions. *)
Lemma bot_unique_handle_update RequestException Update_has_from_user bot ev :
  bot_unique bot ->
  bot_unique (handle_update RequestException Update_has_from_user bot ev).
Proof.
  intros [Hdoc Hsess]. destruct ev as [[tmdb user_id] u]. unfold handle_update.
  set (ud := default empty_session (bot_sessions bot !! user_id)).
  assert (state_unique (mkState (bot_world bot) ud)) as Hst.
  { split; [done|]. simpl. subst ud.
    destruct (bot_sessions bot !! user_id) eqn:E; simpl;
      [by eapply Hsess|apply session_unique_empty]. }
  destruct (keeps_handler RequestException Update_has_from_user tmdb user_id u _ Hst)
    as [[H1 H2] _].
  destruct (handler _ _ _ _ _ _) as [[r st] tr]. simpl in *.
  split; [done|]. simpl. intros u' ud'. rewrite lookup_insert.
  case_decide; [by intros [= <-]|]. apply Hsess.
Qed.

Lemma bot_unique_run_bot RequestException Update_has_from_user evs : forall bot,
  bot_unique bot ->
  bot_unique (run_bot RequestException Update_has_from_user evs bot).
Proof.
  induction evs as [|ev evs IH]; intros bot Hbot; simpl; [done|].
  apply IH. by apply bot_unique_handle_update.
Qed.

(** ** Adding a film *)

Lemma add_save_film_duplicate tmdb user_id film st :
  existsb (fun f => film_id f =? cand_id film)
          (default [] (stored (world st) !! user_id)) = true ->
  add_save_film tmdb (Some user_id) film st =
  (Return (Some END), st, [ReplyText TxtAlreadyInList global_keyboard]).
Proof.
  intros Hdup. unfold add_save_film. run_handler. rewrite Hdup. by destruct st.
Qed.

Lemma add_save_film_returns tmdb from_user_id film st :
  (add_save_film tmdb from_user_id film st).1.1 = Return (Some END).
Proof.
  unfold add_save_film. run_handler.
  destruct from_user_id as [user_id|]; [|done].
  destruct (existsb _ _); [done|].
  by destruct (get_genres tmdb st) as [[[genres|e] st'] tr].
Qed.

(** ** Event router *)

Lemma bind_get_user_data {A} (f : Session -> M A) st :
  bind get_user_data f st = f (user_data st) st.
Proof.
  unfold bind, get_user_data. by destruct (f (user_data st) st) as [[? ?] ?].
Qed.

Lemma eqb_in_list data (l : list string) :
  bool_decide (data ∈ l) = existsb (String.eqb data) l.
Proof.
  induction l as [|x l IH]; [done|]. cbn [existsb].
  rewrite <- IH. destruct (String.eqb_spec data x) as [->|Hne]; cbn [orb].
  - apply bool_decide_eq_true_2. left.
  - apply bool_decide_ext. rewrite elem_of_cons. split; [by intros [?|?]|by right].
Qed.

(** ** Pages of recommendations *)

Lemma tmdb_page_ceiling p : 4 * (tmdb_page p - 1) < p <= 4 * tmdb_page p.
Proof.
  unfold tmdb_page.
  pose proof (Z.div_mod (p - 1) 4) as H.
  pose proof (Z.mod_pos_bound (p - 1) 4). lia.
Qed.

Lemma tmdb_results_offset_range p : 0 <= tmdb_results_offset p <= 15.
Proof.
  unfold tmdb_results_offset, items_per_page.
  pose proof (Z.mod_pos_bound (p - 1) 4). lia.
Qed.

Lemma slice_from {A} (l : list A) start n :
  0 <= start -> 0 <= n ->
  slice l start (start + n) = take (Z.to_nat n) (drop (Z.to_nat start) l).
Proof.
  intros Hs Hn. unfold slice, slice_bound.
  assert ((start <? 0) = false) as -> by (apply Z.ltb_ge; lia).
  assert ((start + n <? 0) = false) as -> by (apply Z.ltb_ge; lia).
  destruct (Z_lt_le_dec start (Z.of_nat (length l))) as [Hlt|Hge].
  - rewrite (Z.min_l start) by lia.
    destruct (Z_le_gt_dec (start + n) (Z.of_nat (length l))) as [Hle|Hgt].
    + rewrite Z.min_l by lia. f_equal. lia.
    + rewrite Z.min_r by lia.
      rewrite !take_ge; [done|rewrite length_drop; lia|rewrite length_drop; lia].
  - rewrite !Z.min_r by lia. rewrite Z.sub_diag. cbn [Z.to_nat]. rewrite take_0.
    rewrite (drop_ge l (Z.to_nat start)) by lia. by rewrite take_nil.
Qed.

Lemma page_slice_length {A} (l : list A) p :
  (length (slice l (tmdb_results_offset p) (tmdb_results_offset p + items_per_page))
   <= 5)%nat.
Proof.
  pose proof (tmdb_results_offset_range p).
  rewrite slice_from by (unfold items_per_page; lia).
  rewrite length_take. change (Z.to_nat items_per_page) with 5%nat. lia.
Qed.

Lemma filter_unseen_all user_films (results : list Candidate) :
  (forall f, In f results -> ~ In (cand_id f) user_films) ->
  List.filter (fun f => negb (existsb (Z.eqb (cand_id f)) user_films)) results = results.
Proof.
  intros Hnone. induction results as [|f results IH]; simpl; [done|].
  assert (existsb (Z.eqb (cand_id f)) user_films = false) as ->.
  { destruct (existsb _ _) eqn:E; [|done].
    apply existsb_exists in E as (x & Hx & Heq). apply Z.eqb_eq in Heq. subst x.
    destruct (Hnone f); [by left|done]. }
  simpl. rewrite IH; [done|]. intros g Hg. apply Hnone. by right.
Qed.

Lemma page_films_length user_films p results :
  (length (page_films user_films p results) <= 5)%nat.
Proof.
  unfold page_films.
  pose proof (page_slice_length
    (List.filter (fun f => negb (existsb (Z.eqb (cand_id f)) user_films)) results) p) as H1.
  pose proof (page_slice_length results p) as H2.
  destruct (slice (List.filter _ _) _ _); [done|done].
Qed.

Lemma page_films_unseen user_films p results :
  (forall f, In f results -> ~ In (cand_id f) user_films) ->
  page_films user_films p results =
  take 5 (drop (Z.to_nat (tmdb_results_offset p)) results).
Proof.
  intros Hnone. unfold page_films. rewrite filter_unseen_all by done.
  pose proof (tmdb_results_offset_range p).
  rewrite slice_from by (unfold items_per_page; lia).
  change (Z.to_nat items_per_page) with 5%nat.
  by destruct (take _ _).
Qed.

(** The films of a page: five positions from the offset, of the results
    the user has not saved, or of all results when these give nothing. *)
Lemma page_films_window user_films p results :
  let unseen :=
    List.filter (fun f => negb (existsb (Z.eqb (cand_id f)) user_films)) results in
  let window (l : list Candidate) :=
    take 5 (drop (Z.to_nat (tmdb_results_offset p)) l) in
  page_films user_films p results =
  match window unseen with
  | [] => window results
  | page => page
  end.
Proof.
  intros unseen window. unfold page_films. fold unseen.
  pose proof (tmdb_results_offset_range p).
  rewrite !slice_from by (unfold items_per_page; lia).
  by change (Z.to_nat items_per_page) with 5%nat.
Qed.

Lemma take_drop_filter {A} (f : A -> bool) (l : list A) n k :
  Forall (fun x => f x = true) (take n (drop k (List.filter f l))).
Proof.
  apply Forall_forall. intros x Hx.
  pose proof (elem_of_sublist _ _ _ Hx (sublist_take _ _)) as Hx'.
  pose proof (elem_of_sublist _ _ _ Hx' (sublist_drop _ _)) as Hx''.
  clear Hx Hx'. rename Hx'' into Hx.
  apply list_elem_of_In, filter_In in Hx. tauto.
Qed.

Lemma page_films_first_of_twenty user_films results :
  length results = 20%nat -> page_films user_films 1 results <> [].
Proof.
  intros Hlen. unfold page_films.
  destruct (slice (List.filter _ _) _ _) eqn:E; [|done].
  change (tmdb_results_offset 1) with 0.
  rewrite (slice_from results 0 items_per_page) by (unfold items_per_page; lia).
  destruct results as [|f results]; done.
Qed.

Lemma get_genres_returns tmdb st :
  exists genres, (get_genres tmdb st).1.1 = Return genres.
Proof.
  destruct st as [[d c h] ud]. unfold get_genres. run_handler.
  destruct c as [[|g gs]|]; [|by eexists|];
    (destruct (tmdb_genre_list tmdb) as [e|[status genres]];
     [destruct h; by eexists|]; simpl; destruct (status =? 200), h; by eexists).
Qed.

(** What [show_film_page] sends for the films [page_films] selects. *)
Lemma show_film_page_run tmdb user_id film st p results :
  ud_film_page (user_data st) = Some p ->
  tmdb_recommendations tmdb (film_id film) (tmdb_page p) = Gives results ->
  let shown :=
    page_films (map film_id (default [] (stored (world st) !! user_id))) p results in
  exists st' sent,
    show_film_page tmdb user_id film st =
      (Return (Some RECOMMEND_MORE_FILM), st',
       HttpGet (RecommendationsRequest (film_id film) (tmdb_page p)) :: sent) /\
    match shown with
    | [] => sent = [EditText TxtNoMore close_only]
    | _ =>
        exists genres_dict before,
          sent = before ++
                 [EditText
                    (TxtFilmRecommendations (film_title film)
                       (recommendation_lines genres_dict shown))
                    (InlineKeyboardMarkup
                       (recommendation_buttons shown ++
                        [(if 1 <? p
                          then [CallbackButton LblBack
                                  ("film_page_" +:+ str (p - 1))]
                          else []) ++
                         [CallbackButton LblMore "more_film";
                          CallbackButton LblClose "close_recommendations"]]))]
    end.
Proof.
  intros Hpage Hresults shown.
  destruct st as [[d c h] ud]. cbn [world user_data] in *.
  unfold show_film_page. run_handler. rewrite Hpage.
  destruct h; cbn [world user_data data_file _genre_cache http_client];
    rewrite Hresults; cbn [world user_data data_file _genre_cache http_client].
  all: fold shown; clearbody shown; destruct shown as [|f shown'].
  1, 3: do 2 eexists; split; [reflexivity|done].
  all: match goal with
       | |- context [get_genres ?t ?s] =>
           destruct (get_genres_returns t s) as [genres Hg];
           destruct (get_genres t s) as [[r st2] tr]; simpl in Hg; subst r
       end;
       do 2 eexists; (split; [reflexivity|]);
       exists genres, tr; reflexivity.
Qed.

(** ** Side conditions of the model *)

(** With a positive [max_requests], as the process-wide limiter has it,
    [acquire] never raises: the list it indexes is not empty. *)
Lemma acquire_enter_never_raises now rl :
  (0 < max_requests rl)%nat -> snd (acquire_enter now rl) <> RaiseIndexError.
Proof.
  intros Hmax. unfold acquire_enter.
  destruct (max_requests rl <=? length _)%nat eqn:Hfull; [|done].
  apply Nat.leb_le in Hfull.
  destruct (List.filter _ _) as [|r0 rest]; [simpl in Hfull; lia|].
  by destruct (0 <? _).
Qed.

(** Handed an object without [from_user], [add_save_film] reports a
    failure to save, whatever the stored list holds, and writes nothing. *)
Lemma add_save_film_without_from_user tmdb film st :
  add_save_film tmdb None film st =
  (Return (Some END), st, [ReplyText TxtSaveError global_keyboard]).
Proof. unfold add_save_film. run_handler. by destruct st. Qed.

(** [int()] skips blanks and line breaks around a literal and takes single
    underscores between digits; the separator 31 is no white space for
    it. *)
Example int_literals :
  int_ (" 7" +:+ String newline EmptyString) = Some 7 /\
  int_ "-1_000" = Some (-1000) /\
  int_ "+ 1" = None /\
  int_ (String "1" (String (ascii_of_nat 31) EmptyString)) = None.
Proof. repeat split; reflexivity. Qed.

(** Characters, not bytes, are counted: a Cyrillic title of 29 letters (55
    bytes) is shown whole, a longer title is cut after 30 characters. *)
Example button_text_counts_characters :
  button_text "Унесённые призраками и ветром" = "Унесённые призраками и ветром"%string /\
  button_text "The Englishman Who Went Up a Hill But Came Down a Mountain" =
    "The Englishman Who Went Up a H..."%string /\
  len (button_text "Очень длинное название фильма, которое не помещается") = 33%nat.
Proof. repeat split; reflexivity. Qed.

(** [json.load] also reads a document that was not written by the bot:
    without line breaks and with the keys of a record in another order. *)
Example json_load_compact_text :
  json_load
    ("{" +:+ encode_string "7" +:+ ":[{" +:+ encode_string "genres" +:+ ":[]," +:+
     encode_string "title" +:+ ": " +:+ encode_string "Heat" +:+ " , " +:+
     encode_string "id" +:+ ":949}]}" +:+ String newline EmptyString)
  = Some {["7" := [heat]]}.
Proof. by vm_compute. Qed.

(** The order of the shapes matters: the close button is handled by the
    film flow even while a genre is pending, and a numeric pick goes to
    the film flow before the search results. *)
Example close_goes_to_film_flow :
  first_match (precedence (set_recommend_genre_id 18 empty_session)
                          "close_recommendations") = Some ToRecommendFilm.
Proof. reflexivity. Qed.

Example pick_goes_to_film_flow :
  first_match (precedence (set_add_results [dune_candidate; dune_1984]
                             (set_recommend_films sample_films empty_session))
                          "1") = Some ToRecommendFilm.
Proof. reflexivity. Qed.

Example stale_tap_matches_nothing :
  first_match (precedence empty_session "1") = None.
Proof. reflexivity. Qed.

(** ** The genre dictionary *)

Lemma dict_get_set {V} k k' (v : V) d :
  dict_get k (dict_set k' v d) = if k' =? k then Some v else dict_get k d.
Proof.
  induction d as [|[k0 v0] d IH]; simpl.
  - done.
  - destruct (k0 =? k') eqn:E0; simpl.
    + apply Z.eqb_eq in E0. subst k0. by destruct (k' =? k).
    + destruct (k0 =? k) eqn:E1.
      * apply Z.eqb_eq in E1. subst k0. by rewrite Z.eqb_sym, E0.
      * exact IH.
Qed.

Lemma dict_set_keys {V} k (v : V) d :
  map fst (dict_set k v d) =
  if existsb (Z.eqb k) (map fst d) then map fst d else map fst d ++ [k].
Proof.
  induction d as [|[k0 v0] d IH]; simpl; [done|].
  rewrite (Z.eqb_sym k k0). destruct (k0 =? k) eqn:E0; simpl.
  - apply Z.eqb_eq in E0. by subst k0.
  - rewrite IH. by destruct (existsb _ _).
Qed.

Lemma dict_set_nodup {V} k (v : V) d :
  NoDup (map fst d) -> NoDup (map fst (dict_set k v d)).
Proof.
  intros Hd. rewrite dict_set_keys.
  destruct (existsb (Z.eqb k) (map fst d)) eqn:E; [done|].
  apply NoDup_app. split; [done|]. split; [|apply NoDup_singleton].
  intros x Hx Hx'. apply list_elem_of_singleton in Hx' as ->.
  assert (existsb (Z.eqb k) (map fst d) = true) as Ht; [|congruence].
  apply existsb_exists. exists k. split; [by apply list_elem_of_In|apply Z.eqb_refl].
Qed.

Lemma dict_set_not_empty {V} k (v : V) d : dict_set k v d <> [].
Proof. destruct d as [|[k0 v0] d]; simpl; [done|]. by destruct (k0 =? k). Qed.

Lemma genres_of_list_not_empty g gs : genres_of_list (g :: gs) <> [].
Proof.
  unfold genres_of_list.
  assert (forall (l : list (Z * string)) (d : Genres), d <> [] ->
            fold_left (fun d g => dict_set (fst g) (snd g) d) l d <> []) as H.
  { induction l as [|x l IH]; simpl; [done|]. intros d _. apply IH, dict_set_not_empty. }
  simpl. apply H. done.
Qed.

(** The mapping built from the [genres] array gives every id the name of
    its last entry. *)
Lemma genres_of_list_lookup gs k :
  dict_get k (genres_of_list gs) =
  option_map snd (find (fun g => fst g =? k) (rev gs)).
Proof.
  unfold genres_of_list. induction gs as [|g gs IH] using rev_ind; [done|].
  rewrite fold_left_app, rev_app_distr. simpl.
  rewrite dict_get_set. by destruct (fst g =? k).
Qed.

Lemma find_rev_distinct (gs : list (Z * string)) id name :
  NoDup (map fst gs) -> In (id, name) gs ->
  find (fun g => fst g =? id) (rev gs) = Some (id, name).
Proof.
  intros Hnd Hin.
  destruct (find (fun g => fst g =? id) (rev gs)) as [[id' name']|] eqn:Hfind.
  - apply find_some in Hfind as [Hin' Heq]. apply in_rev in Hin'.
    apply Z.eqb_eq in Heq. simpl in Heq. subst id'. f_equal. f_equal.
    apply list_elem_of_In in Hin, Hin'.
    apply list_elem_of_lookup in Hin as [i Hi], Hin' as [j Hj].
    assert (i = j) as ->; [|congruence].
    eapply NoDup_lookup; [exact Hnd| |];
      rewrite list_lookup_fmap; [by rewrite Hi|by rewrite Hj].
  - apply in_rev in Hin. pose proof (find_none _ _ Hfind (id, name) Hin) as Hne.
    simpl in Hne. by rewrite Z.eqb_refl in Hne.
Qed.

(** ** The genre cache *)

Lemma get_genres_populated tmdb st g gs :
  _genre_cache (world st) = Some (g :: gs) ->
  get_genres tmdb st = (Return (g :: gs), st, []).
Proof.
  intros Hc. destruct st as [[d c h] ud]. simpl in Hc. subst c.
  unfold get_genres. by run_handler.
Qed.

Lemma get_genres_miss tmdb st :
  cache_populated (world st) = false ->
  get_genres tmdb st =
  match tmdb_genre_list tmdb with
  | Gives (status, genres) =>
      if status =? 200 then
        (Return (genres_of_list genres),
         mkState (mkWorld (data_file (world st)) (Some (genres_of_list genres)) true)
                 (user_data st),
         [HttpGet GenreListRequest])
      else
        (Return [],
         mkState (mkWorld (data_file (world st)) (_genre_cache (world st)) true)
                 (user_data st),
         [HttpGet GenreListRequest])
  | Fails e =>
      (Return [],
       mkState (mkWorld (data_file (world st)) (_genre_cache (world st)) true)
               (user_data st),
       [HttpGet GenreListRequest])
  end.
Proof.
  destruct st as [[d c h] ud]. unfold cache_populated. simpl. intros Hc.
  unfold get_genres. run_handler.
  destruct c as [[|g gs]|]; [|done|];
    (destruct (tmdb_genre_list tmdb) as [e|[status genres]];
     [by destruct h|]; simpl; by destruct (status =? 200), h).
Qed.

Lemma get_genres_frame tmdb st :
  exists genres w sent,
    get_genres tmdb st = (Return genres, mkState w (user_data st), sent) /\
    data_file w = data_file (world st).
Proof.
  destruct (cache_populated (world st)) eqn:Hc.
  - unfold cache_populated in Hc.
    destruct (_genre_cache (world st)) as [[|g gs]|] eqn:E; try done.
    exists (g :: gs), (world st), []. split; [|done].
    rewrite (get_genres_populated tmdb st g gs E). by destruct st.
  - rewrite get_genres_miss by done.
    destruct (tmdb_genre_list tmdb) as [e|[status genres]];
      [|destruct (status =? 200)]; by do 3 eexists.
Qed.

(** ** Saving a new film *)

Lemma existsb_id_false films id :
  Forall (fun f => film_id f <> id) films ->
  existsb (fun f => film_id f =? id) films = false.
Proof.
  induction 1 as [|f films Hf _ IH]; simpl; [done|].
  rewrite IH. by apply Z.eqb_neq in Hf as ->.
Qed.

Lemma add_save_film_new tmdb user_id film st genres w sent :
  get_genres tmdb st = (Return genres, mkState w (user_data st), sent) ->
  existsb (fun f => film_id f =? cand_id film)
          (default [] (stored (world st) !! user_id)) = false ->
  let genre_names :=
    map (fun gid => default EmptyString (dict_get gid genres)) (genre_ids film) in
  let saved :=
    <[user_id := default [] (stored (world st) !! user_id) ++
                 [mkFilm (cand_id film) (cand_title film) genre_names]]>
      (stored (world st)) in
  add_save_film tmdb (Some user_id) film st =
  (Return (Some END),
   mkState (mkWorld (Some saved) (_genre_cache w) (http_client w)) (user_data st),
   sent ++ [WriteFile saved;
            ReplyText (TxtAdded (cand_title film) genre_names) global_keyboard]).
Proof.
  intros Hg Hnew genre_names saved. unfold add_save_film. run_handler.
  rewrite Hnew, Hg. cbn [world user_data data_file _genre_cache http_client].
  reflexivity.
Qed.

Lemma existsb_id_last films id title genres :
  existsb (fun f => film_id f =? id) (films ++ [mkFilm id title genres]) = true.
Proof.
  rewrite existsb_app. simpl. rewrite Z.eqb_refl. by rewrite orb_true_r.
Qed.

(** ** Picking a search result *)

Lemma getitem_of_nat {A} (l : list A) (i : nat) : getitem l (Z.of_nat i) = l !! i.
Proof.
  unfold getitem, normalize_index.
  destruct (Z.of_nat i <? Z.of_nat (length l)) eqn:E.
  - assert ((0 <=? Z.of_nat i) = true) as -> by (apply Z.leb_le; lia).
    simpl. by rewrite Nat2Z.id.
  - apply Z.ltb_ge in E. rewrite andb_false_r.
    assert ((Z.of_nat i <? 0) = false) as -> by (apply Z.ltb_ge; lia).
    rewrite andb_false_r. symmetry. apply lookup_ge_None. lia.
Qed.

Lemma add_choice_run tmdb user_id data st :
  add_choice tmdb user_id data st =
  match ud_add_results (user_data st) with
  | None => (Return (Some END), st, [Answer; EditText TxtNoAddResults NoMarkup])
  | Some add_results =>
      match int_ data with
      | None => (Return (Some END), st, [Answer; EditText TxtChoiceError NoMarkup])
      | Some idx =>
          match getitem add_results idx with
          | None => (Return (Some END), st, [Answer; EditText TxtChoiceError NoMarkup])
          | Some film =>
              (Return (Some END),
               (add_save_film tmdb (Some user_id) film st).1.2,
               Answer :: (add_save_film tmdb (Some user_id) film st).2)
          end
      end
  end.
Proof.
  unfold add_choice. run_handler.
  destruct (ud_add_results (user_data st)) as [add_results|]; [|by destruct st].
  destruct (int_ data) as [idx|]; [|by destruct st].
  destruct (getitem add_results idx) as [film|]; [|by destruct st].
  pose proof (add_save_film_returns tmdb (Some user_id) film st) as Hret.
  destruct (add_save_film tmdb (Some user_id) film st) as [[r st'] sent].
  simpl in *. by subst r.
Qed.

Lemma add_title_keeps_results tmdb RequestException update_from_user_id text st
    film film' results :
  tmdb_search tmdb (strip text) = Gives (film :: film' :: results) ->
  ud_add_results
    (user_data (add_title tmdb RequestException update_from_user_id text st).1.2)
  = Some (film :: film' :: results).
Proof.
  intros Hsearch. unfold add_title. run_handler. rewrite Hsearch.
  by destruct st as [[d c []] ud].
Qed.

(** ** Listing *)

Lemma list_films_run user_id st :
  list_films user_id st =
  match default [] (stored (world st) !! user_id) with
  | [] => (Return (Some END), st, [ReplyText TxtListEmpty global_keyboard])
  | films =>
      (Return (Some LIST_SHOW),
       mkState (world st) (set_list_films films (user_data st)),
       [ReplyText (TxtYourFilms films) delete_button])
  end.
Proof.
  unfold list_films. run_handler.
  destruct (default [] (stored (world st) !! user_id)); by destruct st.
Qed.

Lemma stored_written data c h : stored (mkWorld (Some data) c h) = data.
Proof. reflexivity. Qed.

Lemma list_films_snapshot user_id st films :
  stored (world st) !! user_id = Some films ->
  (0 < length films)%nat ->
  list_films user_id st =
  (Return (Some LIST_SHOW),
   mkState (world st) (set_list_films films (user_data st)),
   [ReplyText (TxtYourFilms films) delete_button]).
Proof.
  intros Hfilms Hlen. rewrite list_films_run, Hfilms. simpl.
  destruct films; [simpl in Hlen; lia|done].
Qed.

Lemma split_delete_payload s :
  startswith ("delete_" +:+ s) "delete_" = true /\
  split "_" ("delete_" +:+ s) = "delete"%string :: split "_" s /\
  String.eqb ("delete_" +:+ s) "show_delete_interface" = false /\
  String.eqb ("delete_" +:+ s) "cancel_delete" = false /\
  String.eqb ("delete_" +:+ s) "show_updated_list" = false.
Proof.
  split; [unfold startswith; cbn; by destruct s|].
  split; [|by repeat split].
  change ("delete_" +:+ s) with
    (String "d" (String "e" (String "l" (String "e" (String "t" (String "e"
       (String "_" s))))))).
  cbn [split Ascii.eqb Bool.eqb].
  by destruct (split "_" s).
Qed.

Lemma list_delete_film_rejects user_id st s part rest :
  split "_" s = part :: rest ->
  int_ part = None \/
  (exists k, int_ part = Some k /\
             k < - Z.of_nat (length (default [] (ud_list_films (user_data st))))) ->
  list_delete_film user_id ("delete_" +:+ s) st =
  (Return (Some END), st, [Answer; ReplyText TxtDeleteError global_keyboard]).
Proof.
  intros Hsplit Hbad.
  destruct (split_delete_payload s) as (Hpre & Hs & T1 & T2 & T3).
  unfold list_delete_film. rewrite Hpre, Hs, Hsplit, T1, T2, T3.
  cbn [lookup list_lookup]. run_handler.
  destruct Hbad as [->|(k & -> & Hk)]; [by destruct st|].
  assert ((Z.of_nat (length (default [] (ud_list_films (user_data st)))) <=? k) = false)
    as -> by (apply Z.leb_gt; lia).
  unfold getitem, normalize_index.
  assert ((0 <=? k) = false) as -> by (apply Z.leb_gt; lia).
  assert ((- Z.of_nat (length (default [] (ud_list_films (user_data st)))) <=? k) = false)
    as -> by (apply Z.leb_gt; lia).
  simpl. by destruct st.
Qed.

(** ** Rules for [obeys] *)

Section Rules.

Context (P : State -> Prop) (T : Action -> Prop).

Lemma obeys_ret {A} (E : Exn -> Prop) (V : A -> Prop) a :
  V a -> obeys P T E V (ret a).
Proof. intros Ha st Hst. simpl. by repeat split. Qed.

Lemma obeys_raise {A} (E : Exn -> Prop) (V : A -> Prop) e :
  E e -> obeys P T E V (raise e).
Proof. intros He st Hst. simpl. by repeat split. Qed.

Lemma obeys_bind {A B} (E : Exn -> Prop) (V1 : A -> Prop) (V2 : B -> Prop) m f :
  obeys P T E V1 m -> (forall a, V1 a -> obeys P T E V2 (f a)) ->
  obeys P T E V2 (bind m f).
Proof.
  intros Hm Hf st Hst. unfold bind.
  destruct (Hm st Hst) as (H1 & H2 & H3).
  destruct (m st) as [[[a|e] st'] tr]; simpl in *; [|done].
  destruct (Hf a H3 st' H1) as (H4 & H5 & H6).
  destruct (f a st') as [[r st''] tr']. simpl in *.
  split; [done|]. split; [by apply Forall_app|done].
Qed.

Lemma obeys_bind_any {A B} (E : Exn -> Prop) (V2 : B -> Prop) (V1 : A -> Prop) m f :
  obeys P T E V1 m -> (forall a, obeys P T E V2 (f a)) ->
  obeys P T E V2 (bind m f).
Proof. intros Hm Hf. eapply obeys_bind; [exact Hm|]. intros a _. apply Hf. Qed.

Lemma obeys_try {A} (E : Exn -> Prop) (V : A -> Prop) body handles handler :
  obeys P T (fun e => handles e = true \/ E e) V body ->
  (forall e, handles e = true -> obeys P T E V (handler e)) ->
  obeys P T E V (try_except body handles handler).
Proof.
  intros Hb Hh st Hst. unfold try_except.
  destruct (Hb st Hst) as (H1 & H2 & H3).
  destruct (body st) as [[[a|e] st'] tr]; simpl in *; [done|].
  destruct (handles e) eqn:He.
  - destruct (Hh e He st' H1) as (H4 & H5 & H6).
    destruct (handler e st') as [[r st''] tr']. simpl in *.
    split; [done|]. split; [by apply Forall_app|done].
  - simpl. split; [done|]. split; [done|]. by destruct H3.
Qed.

Lemma obeys_weaken {A} (E E' : Exn -> Prop) (V V' : A -> Prop) m :
  obeys P T E V m -> (forall e, E e -> E' e) -> (forall a, V a -> V' a) ->
  obeys P T E' V' m.
Proof.
  intros Hm HE HV st Hst. destruct (Hm st Hst) as (H1 & H2 & H3).
  split; [done|]. split; [done|]. destruct ((m st).1.1); auto.
Qed.

Lemma obeys_emit (E : Exn -> Prop) a : T a -> obeys P T E (fun _ => True) (emit a).
Proof. intros Ha st Hst. simpl. split; [done|]. split; [by constructor|done]. Qed.

Lemma obeys_get_world (E : Exn -> Prop) : obeys P T E (world_of P) get_world.
Proof. intros st Hst. simpl. repeat split; [done..|]. by exists st. Qed.

Lemma obeys_get_user_data (E : Exn -> Prop) : obeys P T E (session_of P) get_user_data.
Proof. intros st Hst. simpl. repeat split; [done..|]. by exists st. Qed.

Lemma obeys_load_films (E : Exn -> Prop) :
  obeys P T E (fun data => exists st, P st /\ stored (world st) = data) load_films.
Proof. intros st Hst. simpl. repeat split; [done..|]. by exists st. Qed.

Lemma obeys_or_raise {A} (E : Exn -> Prop) e (o : option A) :
  (o = None -> E e) -> obeys P T E (fun a => o = Some a) (or_raise e o).
Proof.
  intros He. destruct o; simpl.
  - by apply obeys_ret.
  - apply obeys_raise. by apply He.
Qed.

Lemma obeys_update_user_data (E : Exn -> Prop) f :
  (forall st, P st -> P (mkState (world st) (f (user_data st)))) ->
  obeys P T E (fun _ => True) (update_user_data f).
Proof. intros Hf st Hst. simpl. repeat split; auto. Qed.

Lemma obeys_save_films (E : Exn -> Prop) data :
  (forall st, P st ->
     T (WriteFile data) /\
     P (mkState (mkWorld (Some data) (_genre_cache (world st)) (http_client (world st)))
                (user_data st))) ->
  obeys P T E (fun _ => True) (save_films data).
Proof.
  intros Hd st Hst. destruct (Hd st Hst) as [H1 H2]. simpl.
  split; [done|]. split; [by constructor|done].
Qed.

Lemma obeys_ensure_http_client (E : Exn -> Prop) :
  (forall st, P st -> P (with_client st)) ->
  obeys P T E (fun _ => True) ensure_http_client.
Proof.
  intros Hc st Hst. unfold ensure_http_client. run_handler.
  specialize (Hc st Hst). unfold with_client in Hc.
  destruct st as [[d c []] ud]; simpl in *; by repeat split.
Qed.

Lemma obeys_http_get {A} (E : Exn -> Prop) request (reply : Reply A) :
  T (HttpGet request) -> (forall e, reply = Fails e -> E e) ->
  obeys P T E (fun _ => True) (http_get request reply).
Proof.
  intros Ht He st Hst. unfold http_get. run_handler.
  destruct reply as [e|a]; simpl.
  - split; [done|]. split; [by repeat constructor|]. by apply He.
  - split; [done|]. split; [by repeat constructor|done].
Qed.

End Rules.

(** ** Payloads with a prefix *)

Lemma prefix_append p s : String.prefix p s = true -> exists r, s = p +:+ r.
Proof.
  revert s. induction p as [|c p IH]; intros s H.
  - by exists s.
  - destruct s as [|c' s]; simpl in H; [done|].
    destruct (ascii_dec c c') as [->|]; [|done].
    destruct (IH s H) as [r ->]. by exists r.
Qed.

Lemma split_not_nil sep s : exists w ws, split sep s = w :: ws.
Proof.
  induction s as [|c s (w & ws & IH)]; simpl; [by eexists _, _|].
  destruct (Ascii.eqb c sep); [by eexists _, _|]. rewrite IH. by eexists _, _.
Qed.

Lemma split_add_rec data :
  startswith data "add_rec_" = true -> is_Some (split "_" data !! 2%nat).
Proof.
  intros [r ->]%prefix_append. destruct (split_not_nil "_" r) as (w & ws & Hr).
  cbv [String.append]. cbn [split Ascii.eqb Bool.eqb]. rewrite Hr. by eexists.
Qed.

Lemma split_film_page data :
  startswith data "film_page_" = true -> is_Some (split "_" data !! 2%nat).
Proof.
  intros [r ->]%prefix_append. destruct (split_not_nil "_" r) as (w & ws & Hr).
  cbv [String.append]. cbn [split Ascii.eqb Bool.eqb]. rewrite Hr. by eexists.
Qed.

Lemma split_genre_page data :
  startswith data "genre_page_" = true -> is_Some (split "_" data !! 2%nat).
Proof.
  intros [r ->]%prefix_append. destruct (split_not_nil "_" r) as (w & ws & Hr).
  cbv [String.append]. cbn [split Ascii.eqb Bool.eqb]. rewrite Hr. by eexists.
Qed.

Lemma split_delete data :
  startswith data "delete_" = true -> is_Some (split "_" data !! 1%nat).
Proof.
  intros [r ->]%prefix_append. destruct (split_not_nil "_" r) as (w & ws & Hr).
  cbv [String.append]. cbn [split Ascii.eqb Bool.eqb]. rewrite Hr. by eexists.
Qed.

(** ** Session changes *)

Lemma grows_set_add_title v : grows (set_add_title v).
Proof. intros ud k Hk. by destruct k. Qed.

Lemma grows_set_add_results v : grows (set_add_results v).
Proof. intros ud k Hk. by destruct k. Qed.

Lemma grows_set_recommend_films v : grows (set_recommend_films v).
Proof. intros ud k Hk. by destruct k. Qed.

Lemma grows_set_recommend_film v : grows (set_recommend_film v).
Proof. intros ud k Hk. by destruct k. Qed.

Lemma grows_set_film_page v : grows (set_film_page v).
Proof. intros ud k Hk. by destruct k. Qed.

Lemma grows_set_recommend_genre_id v : grows (set_recommend_genre_id v).
Proof. intros ud k Hk. by destruct k. Qed.

Lemma grows_set_genre_page v : grows (set_genre_page v).
Proof. intros ud k Hk. by destruct k. Qed.

Lemma grows_set_list_films v : grows (set_list_films v).
Proof. intros ud k Hk. by destruct k. Qed.

(** ** Handler by handler *)

Ltac obeys_leaf :=
  first
    [ apply obeys_ret
    | apply obeys_raise
    | apply obeys_emit
    | apply obeys_get_world
    | apply obeys_get_user_data
    | apply obeys_load_films
    | apply obeys_or_raise
    | apply obeys_ensure_http_client
    | apply obeys_http_get
    | apply obeys_update_user_data ].

Ltac obeys_step known :=
  lazymatch goal with
  | |- obeys _ _ _ _ (bind _ _) =>
      first [ eapply obeys_bind_any; [first [known | obeys_leaf]|intros ?]
            | eapply obeys_bind_any with (V1 := fun _ => True); [|intros ?] ]
  | |- obeys _ _ _ _ (try_except _ _ _) => apply obeys_try; [|intros ? ?]
  | |- obeys _ _ _ _ (if ?b then _ else _) => destruct b eqn:?
  | |- obeys _ _ _ _ (match ?x with _ => _ end) => destruct x eqn:?
  | |- obeys _ _ _ _ _ => first [known | obeys_leaf]
  end.

Ltac obeys_side :=
  try solve
    [ exact I | reflexivity | assumption | left; reflexivity
    | intros; left; reflexivity
    | eauto using grows_set_add_title, grows_set_add_results,
        grows_set_recommend_films, grows_set_recommend_film, grows_set_film_page,
        grows_set_recommend_genre_id, grows_set_genre_page, grows_set_list_films ].

Ltac obeys_auto known :=
  unfold answer, reply_text, edit_text; repeat obeys_step known; obeys_side.

Section Quiet.

(** A property of states that creating the client and filling an empty
    genre cache keep, and a property that holds of every action but a
    write. *)
Context (P : State -> Prop) (T : Action -> Prop).
Hypothesis Hclient : forall st, P st -> P (with_client st).
Hypothesis Hcache : forall st genres,
  P st -> cache_populated (world st) = false -> P (with_cache genres st).
Hypothesis Hquiet : forall a, is_write a = false -> T a.

Lemma quiet_get_genres tmdb E : obeys P T E (fun _ => True) (get_genres tmdb).
Proof.
  intros st Hst. destruct (cache_populated (world st)) eqn:Hc.
  - unfold cache_populated in Hc.
    destruct (_genre_cache (world st)) as [[|g gs]|] eqn:Ec; try done.
    rewrite (get_genres_populated tmdb st g gs Ec). simpl. by repeat split.
  - rewrite get_genres_miss by done.
    pose proof (Hclient st Hst) as H1.
    assert (forall genres, P (with_cache genres (with_client st))) as H2.
    { intros genres. by apply Hcache. }
    assert (Forall T [HttpGet GenreListRequest]) as Ht.
    { repeat constructor. by apply Hquiet. }
    destruct (tmdb_genre_list tmdb) as [e|[status genres]];
      [|destruct (status =? 200)]; simpl; repeat split; try done.
    apply (H2 (genres_of_list genres)).
Qed.

Lemma quiet_show_film_page tmdb user_id film E :
  obeys P T E (eq (Some RECOMMEND_MORE_FILM)) (show_film_page tmdb user_id film).
Proof.
  unfold show_film_page, close_only.
  obeys_auto ltac:(apply quiet_get_genres).
Qed.

Lemma quiet_show_genre_page tmdb user_id genre_id E :
  obeys P T E (eq (Some RECOMMEND_MORE_GENRE)) (show_genre_page tmdb user_id genre_id).
Proof.
  unfold show_genre_page, close_only.
  obeys_auto ltac:(apply quiet_get_genres).
Qed.

End Quiet.

Ltac obeys_side_errors :=
  obeys_side;
  try solve
    [ intros;
      match goal with
      | H : forall e, key_or_value_error e -> _ |- _ =>
          first [ apply H | right; apply H ]; unfold key_or_value_error; auto
      end
    | intros Hnone; exfalso;
      match goal with
      | H : startswith _ "add_rec_" = true |- _ =>
          apply split_add_rec in H as [? H]; congruence
      | H : startswith _ "film_page_" = true |- _ =>
          apply split_film_page in H as [? H]; congruence
      | H : startswith _ "genre_page_" = true |- _ =>
          apply split_genre_page in H as [? H]; congruence
      end ].

Section Browsing.

(** As before, and the property also survives every change of the session
    that removes no key. *)
Context (P : State -> Prop) (T : Action -> Prop).
Hypothesis Hclient : forall st, P st -> P (with_client st).
Hypothesis Hcache : forall st genres,
  P st -> cache_populated (world st) = false -> P (with_cache genres st).
Hypothesis Hquiet : forall a, is_write a = false -> T a.
Hypothesis Hsession : forall st f,
  grows f -> P st -> P (mkState (world st) (f (user_data st))).

Context (E : Exn -> Prop).
Hypothesis Herrors : forall e, key_or_value_error e -> E e.

Lemma browsing_commands :
  obeys P T never (fun _ => True) start /\
  obeys P T never (fun _ => True) help_command /\
  obeys P T never (eq (Some ADD_TITLE)) add_start /\
  obeys P T never (eq (Some END)) add_cancel /\
  obeys P T never (eq (Some RECOMMEND_CHOOSE)) recommend_start /\
  obeys P T never (eq (Some END)) recommend_cancel /\
  obeys P T never (eq (Some END)) close_recommendations.
Proof.
  unfold start, help_command, add_start, add_cancel, recommend_start,
    recommend_cancel, close_recommendations.
  repeat apply conj; obeys_auto fail.
Qed.

Lemma browsing_list_films user_id :
  obeys P T never (fun _ => True) (list_films user_id).
Proof. unfold list_films. obeys_auto fail. Qed.

Lemma browsing_recommend_choose tmdb user_id data :
  obeys P T never (fun _ => True) (recommend_choose tmdb user_id data).
Proof.
  unfold recommend_choose.
  obeys_auto ltac:(apply (quiet_get_genres P T Hclient Hcache Hquiet)).
Qed.

Lemma browsing_recommend_film_pick tmdb user_id data :
  obeys P T E (fun _ => True) (recommend_film_pick tmdb user_id data).
Proof.
  unfold recommend_film_pick.
  unfold answer, reply_text, edit_text;
    repeat obeys_step
      ltac:(eapply obeys_weaken;
            [apply (quiet_show_film_page P T Hclient Hcache Hquiet)|done|done]);
    obeys_side_errors.
Qed.

Lemma browsing_recommend_genre_pick tmdb user_id data :
  obeys P T E (fun _ => True) (recommend_genre_pick tmdb user_id data).
Proof.
  unfold recommend_genre_pick.
  unfold answer, reply_text, edit_text;
    repeat obeys_step
      ltac:(eapply obeys_weaken;
            [apply (quiet_show_genre_page P T Hclient Hcache Hquiet)|done|done]);
    obeys_side_errors.
Qed.

End Browsing.

Section Saving.

(** As before, and the property also survives a write of the list of
    [user_id], which is an action that satisfies [T]. *)
Context (user_id : string) (P : State -> Prop) (T : Action -> Prop).
Hypothesis Hclient : forall st, P st -> P (with_client st).
Hypothesis Hcache : forall st genres,
  P st -> cache_populated (world st) = false -> P (with_cache genres st).
Hypothesis Hquiet : forall a, is_write a = false -> T a.
Hypothesis Hsession : forall st f,
  grows f -> P st -> P (mkState (world st) (f (user_data st))).
Hypothesis Hsave : forall st films,
  P st ->
  T (WriteFile (<[user_id := films]> (stored (world st)))) /\
  P (with_list user_id films st).

Lemma saving_add_save_film tmdb from_user_id film E :
  (forall v, from_user_id = Some v -> v = user_id) ->
  obeys P T E (eq (Some END)) (add_save_film tmdb from_user_id film).
Proof.
  intros Hfrom st Hst. destruct from_user_id as [v|].
  - rewrite (Hfrom v eq_refl).
    destruct (existsb (fun f => film_id f =? cand_id film)
                (default [] (stored (world st) !! user_id))) eqn:Hdup.
    + rewrite (add_save_film_duplicate tmdb user_id film st Hdup). simpl.
      split; [done|]. split; [|done]. repeat constructor. by apply Hquiet.
    + destruct (get_genres_frame tmdb st) as (genres & w & sent & Hg & Hw).
      destruct (quiet_get_genres P T Hclient Hcache Hquiet tmdb E st Hst)
        as (H1 & H2 & _).
      rewrite Hg in H1, H2. simpl in H1, H2.
      rewrite (add_save_film_new tmdb user_id film st genres w sent Hg Hdup).
      cbn [fst snd].
      destruct (Hsave (mkState w (user_data st))
                  (default [] (stored (world st) !! user_id) ++
                   [mkFilm (cand_id film) (cand_title film)
                      (map (fun gid => default EmptyString (dict_get gid genres))
                           (genre_ids film))]) H1) as [H3 H4].
      assert (stored w = stored (world st)) as Hs by (unfold stored; by rewrite Hw).
      unfold with_list in H4. cbn [world user_data] in H3, H4. rewrite Hs in H3, H4.
      split; [exact H4|]. split; [|done].
      apply Forall_app. split; [done|]. repeat constructor; [done|by apply Hquiet].
  - rewrite add_save_film_without_from_user. simpl.
    split; [done|]. split; [|done]. repeat constructor. by apply Hquiet.
Qed.

Lemma saving_add_choice tmdb data E :
  obeys P T E (eq (Some END)) (add_choice tmdb user_id data).
Proof.
  intros st Hst. rewrite add_choice_run.
  assert (Forall T [Answer; EditText TxtNoAddResults NoMarkup] /\
          Forall T [Answer; EditText TxtChoiceError NoMarkup]) as [Ht1 Ht2].
  { split; repeat constructor; by apply Hquiet. }
  destruct (ud_add_results (user_data st)) as [add_results|]; [|done].
  destruct (int_ data) as [idx|]; [|done].
  destruct (getitem add_results idx) as [film|]; [|done].
  destruct (saving_add_save_film tmdb (Some user_id) film E
              ltac:(by intros v [= <-]) st Hst) as (H1 & H2 & _).
  simpl. split; [done|]. split; [|done]. constructor; [by apply Hquiet|done].
Qed.

Lemma saving_add_title tmdb RequestException from_user_id text (E : Exn -> Prop) :
  (forall v, from_user_id = Some v -> v = user_id) ->
  (RequestException = None -> E AttributeError) ->
  obeys P T E (fun _ => True) (add_title tmdb RequestException from_user_id text).
Proof.
  intros Hfrom Hattr. unfold add_title.
  unfold answer, reply_text, edit_text;
    repeat obeys_step
      ltac:(eapply obeys_weaken;
              [exact (saving_add_save_film tmdb from_user_id _ never Hfrom)
              |by intros ? []|done]);
    obeys_side.
Qed.

Lemma saving_list_delete_film data E :
  obeys P T E (fun _ => True) (list_delete_film user_id data).
Proof.
  intros st Hst. unfold list_delete_film. run_handler.
  assert (forall text markup, Forall T [Answer; ReplyText text markup]) as Hreply.
  { intros. repeat constructor; by apply Hquiet. }
  assert (forall text markup, Forall T [Answer; EditText text markup]) as Hedit.
  { intros. repeat constructor; by apply Hquiet. }
  set (films := default [] (ud_list_films (user_data st))).
  destruct (String.eqb data "show_delete_interface").
  { destruct films; simpl; by repeat apply conj. }
  destruct (String.eqb data "cancel_delete"); [simpl; by repeat apply conj|].
  destruct (String.eqb data "show_updated_list").
  { destruct films; simpl; by repeat apply conj. }
  destruct (startswith data "delete_") eqn:Hpre.
  2: { simpl. repeat apply conj; [done| |done]. repeat constructor. by apply Hquiet. }
  destruct (split_delete data Hpre) as [part ->].
  destruct (int_ part) as [k|]; [|simpl; by repeat apply conj].
  destruct (Z.of_nat (length films) <=? k); [simpl; by repeat apply conj|].
  unfold getitem, pop.
  destruct (normalize_index (length films) k) as [n|]; [|simpl; by repeat apply conj].
  destruct (films !! n) as [film|]; [|simpl; by repeat apply conj].
  pose proof (Hsession st (set_list_films (delete n films))
                (grows_set_list_films _) Hst) as H1.
  destruct (Hsave _ (delete n films) H1) as [H2 H3].
  unfold with_list in H3. cbn [world user_data] in H2, H3.
  destruct (delete n films) as [|f rest] eqn:Erest; simpl.
  - repeat apply conj; [done| |done].
    repeat constructor; try done; by apply Hquiet.
  - repeat apply conj; [done| |done].
    repeat constructor; try done; by apply Hquiet.
Qed.

Context (E : Exn -> Prop).
Hypothesis Herrors : forall e, key_or_value_error e -> E e.

Lemma saving_universal_callback_handler tmdb data :
  obeys P T E (fun _ => True) (universal_callback_handler tmdb user_id data).
Proof.
  unfold universal_callback_handler.
  eapply obeys_bind_any; [apply obeys_get_user_data|]. intros ud.
  destruct (_ || _); [apply saving_list_delete_film|].
  destruct (_ || _).
  { eapply obeys_weaken;
      [by apply (browsing_recommend_choose P T Hclient Hcache Hquiet Hsession)
      |done|done]. }
  destruct (_ || _).
  { by apply (browsing_recommend_film_pick P T Hclient Hcache Hquiet Hsession). }
  destruct (_ || _).
  { by apply (browsing_recommend_genre_pick P T Hclient Hcache Hquiet Hsession). }
  destruct (_ && _).
  { eapply obeys_weaken; [apply saving_add_choice|done|done]. }
  obeys_auto fail.
Qed.

Lemma saving_handler RequestException Update_has_from_user tmdb u :
  (RequestException = None -> E AttributeError) ->
  obeys P T E (fun _ => True)
        (handler RequestException Update_has_from_user tmdb user_id u).
Proof.
  intros Hattr.
  destruct (browsing_commands P T Hquiet) as (C1 & C2 & C3 & C4 & C5 & C6 & C7).
  destruct u; simpl.
  - eapply obeys_weaken; [exact C1|done|done].
  - eapply obeys_weaken; [exact C2|done|done].
  - eapply obeys_weaken; [exact C3|done|done].
  - eapply obeys_weaken; [exact C4|done|done].
  - eapply obeys_weaken; [exact C5|done|done].
  - eapply obeys_weaken; [exact C6|done|done].
  - eapply obeys_weaken;
      [by apply (browsing_list_films P T Hquiet Hsession)|done|done].
  - apply saving_add_title; [|done]. destruct Update_has_from_user; by intros v [= <-].
  - eapply obeys_weaken; [apply saving_add_choice|done|done].
  - eapply obeys_weaken;
      [by apply (browsing_recommend_choose P T Hclient Hcache Hquiet Hsession)
      |done|done].
  - by apply (browsing_recommend_film_pick P T Hclient Hcache Hquiet Hsession).
  - by apply (browsing_recommend_genre_pick P T Hclient Hcache Hquiet Hsession).
  - eapply obeys_weaken; [exact C7|done|done].
  - apply saving_list_delete_film.
  - apply saving_universal_callback_handler.
Qed.

End Saving.

(** ** What one user's update leaves alone *)

Lemma follows_refl user_id st : follows user_id st st.
Proof. by repeat split. Qed.

Lemma handler_follows RequestException Update_has_from_user tmdb user_id u st :
  follows user_id st
    (handler RequestException Update_has_from_user tmdb user_id u st).1.2.
Proof.
  assert (obeys (follows user_id st) (fun _ => True) (fun _ => True) (fun _ => True)
            (handler RequestException Update_has_from_user tmdb user_id u)) as H.
  { apply saving_handler; try done.
    - intros s (H1 & H2 & H3 & H4). by repeat split.
    - intros s genres (H1 & H2 & H3 & H4) Hc. repeat split; try done.
      intros Hp. specialize (H2 Hp). unfold cache_populated in Hc, Hp.
      rewrite H2 in Hc. congruence.
    - intros s f Hf (H1 & H2 & H3 & H4). repeat split; try done.
      intros k Hk. apply Hf. by apply H3.
    - intros s films (H1 & H2 & H3 & H4). split; [done|]. repeat split; try done.
      intros other Hother. unfold with_list. cbn [world]. rewrite stored_written.
      rewrite lookup_insert_ne by done. by apply H1. }
  apply (H st (follows_refl user_id st)).
Qed.

Lemma handle_update_follows RequestException Update_has_from_user bot tmdb user_id u :
  let bot' :=
    handle_update RequestException Update_has_from_user bot (tmdb, user_id, u) in
  follows user_id
    (mkState (bot_world bot) (default empty_session (bot_sessions bot !! user_id)))
    (mkState (bot_world bot') (default empty_session (bot_sessions bot' !! user_id))) /\
  forall other, other <> user_id ->
    bot_sessions bot' !! other = bot_sessions bot !! other.
Proof.
  unfold handle_update.
  pose proof (handler_follows RequestException Update_has_from_user tmdb user_id u
                (mkState (bot_world bot)
                   (default empty_session (bot_sessions bot !! user_id)))) as H.
  destruct (handler _ _ _ _ _ _) as [[r [w ud]] tr]. cbn [fst snd] in H.
  cbn [bot_world bot_sessions world user_data].
  rewrite lookup_insert_eq. split; [done|].
  intros other Hother. by rewrite lookup_insert_ne.
Qed.

(** ** Payloads of the recommendation flows *)

Lemma startswith_append p s : startswith (p +:+ s) p = true.
Proof.
  unfold startswith. induction p as [|c p IH]; [by destruct s|].
  change (String c p +:+ s) with (String c (p +:+ s)). cbn [String.prefix].
  by destruct (ascii_dec c c).
Qed.

Lemma film_page_payload s :
  split "_" ("film_page_" +:+ s) = "film"%string :: "page"%string :: split "_" s.
Proof.
  cbv [String.append]. cbn [split Ascii.eqb Bool.eqb].
  by destruct (split "_" s).
Qed.

Lemma genre_page_payload s :
  split "_" ("genre_page_" +:+ s) = "genre"%string :: "page"%string :: split "_" s.
Proof.
  cbv [String.append]. cbn [split Ascii.eqb Bool.eqb].
  by destruct (split "_" s).
Qed.

(** [str i] starts with a digit or with the sign. *)
Lemma str_head i :
  exists c s, str i = String c s /\ (is_digit c = true \/ c = "-"%char).
Proof.
  destruct i as [|p|p].
  - exists "0"%char, EmptyString. split; [reflexivity|by left].
  - rewrite str_pos. destruct (string_of_uint_pos p) as (c & s & E & Hc).
    exists c, s. split; [done|by left].
  - rewrite str_neg. eexists _, _. split; [reflexivity|by right].
Qed.

(** A number is none of the words a payload is compared with. *)
Lemma numeric_test i a w :
  is_digit a = false -> a <> "-"%char ->
  String.eqb (str i) (String a w) = false /\ startswith (str i) (String a w) = false.
Proof.
  intros Ha Hsign. destruct (str_head i) as (c & s & -> & Hc).
  assert (c <> a) as Hne by (intros ->; destruct Hc; congruence).
  split.
  - cbn [String.eqb]. by apply Ascii.eqb_neq in Hne as ->.
  - unfold startswith. cbn [String.prefix]. by destruct (ascii_dec a c).
Qed.

(** Evaluates the comparisons of a payload with the words of the source. *)
Ltac payload_tests :=
  rewrite ?startswith_append;
  repeat match goal with
  | |- context [String.eqb (str ?i) (String ?a ?w)] =>
      rewrite (proj1 (numeric_test i a w eq_refl ltac:(discriminate)))
  | |- context [startswith (str ?i) (String ?a ?w)] =>
      rewrite (proj2 (numeric_test i a w eq_refl ltac:(discriminate)))
  | |- context [startswith ?a ?b] =>
      let v := eval vm_compute in (startswith a b) in
      lazymatch v with
      | true => change (startswith a b) with true
      | false => change (startswith a b) with false
      end
  | |- context [String.eqb ?a ?b] =>
      let v := eval vm_compute in (String.eqb a b) in
      lazymatch v with
      | true => change (String.eqb a b) with true
      | false => change (String.eqb a b) with false
      end
  end;
  cbn [orb andb].

Lemma recommend_film_pick_more tmdb user_id st film :
  ud_recommend_film (user_data st) = Some film ->
  recommend_film_pick tmdb user_id "more_film" st =
  answered
    (show_film_page tmdb user_id film
       (mkState (world st)
          (set_film_page (default 1 (ud_film_page (user_data st)) + 1)
             (user_data st)))).
Proof.
  intros Hfilm. unfold recommend_film_pick, answered. payload_tests.
  run_handler. rewrite Hfilm.
  by destruct (show_film_page _ _ _ _) as [[r s] tr].
Qed.

Lemma recommend_film_pick_page tmdb user_id st film n :
  ud_recommend_film (user_data st) = Some film ->
  recommend_film_pick tmdb user_id ("film_page_" +:+ str n) st =
  answered
    (show_film_page tmdb user_id film
       (mkState (world st) (set_film_page n (user_data st)))).
Proof.
  intros Hfilm. unfold recommend_film_pick, answered. payload_tests.
  rewrite film_page_payload, split_str. run_handler.
  cbn [lookup list_lookup]. rewrite int_str.
  cbn [ud_recommend_film set_film_page]. rewrite Hfilm.
  by destruct (show_film_page _ _ _ _) as [[r s] tr].
Qed.

Lemma recommend_film_pick_number tmdb user_id st films i film :
  ud_recommend_films (user_data st) = Some films ->
  getitem films i = Some film ->
  recommend_film_pick tmdb user_id (str i) st =
  answered
    (show_film_page tmdb user_id film
       (mkState (world st)
          (set_film_page 1 (set_recommend_film film (user_data st))))).
Proof.
  intros Hfilms Hfilm. unfold recommend_film_pick, answered. payload_tests.
  run_handler. rewrite int_str, Hfilms, Hfilm.
  by destruct (show_film_page _ _ _ _) as [[r s] tr].
Qed.

Lemma recommend_genre_pick_more tmdb user_id st genre_id :
  ud_recommend_genre_id (user_data st) = Some genre_id ->
  recommend_genre_pick tmdb user_id "more_genre" st =
  answered
    (show_genre_page tmdb user_id genre_id
       (mkState (world st)
          (set_genre_page (default 1 (ud_genre_page (user_data st)) + 1)
             (user_data st)))).
Proof.
  intros Hgenre. unfold recommend_genre_pick, answered. payload_tests.
  run_handler. rewrite Hgenre.
  by destruct (show_genre_page _ _ _ _) as [[r s] tr].
Qed.

Lemma recommend_genre_pick_page tmdb user_id st genre_id n :
  ud_recommend_genre_id (user_data st) = Some genre_id ->
  recommend_genre_pick tmdb user_id ("genre_page_" +:+ str n) st =
  answered
    (show_genre_page tmdb user_id genre_id
       (mkState (world st) (set_genre_page n (user_data st)))).
Proof.
  intros Hgenre. unfold recommend_genre_pick, answered. payload_tests.
  rewrite genre_page_payload, split_str. run_handler.
  cbn [lookup list_lookup]. rewrite int_str.
  cbn [ud_recommend_genre_id set_genre_page]. rewrite Hgenre.
  by destruct (show_genre_page _ _ _ _) as [[r s] tr].
Qed.

Lemma recommend_genre_pick_number tmdb user_id st genre_id :
  recommend_genre_pick tmdb user_id (str genre_id) st =
  answered
    (show_genre_page tmdb user_id genre_id
       (mkState (world st)
          (set_genre_page 1 (set_recommend_genre_id genre_id (user_data st))))).
Proof.
  unfold recommend_genre_pick, answered. payload_tests.
  run_handler. rewrite int_str.
  by destruct (show_genre_page _ _ _ _) as [[r s] tr].
Qed.

(** What a page of recommendations asks of the metadata service, and what
    it leaves as it is. *)
Lemma show_film_page_requests tmdb user_id film st p :
  ud_film_page (user_data st) = Some p ->
  exists rest,
    (show_film_page tmdb user_id film st).2 =
    HttpGet (RecommendationsRequest (film_id film) (tmdb_page p)) :: rest.
Proof.
  intros Hpage. destruct st as [[d c h] ud]. cbn [world user_data] in *.
  unfold show_film_page. run_handler. rewrite Hpage.
  destruct h; cbn [world user_data data_file _genre_cache http_client];
    (destruct (tmdb_recommendations tmdb (film_id film) (tmdb_page p))
       as [e|results]; [by eexists|]);
    cbn [world user_data data_file _genre_cache http_client];
    (destruct (page_films _ _ _) as [|f shown]; [by eexists|]);
    match goal with
    | |- context [get_genres ?t ?s] => destruct (get_genres t s) as [[[r|r] st2] tr]
    end; by eexists.
Qed.

Lemma show_genre_page_requests tmdb user_id genre_id st p :
  ud_genre_page (user_data st) = Some p ->
  exists before rest,
    (show_genre_page tmdb user_id genre_id st).2 =
    before ++ HttpGet (DiscoverRequest genre_id p) :: rest /\
    Forall (fun a => a = HttpGet GenreListRequest) before.
Proof.
  intros Hpage.
  destruct (get_genres_frame tmdb st) as (genres & w & sent & Hg & Hw).
  assert (Forall (fun a => a = HttpGet GenreListRequest) sent) as Hsent.
  { destruct (cache_populated (world st)) eqn:Hc.
    - unfold cache_populated in Hc.
      destruct (_genre_cache (world st)) as [[|g gs]|] eqn:E; try done.
      rewrite (get_genres_populated tmdb st g gs E) in Hg. by injection Hg as _ _ <-.
    - rewrite get_genres_miss in Hg by done.
      destruct (tmdb_genre_list tmdb) as [e|[status gl]];
        [|destruct (status =? 200)]; injection Hg as _ _ <-; by repeat constructor. }
  unfold show_genre_page. unfold try_except, bind at 1. rewrite Hg.
  run_handler. rewrite Hpage. destruct w as [d c h].
  destruct h; cbn [world user_data data_file _genre_cache http_client];
    (destruct (tmdb_discover tmdb genre_id p) as [e|results];
     [rewrite <- ?app_assoc; cbn [app fst snd];
      exists sent; eexists; split; [reflexivity|done]|]);
    cbn [world user_data data_file _genre_cache http_client];
    (destruct (match List.filter _ results with [] => _ | _ => _ end);
     rewrite <- ?app_assoc; cbn [app fst snd];
     exists sent; eexists; (split; [reflexivity|done])).
Qed.

Lemma show_page_session tmdb user_id film genre_id st :
  user_data (show_film_page tmdb user_id film st).1.2 = user_data st /\
  user_data (show_genre_page tmdb user_id genre_id st).1.2 = user_data st.
Proof.
  set (P := fun s : State => user_data s = user_data st).
  assert (forall s, P s -> P (with_client s)) as Hclient by done.
  assert (forall s genres, P s -> cache_populated (world s) = false ->
                           P (with_cache genres s)) as Hcache by done.
  split.
  - by destruct (quiet_show_film_page P (fun _ => True) Hclient Hcache
                   ltac:(done) tmdb user_id film never st eq_refl) as [H _].
  - by destruct (quiet_show_genre_page P (fun _ => True) Hclient Hcache
                   ltac:(done) tmdb user_id genre_id never st eq_refl) as [H _].
Qed.

Lemma show_page_returns tmdb user_id film genre_id st :
  (show_film_page tmdb user_id film st).1.1 = Return (Some RECOMMEND_MORE_FILM) /\
  (show_genre_page tmdb user_id genre_id st).1.1 = Return (Some RECOMMEND_MORE_GENRE).
Proof.
  set (P := fun s : State => True).
  split.
  - destruct (quiet_show_film_page P (fun _ => True) ltac:(done) ltac:(done)
                ltac:(done) tmdb user_id film never st I) as (_ & _ & H).
    destruct (_.1.1); [by subst|done].
  - destruct (quiet_show_genre_page P (fun _ => True) ltac:(done) ltac:(done)
                ltac:(done) tmdb user_id genre_id never st I) as (_ & _ & H).
    destruct (_.1.1); [by subst|done].
Qed.

(** ** Button texts *)

Lemma len_append s1 s2 : len (s1 +:+ s2) = (len s1 + len s2)%nat.
Proof.
  induction s1 as [|c s1 IH]; [done|].
  change (String c s1 +:+ s2) with (String c (s1 +:+ s2)). simpl.
  rewrite IH. by destruct (is_continuation c).
Qed.

Lemma len_slice_chars n s : (len (slice_chars n s) <= n)%nat.
Proof.
  revert n. induction s as [|c s IH]; intros n; simpl; [lia|].
  destruct (is_continuation c) eqn:Hc; simpl; rewrite ?Hc; [apply IH|].
  destruct n as [|n]; simpl; rewrite ?Hc; [lia|]. specialize (IH n). lia.
Qed.

(** On ASCII text characters are bytes. *)
Lemma is_ascii_not_continuation c :
  (nat_of_ascii c <? 128)%nat = true -> is_continuation c = false.
Proof.
  intros H. apply Nat.ltb_lt in H. unfold is_continuation.
  apply andb_false_iff. left. apply Nat.leb_gt. lia.
Qed.

Lemma len_ascii s : is_ascii s = true -> len s = String.length s.
Proof.
  induction s as [|c s IH]; simpl; [done|].
  intros [Hc Hs]%andb_true_iff.
  rewrite (is_ascii_not_continuation c Hc). by rewrite IH.
Qed.

Lemma slice_chars_ascii n s :
  is_ascii s = true -> slice_chars n s = substring 0 n s.
Proof.
  revert n. induction s as [|c s IH]; intros n; simpl; [by destruct n|].
  intros [Hc Hs]%andb_true_iff.
  rewrite (is_ascii_not_continuation c Hc).
  destruct n as [|n]; [done|]. by rewrite IH.
Qed.

Lemma button_text_length title : (len (button_text title) <= 33)%nat.
Proof.
  unfold button_text. destruct (30 <? len title)%nat eqn:E.
  - rewrite len_append. pose proof (len_slice_chars 30 title). simpl. lia.
  - apply Nat.ltb_ge in E. lia.
Qed.

(** ** Filtering *)

Lemma filter_none {A} (f : A -> bool) (l : list A) :
  Forall (fun x => f x = false) l -> List.filter f l = [].
Proof.
  induction 1 as [|x l Hx _ IH]; [done|]. cbn [List.filter]. by rewrite Hx.
Qed.

Lemma filter_some {A} (f : A -> bool) (l : list A) :
  Exists (fun x => f x = true) l -> List.filter f l <> [].
Proof.
  induction 1 as [x l Hx|x l _ IH]; cbn [List.filter].
  - by rewrite Hx.
  - by destruct (f x).
Qed.

(** What [show_genre_page] sends for the films an upstream page holds. *)
Lemma show_genre_page_run tmdb user_id genre_id st p results :
  ud_genre_page (user_data st) = Some p ->
  tmdb_discover tmdb genre_id p = Gives results ->
  let user_films := map film_id (default [] (stored (world st) !! user_id)) in
  let new_films :=
    match List.filter (fun f => negb (existsb (Z.eqb (cand_id f)) user_films))
                      results with
    | [] => take 5 results
    | unseen => unseen
    end in
  exists genres_dict before,
    Forall (fun a => a = HttpGet GenreListRequest) before /\
    (show_genre_page tmdb user_id genre_id st).2 =
    before ++
    [HttpGet (DiscoverRequest genre_id p);
     match new_films with
     | [] => EditText TxtNoMore close_only
     | _ =>
         EditText
           (TxtGenreRecommendations (dict_get genre_id genres_dict)
              (recommendation_lines genres_dict new_films))
           (InlineKeyboardMarkup
              (recommendation_buttons new_films ++
               [(if 1 <? p
                 then [CallbackButton LblBack ("genre_page_" +:+ str (p - 1))]
                 else []) ++
                [CallbackButton LblMore "more_genre";
                 CallbackButton LblClose "close_recommendations"]]))
     end].
Proof.
  intros Hpage Hresults user_films new_films.
  destruct (get_genres_frame tmdb st) as (genres & w & sent & Hg & Hw).
  assert (Forall (fun a => a = HttpGet GenreListRequest) sent) as Hsent.
  { destruct (cache_populated (world st)) eqn:Hc.
    - unfold cache_populated in Hc.
      destruct (_genre_cache (world st)) as [[|g gs]|] eqn:E; try done.
      rewrite (get_genres_populated tmdb st g gs E) in Hg. by injection Hg as _ _ <-.
    - rewrite get_genres_miss in Hg by done.
      destruct (tmdb_genre_list tmdb) as [e|[status gl]];
        [|destruct (status =? 200)]; injection Hg as _ _ <-; by repeat constructor. }
  assert (stored w = stored (world st)) as Hs by (unfold stored; by rewrite Hw).
  exists genres, sent. split; [done|].
  unfold show_genre_page. unfold try_except, bind at 1. rewrite Hg.
  run_handler. rewrite Hpage.
  change (world {| world := w; user_data := user_data st |}) with w.
  rewrite Hs. fold user_films.
  destruct w as [d c h].
  destruct h; cbn [world user_data data_file _genre_cache http_client];
    rewrite Hresults; cbn [world user_data data_file _genre_cache http_client];
    fold new_films; clearbody new_films;
    destruct new_films; rewrite <- ?app_assoc; reflexivity.
Qed.

(** ** JSON text *)

Lemma append_cons c s r : String c s +:+ r = String c (s +:+ r).
Proof. reflexivity. Qed.

Lemma append_nil r : EmptyString +:+ r = r.
Proof. reflexivity. Qed.

Lemma append_assoc s1 s2 s3 : (s1 +:+ s2) +:+ s3 = s1 +:+ (s2 +:+ s3).
Proof.
  induction s1 as [|c s1 IH]; [done|]. by rewrite !append_cons, IH.
Qed.

Lemma length_append s1 s2 :
  String.length (s1 +:+ s2) = (String.length s1 + String.length s2)%nat.
Proof.
  induction s1 as [|c s1 IH]; [done|]. rewrite append_cons. simpl. by rewrite IH.
Qed.

(** An escaped character is read back as the character. *)
Lemma scan_string_escape c r :
  scan_string (escape c +:+ r) = prepend (String c EmptyString) (scan_string r).
Proof.
  destruct c as [[] [] [] [] [] [] [] []]; reflexivity.
Qed.

Lemma scan_string_escape_all s rest :
  scan_string (escape_all s +:+ String quote rest) = Some (s, rest).
Proof.
  induction s as [|c s IH]; [reflexivity|].
  cbn [escape_all]. rewrite append_assoc, scan_string_escape, IH. reflexivity.
Qed.

Lemma scan_encode_string s rest :
  exists r, encode_string s +:+ rest = String quote r /\ scan_string r = Some (s, rest).
Proof.
  exists (escape_all s +:+ String quote rest). split.
  - unfold encode_string. by rewrite append_cons, append_assoc.
  - apply scan_string_escape_all.
Qed.

(** *** Integers *)

Lemma span_digits_all ds rest :
  all_digits ds = true -> ends_number rest = true ->
  span_digits (ds +:+ rest) = (ds, rest).
Proof.
  intros Hds Hrest. induction ds as [|c ds IH].
  - rewrite append_nil. destruct rest as [|c rest]; [done|].
    simpl in Hrest. apply andb_true_iff in Hrest as [Hc _].
    apply negb_true_iff in Hc. simpl. by rewrite Hc.
  - simpl in Hds. apply andb_true_iff in Hds as [Hc Hds].
    rewrite append_cons. simpl. by rewrite Hc, (IH Hds).
Qed.

(** The decimal digits of a positive number do not begin with a zero. *)
Lemma to_uint_head p u : Pos.to_uint p <> Decimal.D0 u.
Proof.
  intros Heq.
  pose proof (DecimalPos.Unsigned.to_of (Pos.to_uint p)) as Hnorm.
  rewrite DecimalPos.Unsigned.of_to in Hnorm. simpl in Hnorm.
  pose proof (Unsigned.to_uint_nonzero p) as Hnz.
  unfold Decimal.unorm in Hnorm.
  destruct (Decimal.nzhead (Pos.to_uint p)) as [|v|v|v|v|v|v|v|v|v|v] eqn:E;
    try congruence.
  by destruct (nzhead_nonzero (Pos.to_uint p) v).
Qed.

Lemma scan_natural_pos p rest :
  ends_number rest = true ->
  scan_natural (NilEmpty.string_of_uint (Pos.to_uint p) +:+ rest) =
  Some (Z.pos p, rest).
Proof.
  intros Hrest. unfold scan_natural.
  rewrite span_digits_all by (done || apply string_of_uint_digits).
  pose proof (to_uint_head p) as Hhead.
  pose proof (NilEmpty.usu (Pos.to_uint p)) as Husu.
  pose proof (of_uint_pos p) as Hof.
  destruct (Pos.to_uint p) as [|u|u|u|u|u|u|u|u|u|u] eqn:E;
    try (by destruct (Unsigned.to_uint_nonnil p));
    try (by destruct (Hhead u));
    cbn [NilEmpty.string_of_uint Ascii.eqb Bool.eqb andb];
    (assert (starts_fraction rest = false) as ->;
     [destruct rest as [|c rest]; [done|]; simpl in Hrest;
      apply andb_true_iff in Hrest as [_ Hf]; by apply negb_true_iff in Hf|]);
    cbn [NilEmpty.string_of_uint] in Husu; rewrite Husu; by rewrite Hof.
Qed.

Lemma scan_number_str i rest :
  ends_number rest = true -> scan_number (str i +:+ rest) = Some (i, rest).
Proof.
  intros Hrest.
  assert (starts_fraction rest = false) as Hf.
  { destruct rest as [|c rest]; [done|]. simpl in Hrest.
    apply andb_true_iff in Hrest as [_ Hf]. by apply negb_true_iff in Hf. }
  destruct i as [|p|p].
  - change (str 0 +:+ rest) with (String "0" rest).
    unfold scan_number. cbn [Ascii.eqb Bool.eqb]. unfold scan_natural.
    change (String "0" rest) with ("0" +:+ rest).
    rewrite (span_digits_all "0" rest eq_refl Hrest). cbn. by rewrite Hf.
  - rewrite str_pos. destruct (string_of_uint_pos p) as (c & s & E & Hc).
    pose proof (scan_natural_pos p rest Hrest) as H.
    rewrite E in *. rewrite append_cons in *. unfold scan_number.
    by destruct (is_digit_not_sign c Hc) as (-> & _ & _).
  - rewrite str_neg, append_cons. unfold scan_number. cbn [Ascii.eqb Bool.eqb].
    by rewrite scan_natural_pos.
Qed.

(** *** Values *)

Lemma Json_ind (P : Json -> Prop) :
  P JNull -> (forall b, P (JBool b)) -> (forall i, P (JInt i)) ->
  (forall s, P (JStr s)) ->
  (forall items, Forall P items -> P (JList items)) ->
  (forall members, Forall (fun m => P (snd m)) members -> P (JDict members)) ->
  forall v, P v.
Proof.
  intros Hnull Hbool Hint Hstr Hlist Hdict. fix IH 1.
  intros [|b|i|s|items|members]; [done..| |].
  - apply Hlist. revert items. fix IHl 1.
    intros [|x xs]; constructor; [apply IH|apply IHl].
  - apply Hdict. revert members. fix IHl 1.
    intros [|[k x] ms]; constructor; [apply IH|apply IHl].
Qed.

Lemma skip_space_spaces n s : skip_space (spaces n +:+ s) = skip_space s.
Proof. induction n as [|n IH]; [done|]. simpl spaces. by rewrite append_cons. Qed.

Lemma skip_space_newline_indent level s :
  skip_space (newline_indent level +:+ s) = skip_space s.
Proof. unfold newline_indent. rewrite append_cons. simpl. apply skip_space_spaces. Qed.

Lemma encode_begins level v rest :
  exists c s, encode level v +:+ rest = String c s /\ begins_value c.
Proof.
  destruct v as [|[]|i|s|[|x xs]|[|[k x] ms]];
    try (eexists _, _; split; [reflexivity|by repeat split]).
  destruct (str_head i) as (c & s & E & Hc). exists c, (s +:+ rest).
  cbn [encode]. rewrite E. split; [done|].
  destruct Hc as [Hc| ->]; [|by repeat split].
  repeat split.
  - unfold is_digit in Hc. apply andb_true_iff in Hc as [H1 H2].
    apply Nat.leb_le in H1. apply Nat.leb_le in H2. unfold is_json_space.
    repeat (apply orb_false_iff; split); apply Nat.eqb_neq; lia.
  - apply Ascii.eqb_neq. intros ->. discriminate Hc.
  - apply Ascii.eqb_neq. intros ->. discriminate Hc.
Qed.

Lemma skip_space_encode level v rest :
  skip_space (encode level v +:+ rest) = encode level v +:+ rest.
Proof.
  destruct (encode_begins level v rest) as (c & s & -> & Hc & _).
  simpl. by rewrite Hc.
Qed.

Lemma ends_number_items level xs rest :
  ends_number (encode_items level xs +:+ rest) = true.
Proof. by destruct xs. Qed.

Lemma ends_number_members level ms rest :
  ends_number (encode_members level ms +:+ rest) = true.
Proof. by destruct ms as [|[k x] ms]. Qed.

Lemma scan_value_number fuel i rest :
  ends_number rest = true ->
  scan_value (S fuel) (str i +:+ rest) = Some (JInt i, rest).
Proof.
  intros Hrest. pose proof (scan_number_str i rest Hrest) as Hscan.
  destruct (str_head i) as (c & s & E & Hc). rewrite E in *.
  rewrite append_cons in *. cbn [scan_value].
  assert (Ascii.eqb c quote = false /\ Ascii.eqb c "[" = false /\
          Ascii.eqb c "{" = false /\ Ascii.eqb c "n" = false /\
          Ascii.eqb c "t" = false /\ Ascii.eqb c "f" = false)
    as (-> & -> & -> & -> & -> & ->).
  { destruct Hc as [Hc| ->]; [|by repeat split].
    repeat split; apply Ascii.eqb_neq; intros ->; discriminate Hc. }
  cbn [orb]. by rewrite Hscan.
Qed.

Lemma scan_items_encode level xs :
  forall x rest fuel,
    reads_back x -> Forall reads_back xs ->
    (weight_items (x :: xs) <= fuel)%nat ->
    scan_items fuel (encode (S level) x +:+ encode_items level xs +:+ rest) =
    Some (x :: xs, rest).
Proof.
  induction xs as [|y ys IH]; intros x rest fuel Hx Hxs Hfuel;
    (destruct fuel as [|fuel]; [simpl in Hfuel; lia|]);
    cbn [scan_items].
  - rewrite (Hx (S level) _ fuel); [|apply ends_number_items|simpl in Hfuel; lia].
    cbn [encode_items]. rewrite append_assoc, skip_space_newline_indent.
    reflexivity.
  - apply Forall_cons_1 in Hxs as [Hy Hys].
    change (weight_items (x :: y :: ys))
      with (S (weight x + weight_items (y :: ys))) in Hfuel.
    rewrite (Hx (S level) _ fuel); [|apply ends_number_items|lia].
    change (encode_items level (y :: ys))
      with ("," +:+ newline_indent (S level) +:+ encode (S level) y +:+
            encode_items level ys).
    rewrite !append_cons, append_nil. cbn [skip_space is_json_space].
    change (is_json_space ",") with false. cbv iota.
    change (Ascii.eqb "," ",") with true. cbv iota.
    rewrite !append_assoc, skip_space_newline_indent, skip_space_encode.
    rewrite (IH y rest fuel Hy Hys); [done|lia].
Qed.

Lemma scan_members_encode level ms :
  forall k x rest fuel,
    reads_back x -> Forall (fun m => reads_back (snd m)) ms ->
    (weight_members ((k, x) :: ms) <= fuel)%nat ->
    scan_members fuel
      (encode_string k +:+ ": " +:+ encode (S level) x +:+
       encode_members level ms +:+ rest) =
    Some ((k, x) :: ms, rest).
Proof.
  induction ms as [|[k' y] ms IH]; intros k x rest fuel Hx Hms Hfuel;
    (destruct fuel as [|fuel]; [simpl in Hfuel; lia|]).
  - destruct (scan_encode_string k
                (": " +:+ encode (S level) x +:+ encode_members level [] +:+ rest))
      as (r0 & E0 & Hk0).
    rewrite E0. cbn [scan_members]. change (Ascii.eqb quote quote) with true.
    cbv iota. rewrite Hk0. rewrite !append_cons, append_nil.
    cbn [skip_space]. change (is_json_space ":") with false. cbv iota.
    change (Ascii.eqb ":" ":") with true. cbv iota.
    change (skip_space (String " " ?t)) with (skip_space t).
    rewrite skip_space_encode.
    rewrite (Hx (S level) _ fuel); [|apply ends_number_members|simpl in Hfuel; lia].
    cbn [encode_members]. rewrite append_assoc, skip_space_newline_indent.
    reflexivity.
  - apply Forall_cons_1 in Hms as [Hy Hms]. cbn [snd] in Hy.
    change (weight_members ((k, x) :: (k', y) :: ms))
      with (S (weight x + weight_members ((k', y) :: ms))) in Hfuel.
    destruct (scan_encode_string k
                (": " +:+ encode (S level) x +:+
                 encode_members level ((k', y) :: ms) +:+ rest))
      as (r1 & E1 & Hk1).
    rewrite E1. cbn [scan_members]. change (Ascii.eqb quote quote) with true.
    cbv iota. rewrite Hk1. rewrite !append_cons, append_nil.
    cbn [skip_space]. change (is_json_space ":") with false. cbv iota.
    change (Ascii.eqb ":" ":") with true. cbv iota.
    change (skip_space (String " " ?t)) with (skip_space t).
    rewrite skip_space_encode.
    rewrite (Hx (S level) _ fuel); [|apply ends_number_members|lia].
    change (encode_members level ((k', y) :: ms))
      with ("," +:+ newline_indent (S level) +:+ encode_string k' +:+ ": " +:+
            encode (S level) y +:+ encode_members level ms).
    rewrite !append_cons, append_nil. cbn [skip_space].
    change (is_json_space ",") with false. cbv iota.
    change (Ascii.eqb "," ",") with true. cbv iota.
    rewrite !append_assoc, skip_space_newline_indent.
    assert (forall t, skip_space (encode_string k' +:+ t) = encode_string k' +:+ t)
      as Hquote by done.
    rewrite Hquote.
    pose proof (IH k' y rest fuel Hy Hms) as Hrest.
    repeat (rewrite append_cons in Hrest || rewrite append_nil in Hrest ||
            rewrite append_assoc in Hrest).
    repeat (rewrite append_cons || rewrite append_nil || rewrite append_assoc).
    rewrite Hrest; [done|lia].
Qed.

Theorem scan_value_encode v : reads_back v.
Proof.
  induction v as [|b|i|s|items IH|members IH] using Json_ind;
    intros level rest fuel Hrest Hfuel;
    (destruct fuel as [|fuel]; [simpl in Hfuel; lia|]).
  - reflexivity.
  - by destruct b.
  - by apply scan_value_number.
  - destruct (scan_encode_string s rest) as (r & E & Hs).
    cbn [encode]. rewrite E. cbn [scan_value].
    change (Ascii.eqb quote quote) with true. cbv iota. by rewrite Hs.
  - destruct items as [|x xs]; [reflexivity|].
    apply Forall_cons_1 in IH as [Hx Hxs].
    change (encode level (JList (x :: xs)))
      with ("[" +:+ newline_indent (S level) +:+ encode (S level) x +:+
            encode_items level xs).
    rewrite !append_cons, append_nil. cbn [scan_value].
    change (Ascii.eqb "[" quote) with false. cbv iota.
    change (Ascii.eqb "[" "[") with true. cbv iota.
    rewrite !append_assoc, skip_space_newline_indent, skip_space_encode.
    destruct (encode_begins (S level) x (encode_items level xs +:+ rest))
      as (c & s & E & _ & Hc & _).
    pose proof (scan_items_encode level xs x rest fuel Hx Hxs) as Hitems.
    rewrite E in *. rewrite Hc. rewrite Hitems; [done|].
    change (weight (JList (x :: xs))) with (S (weight_items (x :: xs))) in Hfuel. lia.
  - destruct members as [|[k x] ms]; [reflexivity|].
    apply Forall_cons_1 in IH as [Hx Hms]. cbn [snd] in Hx.
    change (encode level (JDict ((k, x) :: ms)))
      with ("{" +:+ newline_indent (S level) +:+ encode_string k +:+ ": " +:+
            encode (S level) x +:+ encode_members level ms).
    rewrite !append_cons, append_nil. cbn [scan_value].
    change (Ascii.eqb "{" quote) with false. cbv iota.
    change (Ascii.eqb "{" "[") with false. cbv iota.
    change (Ascii.eqb "{" "{") with true. cbv iota.
    rewrite !append_assoc, skip_space_newline_indent.
    pose proof (scan_members_encode level ms k x rest fuel Hx Hms) as Hmembers.
    destruct (scan_encode_string k
                (": " +:+ encode (S level) x +:+ encode_members level ms +:+ rest))
      as (r & E & _).
    repeat (rewrite append_cons in E || rewrite append_nil in E ||
            rewrite append_assoc in E).
    repeat (rewrite append_cons in Hmembers || rewrite append_nil in Hmembers ||
            rewrite append_assoc in Hmembers).
    repeat (rewrite append_cons || rewrite append_nil || rewrite append_assoc).
    rewrite E in *. cbn [skip_space]. change (is_json_space quote) with false.
    cbv iota. change (Ascii.eqb quote "}") with false. cbv iota.
    rewrite Hmembers; [done|].
    change (weight (JDict ((k, x) :: ms))) with (S (weight_members ((k, x) :: ms)))
      in Hfuel. lia.
Qed.

Lemma append_empty s : s +:+ EmptyString = s.
Proof. induction s as [|c s IH]; [done|]. by rewrite append_cons, IH. Qed.

Lemma str_not_empty i : (1 <= String.length (str i))%nat.
Proof. destruct (str_head i) as (c & s & -> & _). simpl. lia. Qed.

(** The text of a value has at least as many characters as the value has
    nodes. *)
Lemma weight_length v : forall level, (weight v <= String.length (encode level v))%nat.
Proof.
  induction v as [|b|i|s|items IH|members IH] using Json_ind; intros level.
  - simpl. lia.
  - destruct b; simpl; lia.
  - apply str_not_empty.
  - simpl. lia.
  - destruct items as [|x xs]; [simpl; lia|].
    change (encode level (JList (x :: xs)))
      with ("[" +:+ newline_indent (S level) +:+ encode (S level) x +:+
            encode_items level xs).
    change (weight (JList (x :: xs))) with (S (S (weight x + weight_items xs))).
    apply Forall_cons_1 in IH as [Hx Hxs].
    rewrite !length_append. specialize (Hx (S level)).
    assert (weight_items xs < String.length (encode_items level xs))%nat as Htail.
    { clear Hx. induction xs as [|y ys IHys].
      - unfold encode_items. rewrite length_append. simpl. lia.
      - apply Forall_cons_1 in Hxs as [Hy Hys]. specialize (Hy (S level)).
        change (encode_items level (y :: ys))
          with ("," +:+ newline_indent (S level) +:+ encode (S level) y +:+
                encode_items level ys).
        change (weight_items (y :: ys)) with (S (weight y + weight_items ys)).
        rewrite !length_append. specialize (IHys Hys). simpl. lia. }
    simpl. lia.
  - destruct members as [|[k x] ms]; [simpl; lia|].
    change (encode level (JDict ((k, x) :: ms)))
      with ("{" +:+ newline_indent (S level) +:+ encode_string k +:+ ": " +:+
            encode (S level) x +:+ encode_members level ms).
    change (weight (JDict ((k, x) :: ms)))
      with (S (S (weight x + weight_members ms))).
    apply Forall_cons_1 in IH as [Hx Hms]. cbn [snd] in Hx.
    rewrite !length_append. specialize (Hx (S level)).
    assert (weight_members ms < String.length (encode_members level ms))%nat
      as Htail.
    { clear Hx. induction ms as [|[k' y] ms IHms].
      - unfold encode_members. rewrite length_append. simpl. lia.
      - apply Forall_cons_1 in Hms as [Hy Hms]. cbn [snd] in Hy.
        specialize (Hy (S level)).
        change (encode_members level ((k', y) :: ms))
          with ("," +:+ newline_indent (S level) +:+ encode_string k' +:+ ": " +:+
                encode (S level) y +:+ encode_members level ms).
        change (weight_members ((k', y) :: ms))
          with (S (weight y + weight_members ms)).
        rewrite !length_append. specialize (IHms Hms). simpl. lia. }
    simpl. lia.
Qed.

(** [json.loads(json.dumps(v, ensure_ascii=False, indent=2)) == v] *)
Lemma decode_encode v : decode (encode 0 v) = Some v.
Proof.
  unfold decode.
  pose proof (skip_space_encode 0 v EmptyString) as Hskip.
  pose proof (scan_value_encode v 0%nat EmptyString (S (String.length (encode 0 v)))
                eq_refl) as Hscan.
  rewrite append_empty in Hskip, Hscan. rewrite Hskip, Hscan; [done|].
  pose proof (weight_length v 0). lia.
Qed.

(** ** Documents as JSON values *)

Lemma mapM_map_Some {A B} (f : A -> option B) (g : B -> A) (l : list B) :
  (forall x, f (g x) = Some x) -> mapM f (map g l) = Some l.
Proof.
  intros Hfg. induction l as [|x l IH]; [done|].
  simpl. rewrite Hfg. simpl. by rewrite IH.
Qed.

Lemma film_of_json_of_film f : film_of_json (json_of_film f) = Some f.
Proof.
  unfold film_of_json, json_of_film, dict_of_members.
  cbn [reverse rev_append list_to_map foldr fst snd uncurry curry].
  rewrite lookup_insert_ne, lookup_insert_ne, lookup_insert_eq by done.
  rewrite lookup_insert_ne, lookup_insert_eq by done.
  rewrite lookup_insert_eq.
  rewrite bool_decide_eq_true_2.
  - rewrite mapM_map_Some by done. by destruct f.
  - rewrite !map_size_insert_None; [done|done| |].
    + by rewrite lookup_insert_ne.
    + by rewrite !lookup_insert_ne.
Qed.

Lemma films_of_json_of_films films :
  films_of_json (JList (map json_of_film films)) = Some films.
Proof. simpl. apply mapM_map_Some, film_of_json_of_film. Qed.

Lemma dict_of_members_to_list {A} (d : gmap string A) :
  dict_of_members (map_to_list d) = d.
Proof.
  unfold dict_of_members.
  rewrite <- (list_to_map_to_list d) at 2.
  apply list_to_map_proper; [|apply reverse_Permutation].
  rewrite fmap_reverse, reverse_Permutation. apply NoDup_fst_map_to_list.
Qed.

Lemma document_of_json_of_document (data : Document) :
  document_of_json (json_of_document data) = Some data.
Proof.
  unfold document_of_json, json_of_document.
  assert (forall entries : list (string * list Film),
            mapM (fun member : string * Json =>
                    match films_of_json (snd member) with
                    | Some films => Some (fst member, films)
                    | None => None
                    end)
                 (map (fun entry => (fst entry, JList (map json_of_film (snd entry))))
                      entries) = Some entries) as ->.
  { induction entries as [|[k films] entries IH]; [done|].
    cbn [map fst snd mapM]. rewrite films_of_json_of_films. simpl.
    by rewrite IH. }
  cbv beta iota. f_equal. apply dict_of_members_to_list.
Qed.

(** [json.load] reads what [json.dump] has written as the document that
    was written. *)
Lemma json_load_dump (data : Document) : json_load (json_dump data) = Some data.
Proof.
  unfold json_load, json_dump. rewrite decode_encode.
  apply document_of_json_of_document.
Qed.

(* ===================================================================== *)
(** * Part III. The claims                                                *)
(* ===================================================================== *)

(** C1, as amended.  When at most one call is inside [acquire] at any
    time (the calls do not overlap), then after every schedule of calls,
    and for every limit [mx] and window length [w], no window
    [s <= t < s + w] holds more than [mx] of the timestamps recorded so
    far, nor more than [mx] entries of the list [requests] itself. *)
Theorem acquire_window_bound_one_caller
    (mx : nat) (w t0 : Z) (evs : list Event) (cfg : Config) :
  run 1 evs (idle (RateLimiter_init mx w) t0) = Some cfg ->
  forall s,
    (window_count w s (recorded cfg) <= mx)%nat /\
    (window_count w s (requests (limiter cfg)) <= mx)%nat.
Proof.
  intros Hrun s.
  pose proof (limiter_inv_run mx w evs _ _ (limiter_inv_idle mx w t0) Hrun) as I.
  pose proof (inv_bound _ _ _ I s) as Hb. split; [done|].
  pose proof (window_count_sublist w s _ _ (inv_sub _ _ _ I)). lia.
Qed.

(** Two calls at time 0 fill a limiter of two requests per ten ticks; the
    third call at time 5 sleeps until 10 and is recorded there. *)
Lemma acquire_window_bound_one_caller_witness :
  exists cfg,
    run 1 [Enter 0 0; Enter 0 0; Enter 5 5; Resume 10 10]
          (idle (RateLimiter_init 2 10) 0) = Some cfg /\
    recorded cfg = [0; 0; 10] /\
    (window_count 10 1 (recorded cfg) <= 2)%nat.
Proof.
  eexists. split; [reflexivity|]. split; [reflexivity|].
  apply (acquire_window_bound_one_caller 2 10 0
           [Enter 0 0; Enter 0 0; Enter 5 5; Resume 10 10]).
  reflexivity.
Defined.

(** C1 as stated fails for interleaved callers of the process-wide
    limiter (8 requests per 1000 ticks): with one request at 0 and seven
    at 900, two callers enter at 950 and 960, both sleep until 1000 and
    both record 1000, which puts nine timestamps into the window that
    starts at 900. *)
Lemma acquire_window_bound_fails_interleaved :
  ~ (forall (callers : nat) (evs : list Event) (cfg : Config) (s : Z),
       run callers evs (idle tmdb_rate_limiter 0) = Some cfg ->
       (window_count (time_window tmdb_rate_limiter) s (recorded cfg)
        <= max_requests tmdb_rate_limiter)%nat).
Proof.
  intros H.
  specialize (H 2%nat
    ([Enter 0 0] ++ repeat (Enter 900 900) 7 ++
     [Enter 950 950; Enter 960 960; Resume 1000 1000; Resume 1000 1000])).
  vm_compute in H.
  specialize (H _ 900 eq_refl). vm_compute in H. lia.
Qed.

(** C2, as amended.  For every page [p >= 1] of the by-film flow the
    handler requests the upstream page [ceil(p/4)], that is the [q] with
    [4 (q - 1) < p <= 4 q], and slices from the offset [((p-1) mod 4) * 5].
    The films shown are the five positions from that offset of the
    upstream results without the films the user has saved, so none of them
    is a saved film; when these positions hold nothing, they are the five
    positions from the offset of all upstream results.  At most five films
    are shown, each with a line of the text and a button that opens it, and
    the "no more" text is sent exactly when there is none.
    When none of the upstream results is saved, the films shown are the
    upstream items at the five positions from the offset; in particular
    page 1 of twenty upstream items, none of them saved, shows the items 0
    to 4, and page 1 of twenty items never gives "no more". *)
Theorem film_recommendation_page
    (tmdb : Tmdb) (user_id : string) (film : Film) (st : State)
    (p : Z) (results : list Candidate) :
  1 <= p ->
  ud_film_page (user_data st) = Some p ->
  tmdb_recommendations tmdb (film_id film) (tmdb_page p) = Gives results ->
  let user_films := map film_id (default [] (stored (world st) !! user_id)) in
  let saved f := existsb (Z.eqb (cand_id f)) user_films in
  let offset := ((p - 1) mod 4) * 5 in
  let window (l : list Candidate) := take 5 (drop (Z.to_nat offset) l) in
  let unseen := List.filter (fun f => negb (saved f)) results in
  let shown :=
    match window unseen with
    | [] => window results
    | page => page
    end in
  4 * (tmdb_page p - 1) < p <= 4 * tmdb_page p /\
  tmdb_results_offset p = offset /\
  (exists st' sent,
     show_film_page tmdb user_id film st =
       (Return (Some RECOMMEND_MORE_FILM), st',
        HttpGet (RecommendationsRequest (film_id film) (tmdb_page p)) :: sent) /\
     match shown with
     | [] => sent = [EditText TxtNoMore close_only]
     | _ =>
         exists genres_dict before,
           sent = before ++
                  [EditText
                     (TxtFilmRecommendations (film_title film)
                        (recommendation_lines genres_dict shown))
                     (InlineKeyboardMarkup
                        (recommendation_buttons shown ++
                         [(if 1 <? p
                           then [CallbackButton LblBack
                                   ("film_page_" +:+ str (p - 1))]
                           else []) ++
                          [CallbackButton LblMore "more_film";
                           CallbackButton LblClose "close_recommendations"]]))]
     end) /\
  (window unseen <> [] -> Forall (fun f => saved f = false) shown) /\
  (length shown <= 5)%nat /\
  ((forall f, In f results -> ~ In (cand_id f) user_films) ->
   shown = take 5 (drop (Z.to_nat offset) results)) /\
  (p = 1 -> length results = 20%nat ->
   shown <> [] /\
   ((forall f, In f results -> ~ In (cand_id f) user_films) -> shown = take 5 results)).
Proof.
  intros Hp Hpage Hresults user_films saved offset window unseen shown.
  assert (shown = page_films user_films p results) as Hshown.
  { symmetry. apply page_films_window. }
  split; [apply tmdb_page_ceiling|].
  split; [reflexivity|].
  split; [rewrite Hshown; by apply show_film_page_run|].
  split.
  { intros Hsome. subst shown.
    destruct (window unseen) as [|f page] eqn:Hwindow; [done|].
    rewrite <- Hwindow. subst window unseen. cbv beta.
    eapply Forall_impl; [apply take_drop_filter|].
    cbv beta. intros g Hg. by apply negb_true_iff in Hg. }
  split; [rewrite Hshown; apply page_films_length|].
  split; [rewrite Hshown; apply page_films_unseen|].
  intros -> Hlen. split; [rewrite Hshown; by apply page_films_first_of_twenty|].
  intros Hnone. by rewrite Hshown, page_films_unseen.
Qed.

(** User 7 has saved the film with id 1, the first of the twenty upstream
    films: page 1 shows the upstream items 1 to 5, none of them saved. *)
Lemma film_recommendation_page_witness :
  tmdb_page 1 = 1 /\
  exists st' sent,
    show_film_page tmdb_twenty "7" dune viewer_state =
      (Return (Some RECOMMEND_MORE_FILM), st',
       HttpGet (RecommendationsRequest (film_id dune) 1) :: sent) /\
    exists genres_dict before,
      sent = before ++
             [EditText
                (TxtFilmRecommendations "Dune"
                   (recommendation_lines genres_dict
                      (take 5 (drop 1 upstream_page))))
                (InlineKeyboardMarkup
                   (recommendation_buttons (take 5 (drop 1 upstream_page)) ++
                    [[CallbackButton LblMore "more_film";
                      CallbackButton LblClose "close_recommendations"]]))].
Proof.
  destruct (film_recommendation_page tmdb_twenty "7" dune viewer_state
              1 upstream_page)
    as (Hq & _ & (st' & sent & Hrun & Hsent) & _); [lia|reflexivity|reflexivity|].
  split; [lia|]. exists st', sent. split; [exact Hrun|].
  exact Hsent.
Defined.

(** C2 as stated fails when a saved film is among the upstream results:
    user 7 has saved the film with id 1, the upstream page holds the films
    1 to 20, and page 1 shows the items 1 to 5 (ids 2 to 6), not the five
    items from offset 0. *)
Lemma page_one_of_twenty_skips_saved_film :
  length upstream_page = 20%nat /\
  tmdb_results_offset 1 = 0 /\
  page_films [1] 1 upstream_page = take 5 (drop 1 upstream_page) /\
  page_films [1] 1 upstream_page
    <> take 5 (drop (Z.to_nat (tmdb_results_offset 1)) upstream_page) /\
  exists st' markup,
    show_film_page tmdb_twenty "7" dune viewer_state =
      (Return (Some RECOMMEND_MORE_FILM), st',
       [HttpGet (RecommendationsRequest (film_id dune) 1);
        HttpGet GenreListRequest;
        EditText (TxtFilmRecommendations "Dune"
                    (recommendation_lines [] (take 5 (drop 1 upstream_page))))
                 markup]).
Proof.
  split; [reflexivity|]. split; [reflexivity|]. split; [reflexivity|].
  split; [by vm_compute|].
  do 2 eexists. vm_compute. reflexivity.
Qed.

(** C3, a defect of the code.  Take a film whose id is already in the
    stored list of the user.  Confirmed by a tap on its entry of the
    pick-list, the add answers with the "already in your list" text, ends
    the conversation, writes nothing and leaves the state as it was: here
    [add_save_film] is handed the [CallbackQuery].  Added directly after a
    search with that single result, [add_save_film] is handed the
    [Update], which has no [from_user] in the library: the lookup raises
    inside the [try], the handler answers with the save-error text and
    ends the conversation.  Nothing is written there either, but the
    answer is not the one the tap path gives. *)
Theorem add_existing_film_by_path
    (tmdb : Tmdb) (RequestException : option (Exn -> bool)) (user_id : string)
    (film : Candidate) (st : State) (saved : Film) (text : string) :
  In saved (default [] (stored (world st) !! user_id)) ->
  film_id saved = cand_id film ->
  tmdb_search tmdb (strip text) = Gives [film] ->
  (forall add_results idx,
     ud_add_results (user_data st) = Some add_results ->
     getitem add_results idx = Some film ->
     handler RequestException false tmdb user_id (TapAddChoice (str idx)) st =
       (Return (Some END), st,
        [Answer; ReplyText TxtAlreadyInList global_keyboard])) /\
  handler RequestException false tmdb user_id (TitleMessage text) st =
    (Return (Some END),
     mkState (mkWorld (data_file (world st)) (_genre_cache (world st)) true)
             (set_add_title (strip text) (user_data st)),
     [HttpGet (SearchRequest (strip text));
      ReplyText TxtSaveError global_keyboard]).
Proof.
  intros Hin Hid Hsearch. split.
  - assert (existsb (fun f => film_id f =? cand_id film)
              (default [] (stored (world st) !! user_id)) = true) as Hdup.
    { apply existsb_exists. exists saved. split; [done|]. by apply Z.eqb_eq. }
    pose proof (add_save_film_duplicate tmdb user_id film st Hdup) as Hsave.
    intros add_results idx Hres Hidx. cbn [handler].
    rewrite add_choice_run, Hres, int_str, Hidx. by rewrite Hsave.
  - cbn [handler]. unfold add_title. run_handler. rewrite Hsearch.
    destruct st as [[d c h] ud].
    cbn [world user_data data_file _genre_cache http_client].
    by destruct h; cbn [world user_data data_file _genre_cache http_client];
      rewrite add_save_film_without_from_user.
Qed.

(** The failing input: user 7 has saved Dune and sends the title "Dune";
    the search finds that one film. *)
Lemma add_existing_film_by_path_witness :
  handler None false tmdb_one_dune "7" (TitleMessage "Dune") sample_state =
    (Return (Some END),
     mkState (mkWorld (data_file (world sample_state)) None true)
             (set_add_title "Dune" (user_data sample_state)),
     [HttpGet (SearchRequest "Dune"); ReplyText TxtSaveError global_keyboard]) /\
  handler None false tmdb_one_dune "7" (TapAddChoice (str 0))
    (mkState (world sample_state) (set_add_results [dune_candidate] empty_session)) =
    (Return (Some END),
     mkState (world sample_state) (set_add_results [dune_candidate] empty_session),
     [Answer; ReplyText TxtAlreadyInList global_keyboard]).
Proof.
  split.
  - apply (add_existing_film_by_path tmdb_one_dune None "7" dune_candidate
             sample_state dune "Dune"); [by left|reflexivity|reflexivity].
  - destruct (add_existing_film_by_path tmdb_one_dune None "7" dune_candidate
                (mkState (world sample_state)
                   (set_add_results [dune_candidate] empty_session))
                dune "Dune") as [Htap _]; [by left|reflexivity|reflexivity|].
    by apply (Htap [dune_candidate] 0).
Defined.

(** C4.  Let [films] be the list the session holds under ['list_films']
    and let the tap carry the payload of the delete button number [i].
    If [0 <= i < len(films)], the handler drops exactly the record at
    position [i], keeps the others in their order, writes the resulting
    list as the user's list and confirms; if [i >= len(films)], it sends
    the error text and ends, and neither the document nor the session
    changes and nothing is written. *)
Theorem list_delete_film_by_index (user_id : string) (st : State) (i : Z) :
  let films := default [] (ud_list_films (user_data st)) in
  (0 <= i < Z.of_nat (length films) ->
   exists film,
     films !! Z.to_nat i = Some film /\
     let rest := take (Z.to_nat i) films ++ drop (S (Z.to_nat i)) films in
     let saved := <[user_id := rest]> (stored (world st)) in
     list_delete_film user_id ("delete_" +:+ str i) st =
     (Return (Some (match rest with [] => END | _ => LIST_SHOW end)),
      mkState (mkWorld (Some saved) (_genre_cache (world st)) (http_client (world st)))
              (set_list_films rest (user_data st)),
      [Answer; WriteFile saved;
       ReplyText (TxtDeleted (film_title film)) global_keyboard;
       match rest with
       | [] => ReplyText TxtListNowEmpty global_keyboard
       | _ => ReplyText TxtWantUpdatedList
                (InlineKeyboardMarkup
                   [[CallbackButton LblShowUpdated "show_updated_list"]])
       end])) /\
  (Z.of_nat (length films) <= i ->
   list_delete_film user_id ("delete_" +:+ str i) st =
   (Return (Some END), st, [Answer; ReplyText TxtDeleteNotFound global_keyboard])).
Proof.
  intros films. split.
  - intros Hi.
    destruct (lookup_lt_is_Some_2 films (Z.to_nat i)) as [film Hfilm];
      [clearbody films; lia|].
    exists film. split; [done|].
    apply list_delete_film_removes; [apply Hi| |done].
    by apply normalize_index_nonneg.
  - apply list_delete_film_beyond.
Qed.

Lemma list_delete_film_by_index_witness :
  (exists film,
     sample_films !! Z.to_nat 1 = Some film /\
     let rest := take (Z.to_nat 1) sample_films ++ drop (S (Z.to_nat 1)) sample_films in
     let saved := <[("7" : string) := rest]> (stored (world sample_state)) in
     list_delete_film "7" ("delete_" +:+ str 1) sample_state =
     (Return (Some (match rest with [] => END | _ => LIST_SHOW end)),
      mkState (mkWorld (Some saved) None false)
              (set_list_films rest (user_data sample_state)),
      [Answer; WriteFile saved;
       ReplyText (TxtDeleted (film_title film)) global_keyboard;
       match rest with
       | [] => ReplyText TxtListNowEmpty global_keyboard
       | _ => ReplyText TxtWantUpdatedList
                (InlineKeyboardMarkup
                   [[CallbackButton LblShowUpdated "show_updated_list"]])
       end])) /\
  list_delete_film "7" ("delete_" +:+ str 3) sample_state =
  (Return (Some END), sample_state,
   [Answer; ReplyText TxtDeleteNotFound global_keyboard]).
Proof.
  split.
  - apply (proj1 (list_delete_film_by_index "7" sample_state 1)). simpl. lia.
  - apply (proj2 (list_delete_film_by_index "7" sample_state 3)). simpl. lia.
Defined.

(** C5.  Start from a process without a data file and let it handle any
    sequence of updates of any users, whichever handler each update
    reaches and whatever the metadata service answers: in the document
    that is stored afterwards no user's list holds two films with the same
    id.  (Each single update keeps this, together with the same fact about
    the snapshots held in the sessions: [bot_unique_handle_update].) *)
Theorem saved_ids_stay_unique
    (RequestException : option (Exn -> bool)) (Update_has_from_user : bool)
    (evs : list (Tmdb * string * Update)) (user_id : string) (films : list Film) :
  stored (bot_world (run_bot RequestException Update_has_from_user evs new_bot))
    !! user_id = Some films ->
  NoDup (map film_id films).
Proof.
  intros Hfilms.
  destruct (bot_unique_run_bot RequestException Update_has_from_user evs new_bot
              bot_unique_new) as [Hdoc _].
  by eapply Hdoc.
Qed.

Lemma saved_ids_stay_unique_witness :
  stored (bot_world (run_bot None false two_taps new_bot)) !! "7"
    = Some [mkFilm 438631 "Dune" ["Science Fiction"]] /\
  NoDup (map film_id [mkFilm 438631 "Dune" ["Science Fiction"]]).
Proof.
  assert (stored (bot_world (run_bot None false two_taps new_bot)) !! "7"
          = Some [mkFilm 438631 "Dune" ["Science Fiction"]]) as H by reflexivity.
  split; [exact H|].
  exact (saved_ids_stay_unique None false two_taps "7" _ H).
Defined.



(** C7.  With a non-empty cache [get_genres] returns the cache and sends
    nothing.  Otherwise it sends one request for the genre list.  An answer
    with status 200 becomes the cache and the returned mapping: it gives
    every id of the fetched [genres] array the name of the id's last entry
    in the array, which is the name of its entry when the ids are distinct,
    and no name to any other id.  Any other status, or an exception, gives
    the empty mapping and leaves the cache as it was.  In every case
    [get_genres] returns and does not raise. *)
Theorem get_genres_cache (tmdb : Tmdb) (st : State) :
  let w := world st in
  let fetching c := mkState (mkWorld (data_file w) c true) (user_data st) in
  match _genre_cache w with
  | Some (g :: gs) => get_genres tmdb st = (Return (g :: gs), st, [])
  | empty =>
      match tmdb_genre_list tmdb with
      | Gives (status, genres) =>
          if status =? 200 then
            exists mapping,
              get_genres tmdb st =
                (Return mapping, fetching (Some mapping), [HttpGet GenreListRequest]) /\
              (forall id,
                 dict_get id mapping =
                 option_map snd (find (fun g => fst g =? id) (rev genres))) /\
              (NoDup (map fst genres) ->
               forall id name, In (id, name) genres -> dict_get id mapping = Some name) /\
              (forall id, ~ In id (map fst genres) -> dict_get id mapping = None)
          else
            get_genres tmdb st =
              (Return [], fetching empty, [HttpGet GenreListRequest])
      | Fails e =>
          get_genres tmdb st =
            (Return [], fetching empty, [HttpGet GenreListRequest])
      end
  end.
Proof.
  assert (forall genres,
            (forall id,
               dict_get id (genres_of_list genres) =
               option_map snd (find (fun g => fst g =? id) (rev genres))) /\
            (NoDup (map fst genres) ->
             forall id name, In (id, name) genres ->
               dict_get id (genres_of_list genres) = Some name) /\
            (forall id, ~ In id (map fst genres) ->
               dict_get id (genres_of_list genres) = None)) as Hmapping.
  { intros genres. split; [apply genres_of_list_lookup|]. split.
    - intros Hnd id name Hin.
      by rewrite genres_of_list_lookup, (find_rev_distinct genres id name).
    - intros id Hid. rewrite genres_of_list_lookup.
      destruct (find (fun g => fst g =? id) (rev genres)) as [[id' name']|] eqn:Hfind;
        [|done].
      apply find_some in Hfind as [Hin Heq]. apply in_rev in Hin.
      apply Z.eqb_eq in Heq. simpl in Heq. subst id'.
      destruct Hid. apply in_map_iff. by exists (id, name'). }
  destruct st as [[d c h] ud]. unfold get_genres. run_handler.
  destruct c as [[|g gs]|]; [|done|];
    (destruct (tmdb_genre_list tmdb) as [e|[status genres]];
     [by destruct h|]; simpl; destruct (status =? 200) eqn:Hstatus;
     [|by destruct h];
     exists (genres_of_list genres); split; [by destruct h|apply Hmapping]).
Qed.

(** C8.  [add_title] on a search that gives [results]: none, the bot asks
    again and stays in [ADD_TITLE]; exactly one, the handler is
    [add_save_film] on that film (which ends the conversation); two or
    more, the bot keeps the results in the session, shows one button per
    result for the first five at most, numbered from 0, and moves to
    [ADD_CHOICE]. *)
Theorem add_title_by_result_count
    (tmdb : Tmdb) (RequestException : option (Exn -> bool))
    (update_from_user_id : option string) (text : string) (st : State)
    (results : list Candidate) :
  tmdb_search tmdb (strip text) = Gives results ->
  let title := strip text in
  let st0 := mkState (mkWorld (data_file (world st)) (_genre_cache (world st)) true)
                     (set_add_title title (user_data st)) in
  let run := add_title tmdb RequestException update_from_user_id text st in
  match results with
  | [] =>
      run = (Return (Some ADD_TITLE), st0,
             [HttpGet (SearchRequest title); ReplyText TxtFilmNotFound global_keyboard])
  | [film] =>
      let save := add_save_film tmdb update_from_user_id film st0 in
      run = (Return (Some END), save.1.2, HttpGet (SearchRequest title) :: save.2)
  | _ =>
      exists keyboard,
        run = (Return (Some ADD_CHOICE),
               mkState (world st0) (set_add_results results (user_data st0)),
               [HttpGet (SearchRequest title);
                ReplyText TxtChooseFilm (InlineKeyboardMarkup keyboard)]) /\
        length keyboard = Nat.min 5 (length results) /\
        forall (i : nat) row, keyboard !! i = Some row ->
          exists film, results !! i = Some film /\
            row = [CallbackButton
                     (LblCandidate (cand_title film) (substring 0 4 (release_date film)))
                     (str (Z.of_nat i))]
  end.
Proof.
  intros Hsearch title st0 run. subst run title. unfold add_title.
  destruct results as [|film [|film' results]].
  - run_handler. rewrite Hsearch. subst st0. by destruct st as [[d c []] ud].
  - pose proof (add_save_film_returns tmdb update_from_user_id film st0) as Hret.
    run_handler. rewrite Hsearch. subst st0.
    destruct st as [[d c h] ud]. cbn [world user_data data_file _genre_cache http_client] in *.
    destruct h;
      (destruct (add_save_film tmdb update_from_user_id film _) as [[r st'] tr];
       simpl in *; by rewrite Hret).
  - eexists. split; [|split].
    + run_handler. rewrite Hsearch. subst st0. by destruct st as [[d c []] ud].
    + by rewrite length_imap, length_take.
    + intros i row Hrow. rewrite list_lookup_imap in Hrow.
      destruct (take 5 (film :: film' :: results) !! i) as [f|] eqn:Hf; [|done].
      injection Hrow as <-. exists f. split; [|done].
      apply lookup_take_Some in Hf as [Hf _]. done.
Qed.

Lemma add_title_by_result_count_witness :
  exists keyboard,
    add_title tmdb_two_dunes None None " Dune " sample_state =
      (Return (Some ADD_CHOICE),
       mkState (mkWorld (data_file (world sample_state)) None true)
               (set_add_results [dune_candidate; dune_1984]
                  (set_add_title "Dune" (user_data sample_state))),
       [HttpGet (SearchRequest "Dune");
        ReplyText TxtChooseFilm (InlineKeyboardMarkup keyboard)]) /\
    length keyboard = 2%nat.
Proof.
  destruct (add_title_by_result_count tmdb_two_dunes None None " Dune " sample_state
              [dune_candidate; dune_1984] eq_refl) as (keyboard & Hrun & Hlen & _).
  exists keyboard. split; [exact Hrun|exact Hlen].
Defined.

(** C9.  The router hands a tap to the first of the five shapes, in the
    order delete-related, mode choice, film recommendation, genre
    recommendation, pick among search results, that its payload and the
    session match; a tap that matches none is answered, gets the "session
    expired" text and ends the conversation: the handler returns [END],
    raises nothing and changes no state. *)
Theorem universal_callback_handler_precedence
    (tmdb : Tmdb) (user_id data : string) (st : State) :
  universal_callback_handler tmdb user_id data st =
    match first_match (precedence (user_data st) data) with
    | Some target => deliver tmdb user_id data target st
    | None => (Return (Some END), st, [Answer; EditText TxtSessionExpired NoMarkup])
    end /\
  first_match (precedence (user_data st) data) =
    (if delete_related data then Some ToListDelete
     else if recommend_mode_choice data then Some ToRecommendChoose
     else if film_recommendation (user_data st) data then Some ToRecommendFilm
     else if genre_recommendation (user_data st) data then Some ToRecommendGenre
     else if add_disambiguation (user_data st) data then Some ToAddChoice
     else None).
Proof.
  split.
  - unfold universal_callback_handler. rewrite bind_get_user_data.
    set (ud := user_data st).
    assert (startswith data "delete_" || String.eqb data "show_delete_interface" ||
            String.eqb data "cancel_delete" || String.eqb data "show_updated_list"
            = delete_related data) as ->.
    { unfold delete_related. rewrite eqb_in_list. simpl. by rewrite !orb_assoc, orb_false_r. }
    assert (String.eqb data "by_film" || String.eqb data "by_genre"
            = recommend_mode_choice data) as ->.
    { unfold recommend_mode_choice. rewrite eqb_in_list. simpl. by rewrite orb_false_r. }
    assert (startswith data "film_page_" || String.eqb data "more_film" ||
            String.eqb data "close_recommendations" || startswith data "add_rec_" ||
            isdigit data && bool_decide (is_Some (ud_recommend_films ud))
            = film_recommendation ud data) as ->.
    { unfold film_recommendation. rewrite eqb_in_list. simpl.
      by rewrite !orb_assoc, orb_false_r. }
    assert (startswith data "genre_page_" || String.eqb data "more_genre" ||
            startswith data "add_rec_" || String.eqb data "close_recommendations" ||
            isdigit data && bool_decide (is_Some (ud_recommend_genre_id ud))
            = genre_recommendation ud data) as ->.
    { unfold genre_recommendation. rewrite eqb_in_list. simpl.
      rewrite orb_false_r.
      destruct (startswith data "genre_page_"), (String.eqb data "more_genre"),
        (startswith data "add_rec_"), (String.eqb data "close_recommendations"); done. }
    fold (add_disambiguation ud data).
    unfold precedence. cbn [first_match].
    destruct (delete_related data); [done|].
    destruct (recommend_mode_choice data); [done|].
    destruct (film_recommendation ud data); [done|].
    destruct (genre_recommendation ud data); [done|].
    destruct (add_disambiguation ud data); [done|].
    run_handler. by destruct st.
  - unfold precedence. simpl.
    by destruct (delete_related data), (recommend_mode_choice data),
      (film_recommendation (user_data st) data),
      (genre_recommendation (user_data st) data),
      (add_disambiguation (user_data st) data).
Qed.

(** C10.  On a snapshot [films] and a delete payload that carries a
    negative index [k] with [-len(films) <= k <= -1], the test
    [film_index >= len(films)] is false, and the handler removes the record
    at position [len(films) + k] (the last one for [k = -1]), writes the
    shortened list and confirms the deletion; no error text is sent. *)
Theorem list_delete_film_negative_index (user_id : string) (st : State) (k : Z) :
  let films := default [] (ud_list_films (user_data st)) in
  - Z.of_nat (length films) <= k <= -1 ->
  let n := Z.to_nat (Z.of_nat (length films) + k) in
  (Z.of_nat (length films) <=? k) = false /\
  exists film,
    films !! n = Some film /\
    let rest := take n films ++ drop (S n) films in
    let saved := <[user_id := rest]> (stored (world st)) in
    list_delete_film user_id ("delete_" +:+ str k) st =
    (Return (Some (match rest with [] => END | _ => LIST_SHOW end)),
     mkState (mkWorld (Some saved) (_genre_cache (world st)) (http_client (world st)))
             (set_list_films rest (user_data st)),
     [Answer; WriteFile saved;
      ReplyText (TxtDeleted (film_title film)) global_keyboard;
      match rest with
      | [] => ReplyText TxtListNowEmpty global_keyboard
      | _ => ReplyText TxtWantUpdatedList
               (InlineKeyboardMarkup
                  [[CallbackButton LblShowUpdated "show_updated_list"]])
      end]).
Proof.
  intros films Hk n. split; [apply Z.leb_gt; lia|].
  destruct (lookup_lt_is_Some_2 films n) as [film Hfilm];
    [subst n; clearbody films; lia|].
  exists film. split; [done|].
  apply list_delete_film_removes; [|subst n|done].
  - fold films. lia.
  - fold films. rewrite normalize_index_negative by lia. f_equal. lia.
Qed.

Lemma list_delete_film_negative_index_witness :
  exists film,
    sample_films !! 2%nat = Some film /\
    film = heat /\
    list_delete_film "7" ("delete_" +:+ str (-1)) sample_state =
    (Return (Some LIST_SHOW),
     mkState (mkWorld (Some (<[("7" : string) := [dune; alien]]> {["7" := sample_films]}))
                      None false)
             (set_list_films [dune; alien] (user_data sample_state)),
     [Answer;
      WriteFile (<[("7" : string) := [dune; alien]]> {["7" := sample_films]});
      ReplyText (TxtDeleted (film_title film)) global_keyboard;
      ReplyText TxtWantUpdatedList
        (InlineKeyboardMarkup [[CallbackButton LblShowUpdated "show_updated_list"]])]).
Proof.
  destruct (list_delete_film_negative_index "7" sample_state (-1)) as (_ & film & Hf & Hrun).
  - simpl. lia.
  - exists film. split; [exact Hf|]. split; [by injection Hf|]. exact Hrun.
Defined.

(* ===================================================================== *)
(** * Part IV. Further properties of the code                             *)
(* ===================================================================== *)

(** ** Rate limiter *)

(** X1.  [acquire] raises (the [IndexError] of [self.requests[0]]) exactly
    when the limiter was built with [max_requests = 0] and no recorded
    request is younger than [time_window]. *)
Theorem acquire_raises_without_slots (now : Z) (rl : RateLimiter) :
  snd (acquire_enter now rl) = RaiseIndexError <->
  max_requests rl = 0%nat /\
  Forall (fun req_time => time_window rl <= now - req_time) (requests rl).
Proof.
  unfold acquire_enter.
  set (reqs := List.filter _ (requests rl)).
  assert (reqs = [] <->
          Forall (fun req_time => time_window rl <= now - req_time) (requests rl)) as Hempty.
  { subst reqs. induction (requests rl) as [|r l IH]; simpl.
    - split; [constructor|done].
    - destruct (now - r <? time_window rl) eqn:E.
      + apply Z.ltb_lt in E. split; [done|]. intros [H _]%Forall_cons_1. lia.
      + apply Z.ltb_ge in E. rewrite IH. split.
        * intros H. by constructor.
        * by intros [_ H]%Forall_cons_1. }
  destruct (max_requests rl <=? length reqs)%nat eqn:Hfull.
  - apply Nat.leb_le in Hfull. destruct reqs as [|r0 rest]; simpl.
    + simpl in Hfull. split; [intros _|done]. split; [lia|by apply Hempty].
    + split.
      * by destruct (0 <? _).
      * intros [_ H]. by apply Hempty in H.
  - apply Nat.leb_gt in Hfull. simpl. split; [done|]. intros [H _]. lia.
Qed.

Lemma acquire_raises_without_slots_witness :
  snd (acquire_enter 5 (RateLimiter_init 0 10)) = RaiseIndexError.
Proof.
  apply (acquire_raises_without_slots 5 (RateLimiter_init 0 10)).
  split; [reflexivity|constructor].
Defined.

(** X2.  When no recorded timestamp lies in the future and [acquire]
    decides to sleep, the window is full, the sleep is positive and at
    most [time_window] long, and it ends at the moment the oldest request
    that was kept becomes [time_window] old. *)
Theorem acquire_sleep_bound (now : Z) (rl rl' : RateLimiter) (wait_time : Z) :
  Forall (fun req_time => req_time <= now) (requests rl) ->
  acquire_enter now rl = (rl', Sleep wait_time) ->
  0 < wait_time <= time_window rl /\
  (max_requests rl <= length (requests rl'))%nat /\
  exists r0 rest,
    requests rl' = r0 :: rest /\ now + wait_time = r0 + time_window rl.
Proof.
  intros Hpast. unfold acquire_enter.
  set (reqs := List.filter _ (requests rl)).
  assert (Forall (fun r => r <= now) reqs) as Hreqs.
  { apply List.Forall_forall. intros x Hx. apply List.filter_In in Hx as [Hx _].
    by apply (proj1 (List.Forall_forall _ _) Hpast). }
  destruct (max_requests rl <=? length reqs)%nat eqn:Hfull; [|done].
  apply Nat.leb_le in Hfull.
  destruct reqs as [|r0 rest]; [done|].
  destruct (0 <? time_window rl - (now - r0)) eqn:Hw; [|done].
  apply Z.ltb_lt in Hw. intros [= <- <-]. simpl.
  apply Forall_cons_1 in Hreqs as [Hr0 _].
  split; [lia|]. split; [done|]. exists r0, rest. split; [done|lia].
Qed.

Lemma acquire_sleep_bound_witness :
  0 < 7 <= 10 /\
  exists rl', acquire_enter 5 (mkRateLimiter 2 10 [2; 4]) = (rl', Sleep 7).
Proof.
  assert (acquire_enter 5 (mkRateLimiter 2 10 [2; 4])
          = (mkRateLimiter 2 10 [2; 4], Sleep 7)) as H by reflexivity.
  destruct (acquire_sleep_bound 5 (mkRateLimiter 2 10 [2; 4])
              (mkRateLimiter 2 10 [2; 4]) 7) as (Hw & _ & _);
    [repeat constructor; lia|exact H|].
  split; [exact Hw|by eexists].
Defined.

(** ** Genre taxonomy *)

(** X3.  The dictionary built from the [genres] array holds every id once,
    and for an id that occurs several times the name of its last
    occurrence. *)
Theorem genres_of_list_last_wins (gs : list (Z * string)) (k : Z) :
  dict_get k (genres_of_list gs) =
    option_map snd (find (fun g => fst g =? k) (rev gs)) /\
  NoDup (map fst (genres_of_list gs)).
Proof.
  unfold genres_of_list. induction gs as [|g gs IH] using rev_ind.
  - split; [done|constructor].
  - destruct IH as [IH1 IH2]. rewrite fold_left_app, rev_app_distr. simpl. split.
    + rewrite dict_get_set. destruct (fst g =? k); [done|exact IH1].
    + by apply dict_set_nodup.
Qed.

(** X4.  A fetch with status 200 and at least one genre fills the cache,
    and the next [get_genres] returns that mapping without any request,
    whatever the service would answer then.  A fetch that fails, or
    answers with another status, leaves the cache as it was, so the next
    [get_genres] sends the request again. *)
Theorem get_genres_twice (tmdb tmdb' : Tmdb) (st : State) :
  cache_populated (world st) = false ->
  let st1 := (get_genres tmdb st).1.2 in
  let again := (get_genres tmdb' st1).2 = [HttpGet GenreListRequest] in
  match tmdb_genre_list tmdb with
  | Gives (status, genres) =>
      if status =? 200 then
        match genres with
        | _ :: _ => get_genres tmdb' st1 = (Return (genres_of_list genres), st1, [])
        | [] => again
        end
      else _genre_cache (world st1) = _genre_cache (world st) /\ again
  | Fails e => _genre_cache (world st1) = _genre_cache (world st) /\ again
  end.
Proof.
  intros Hc st1 again. subst again st1. rewrite (get_genres_miss tmdb st Hc).
  assert (forall c,
    cache_populated (mkWorld (data_file (world st)) c true) = false ->
    (get_genres tmdb'
       (mkState (mkWorld (data_file (world st)) c true) (user_data st))).2
    = [HttpGet GenreListRequest]) as Hagain.
  { intros c Hc'. rewrite get_genres_miss by done.
    destruct (tmdb_genre_list tmdb') as [e|[status genres]]; [done|].
    by destruct (status =? 200). }
  assert (cache_populated
            (mkWorld (data_file (world st)) (_genre_cache (world st)) true) = false)
    as Hsame by exact Hc.
  destruct (tmdb_genre_list tmdb) as [e|[status genres]].
  - simpl. split; [done|]. by apply Hagain.
  - destruct (status =? 200); simpl.
    + destruct genres as [|g gs].
      * by apply Hagain.
      * pose proof (genres_of_list_not_empty g gs) as Hne.
        destruct (genres_of_list (g :: gs)) as [|x l] eqn:E; [done|].
        by apply get_genres_populated.
    + split; [done|]. by apply Hagain.
Qed.

Lemma get_genres_twice_witness :
  get_genres tmdb_down (get_genres tmdb_two_dunes sample_state).1.2 =
  (Return [(878, "Science Fiction")],
   (get_genres tmdb_two_dunes sample_state).1.2, []).
Proof.
  exact (get_genres_twice tmdb_two_dunes tmdb_down sample_state eq_refl).
Defined.

(** ** Adding a film *)

(** X5.  When no film of the user's stored list has the id of the
    candidate, [add_save_film] looks up the genre names (the empty string
    for an id the taxonomy does not know), appends one record with the
    candidate's id, title and these names at the end of the user's list,
    writes the document once, confirms and ends the conversation. *)
Theorem add_save_film_appends
    (tmdb : Tmdb) (user_id : string) (film : Candidate) (st : State) :
  Forall (fun f => film_id f <> cand_id film)
         (default [] (stored (world st) !! user_id)) ->
  exists genres w sent,
    get_genres tmdb st = (Return genres, mkState w (user_data st), sent) /\
    let genre_names :=
      map (fun gid => default EmptyString (dict_get gid genres)) (genre_ids film) in
    let saved :=
      <[user_id := default [] (stored (world st) !! user_id) ++
                   [mkFilm (cand_id film) (cand_title film) genre_names]]>
        (stored (world st)) in
    add_save_film tmdb (Some user_id) film st =
    (Return (Some END),
     mkState (mkWorld (Some saved) (_genre_cache w) (http_client w)) (user_data st),
     sent ++ [WriteFile saved;
              ReplyText (TxtAdded (cand_title film) genre_names) global_keyboard]).
Proof.
  intros Hnew. destruct (get_genres_frame tmdb st) as (genres & w & sent & Hg & _).
  exists genres, w, sent. split; [done|].
  apply add_save_film_new; [done|]. by apply existsb_id_false.
Qed.

Lemma add_save_film_appends_witness :
  exists st',
    add_save_film tmdb_two_dunes (Some "7") dune_1984 sample_state =
    (Return (Some END), st',
     [HttpGet GenreListRequest;
      WriteFile (<[("7" : string) :=
                   sample_films ++ [mkFilm 841 "Dune" [""; "Science Fiction"]]]>
                   {["7" := sample_films]});
      ReplyText (TxtAdded "Dune" [""; "Science Fiction"]) global_keyboard]).
Proof.
  destruct (add_save_film_appends tmdb_two_dunes "7" dune_1984 sample_state)
    as (genres & w & sent & Hg & Hrun).
  - repeat constructor; by vm_compute.
  - injection Hg as <- <- <-. eexists. exact Hrun.
Defined.

(** X6.  Saving is idempotent: whatever the first [add_save_film] of a
    candidate did for a user, a second one for the same user and candidate
    finds the id in the stored list, answers "already in your list" and
    changes nothing. *)
Theorem add_save_film_twice
    (tmdb tmdb' : Tmdb) (user_id : string) (film : Candidate) (st : State) :
  let st1 := (add_save_film tmdb (Some user_id) film st).1.2 in
  add_save_film tmdb' (Some user_id) film st1 =
  (Return (Some END), st1, [ReplyText TxtAlreadyInList global_keyboard]).
Proof.
  intros st1. subst st1.
  destruct (existsb (fun f => film_id f =? cand_id film)
              (default [] (stored (world st) !! user_id))) eqn:Hdup.
  - rewrite (add_save_film_duplicate tmdb user_id film st Hdup). simpl.
    by apply add_save_film_duplicate.
  - destruct (get_genres_frame tmdb st) as (genres & w & sent & Hg & _).
    rewrite (add_save_film_new tmdb user_id film st genres w sent Hg Hdup).
    cbn [fst snd]. apply add_save_film_duplicate.
    unfold stored. cbn [world data_file]. rewrite lookup_insert_eq. simpl.
    apply existsb_id_last.
Qed.

(** X7.  On an ASCII payload [add_choice] always ends the conversation and
    never raises.  Without pending search results, with a payload that
    [int()] does not accept, or with an index outside the results, it only
    puts an error text into the message and changes nothing; otherwise it
    is [add_save_film] on the result picked, after the answer to the
    tap. *)
Theorem add_choice_cases (tmdb : Tmdb) (user_id data : string) (st : State) :
  is_ascii data = true ->
  (add_choice tmdb user_id data st).1.1 = Return (Some END) /\
  add_choice tmdb user_id data st =
  match ud_add_results (user_data st) with
  | None => (Return (Some END), st, [Answer; EditText TxtNoAddResults NoMarkup])
  | Some add_results =>
      match int_ data with
      | None => (Return (Some END), st, [Answer; EditText TxtChoiceError NoMarkup])
      | Some idx =>
          match getitem add_results idx with
          | None => (Return (Some END), st, [Answer; EditText TxtChoiceError NoMarkup])
          | Some film =>
              (Return (Some END),
               (add_save_film tmdb (Some user_id) film st).1.2,
               Answer :: (add_save_film tmdb (Some user_id) film st).2)
          end
      end
  end.
Proof.
  intros _. split; [|apply add_choice_run].
  rewrite add_choice_run.
  destruct (ud_add_results (user_data st)) as [add_results|]; [|done].
  destruct (int_ data) as [idx|]; [|done].
  by destruct (getitem add_results idx).
Qed.

(** A payload with the separator 31 after the digit is no integer for
    [int()]: the tap changes nothing. *)
Lemma add_choice_cases_witness :
  add_choice tmdb_down "7" (String "1" (String (ascii_of_nat 31) EmptyString))
    (mkState (world sample_state)
       (set_add_results [dune_candidate; dune_1984] empty_session)) =
  (Return (Some END),
   mkState (world sample_state)
     (set_add_results [dune_candidate; dune_1984] empty_session),
   [Answer; EditText TxtChoiceError NoMarkup]).
Proof.
  destruct (add_choice_cases tmdb_down "7"
              (String "1" (String (ascii_of_nat 31) EmptyString))
              (mkState (world sample_state)
                 (set_add_results [dune_candidate; dune_1984] empty_session))
              eq_refl) as [_ H].
  exact H.
Defined.

(** X8.  The buttons of the pick-list lead to the films they show: after
    [add_title] has found two or more results, a tap with the payload
    [str(i)] of the button number [i] runs [add_save_film] on
    [results[i]]. *)
Theorem add_title_then_pick
    (tmdb tmdb' : Tmdb) (RequestException : option (Exn -> bool))
    (update_from_user_id : option string) (user_id text : string) (st : State)
    (results : list Candidate) (i : nat) (film : Candidate) :
  tmdb_search tmdb (strip text) = Gives results ->
  (2 <= length results)%nat ->
  results !! i = Some film ->
  let st1 := (add_title tmdb RequestException update_from_user_id text st).1.2 in
  add_choice tmdb' user_id (str (Z.of_nat i)) st1 =
  (Return (Some END),
   (add_save_film tmdb' (Some user_id) film st1).1.2,
   Answer :: (add_save_film tmdb' (Some user_id) film st1).2).
Proof.
  intros Hsearch Hlen Hfilm st1.
  destruct results as [|f [|f' results]]; [simpl in Hlen; lia..|].
  pose proof (add_title_keeps_results tmdb RequestException update_from_user_id
                text st f f' results Hsearch) as Hres.
  fold st1 in Hres. by rewrite add_choice_run, Hres, int_str, getitem_of_nat, Hfilm.
Qed.

Lemma add_title_then_pick_witness :
  add_choice tmdb_down "7" (str (Z.of_nat 1))
    (add_title tmdb_two_dunes None None "Dune" sample_state).1.2 =
  (Return (Some END),
   (add_save_film tmdb_down (Some "7") dune_1984
      (add_title tmdb_two_dunes None None "Dune" sample_state).1.2).1.2,
   Answer ::
   (add_save_film tmdb_down (Some "7") dune_1984
      (add_title tmdb_two_dunes None None "Dune" sample_state).1.2).2).
Proof.
  apply (add_title_then_pick tmdb_two_dunes tmdb_down None None "7" "Dune"
           sample_state [dune_candidate; dune_1984] 1 dune_1984).
  - reflexivity.
  - simpl. lia.
  - reflexivity.
Defined.

(** X9.  When the search fails, [add_title] has stored the stripped title
    and written nothing.  If [httpx] has the class [RequestException], the
    bot answers with the search-error text for such an exception and with
    the general error text for any other, and stays in [ADD_TITLE]; if the
    module has no such attribute, evaluating the [except] clause raises
    [AttributeError] out of the handler. *)
Theorem add_title_search_fails
    (tmdb : Tmdb) (RequestException : option (Exn -> bool))
    (update_from_user_id : option string) (text : string) (st : State) (e : Exn) :
  tmdb_search tmdb (strip text) = Fails e ->
  let st1 := mkState (mkWorld (data_file (world st)) (_genre_cache (world st)) true)
                     (set_add_title (strip text) (user_data st)) in
  let request := HttpGet (SearchRequest (strip text)) in
  add_title tmdb RequestException update_from_user_id text st =
  match RequestException with
  | None => (Raise AttributeError, st1, [request])
  | Some is_request_exception =>
      (Return (Some ADD_TITLE), st1,
       [request;
        ReplyText (if is_request_exception e then TxtSearchError
                   else TxtUnexpectedError) global_keyboard])
  end.
Proof.
  intros Hsearch st1 request. subst st1 request. unfold add_title. run_handler.
  rewrite Hsearch. destruct st as [[d c h] ud].
  destruct RequestException as [is_request_exception|], h; simpl;
    try destruct (is_request_exception e); reflexivity.
Qed.

Lemma add_title_search_fails_witness :
  add_title tmdb_down None None " Dune " sample_state =
  (Raise AttributeError,
   mkState (mkWorld (data_file (world sample_state)) None true)
           (set_add_title "Dune" (user_data sample_state)),
   [HttpGet (SearchRequest "Dune")]).
Proof.
  exact (add_title_search_fails tmdb_down None None " Dune " sample_state
           HTTPError eq_refl).
Defined.

(** ** Listing and deleting *)

(** X10.  The delete buttons of a fresh list act on the stored list: after
    [list_films], the tap that carries the index [i] of a film leaves the
    user with the stored list without its film number [i], the others in
    their order, stays in [LIST_SHOW] unless the list is now empty, and
    does not touch the list of any other user. *)
Theorem list_films_then_delete
    (user_id : string) (st : State) (films : list Film) (i : Z) :
  stored (world st) !! user_id = Some films ->
  0 <= i < Z.of_nat (length films) ->
  let st1 := (list_films user_id st).1.2 in
  let run := list_delete_film user_id ("delete_" +:+ str i) st1 in
  let rest := delete (Z.to_nat i) films in
  run.1.1 = Return (Some (match rest with [] => END | _ => LIST_SHOW end)) /\
  stored (world run.1.2) !! user_id = Some rest /\
  ud_list_films (user_data run.1.2) = Some rest /\
  forall other, other <> user_id ->
    stored (world run.1.2) !! other = stored (world st) !! other.
Proof.
  intros Hfilms Hi st1 run rest. subst run st1 rest.
  rewrite (list_films_snapshot user_id st films Hfilms) by lia.
  cbn [fst snd].
  destruct (lookup_lt_is_Some_2 films (Z.to_nat i)) as [film Hfilm]; [lia|].
  rewrite (list_delete_film_removes user_id _ i (Z.to_nat i) film);
    [|simpl; lia|simpl; by apply normalize_index_nonneg|done].
  cbn [fst snd world user_data data_file ud_list_films set_list_films default from_option].
  rewrite delete_take_drop, !stored_written. unfold id.
  repeat split.
  - by rewrite lookup_insert_eq.
  - intros other Hother. by rewrite lookup_insert_ne.
Qed.

Lemma list_films_then_delete_witness :
  stored (world (list_delete_film "7" ("delete_" +:+ str 0)
                   (list_films "7" sample_state).1.2).1.2) !! "7"
  = Some (delete (Z.to_nat 0) sample_films).
Proof.
  apply (list_films_then_delete "7" sample_state sample_films 0).
  - reflexivity.
  - simpl. lia.
Defined.

(** X11.  A deletion writes the snapshot taken by [list_films], not the
    stored list: a film the user adds after listing is in the stored list
    until the next delete tap, and gone after it. *)
Theorem delete_drops_later_addition
    (tmdb : Tmdb) (user_id : string) (st : State) (films : list Film)
    (film : Candidate) (i : Z) :
  stored (world st) !! user_id = Some films ->
  Forall (fun f => film_id f <> cand_id film) films ->
  0 <= i < Z.of_nat (length films) ->
  let st1 := (list_films user_id st).1.2 in
  let st2 := (add_save_film tmdb (Some user_id) film st1).1.2 in
  let st3 := (list_delete_film user_id ("delete_" +:+ str i) st2).1.2 in
  (exists record,
     film_id record = cand_id film /\
     stored (world st2) !! user_id = Some (films ++ [record])) /\
  stored (world st3) !! user_id = Some (delete (Z.to_nat i) films) /\
  Forall (fun f => film_id f <> cand_id film) (delete (Z.to_nat i) films).
Proof.
  intros Hfilms Hnew Hi st1 st2 st3. subst st3 st2 st1.
  rewrite (list_films_snapshot user_id st films Hfilms) by lia.
  cbn [fst snd].
  set (st1 := mkState (world st) (set_list_films films (user_data st))).
  destruct (get_genres_frame tmdb st1) as (genres & w & sent & Hg & Hw).
  assert (existsb (fun f => film_id f =? cand_id film)
            (default [] (stored (world st1) !! user_id)) = false) as Hdup.
  { subst st1. cbn [world]. rewrite Hfilms. by apply existsb_id_false. }
  rewrite (add_save_film_new tmdb user_id film st1 genres w sent Hg Hdup).
  cbn [fst snd]. subst st1. cbn [world user_data]. rewrite Hfilms.
  cbn [default from_option]. split; [|split].
  - eexists. split; [|rewrite stored_written; by rewrite lookup_insert_eq].
    reflexivity.
  - destruct (lookup_lt_is_Some_2 films (Z.to_nat i)) as [x Hx]; [lia|].
    rewrite (list_delete_film_removes user_id _ i (Z.to_nat i) x);
      [|simpl; lia|simpl; by apply normalize_index_nonneg|done].
    cbn [fst snd world user_data data_file ud_list_films set_list_films
         default from_option].
    rewrite stored_written. unfold id.
    by rewrite lookup_insert_eq, delete_take_drop.
  - apply Forall_forall. intros x Hx.
    apply list_elem_of_delete_inv in Hx.
    by apply (proj1 (Forall_forall _ _) Hnew).
Qed.

Lemma delete_drops_later_addition_witness :
  stored (world
    (list_delete_film "7" ("delete_" +:+ str 2)
       (add_save_film tmdb_down (Some "7") dune_1984
          (list_films "7" sample_state).1.2).1.2).1.2) !! "7"
  = Some (delete (Z.to_nat 2) sample_films).
Proof.
  apply (delete_drops_later_addition tmdb_down "7" sample_state sample_films
           dune_1984 2).
  - reflexivity.
  - repeat constructor; by vm_compute.
  - simpl. lia.
Defined.

(** X12.  A delete payload whose index part is ASCII text that [int()]
    does not accept, or an integer below [-len(films)], is caught inside
    the handler: the bot sends the deletion-error text, ends the
    conversation and changes nothing. *)
Theorem list_delete_film_invalid_index
    (user_id : string) (st : State) (s part : string) (rest : list string) :
  split "_" s = part :: rest ->
  is_ascii part = true ->
  int_ part = None \/
  (exists k, int_ part = Some k /\
             k < - Z.of_nat (length (default [] (ud_list_films (user_data st))))) ->
  list_delete_film user_id ("delete_" +:+ s) st =
  (Return (Some END), st, [Answer; ReplyText TxtDeleteError global_keyboard]).
Proof. intros Hsplit _. by apply (list_delete_film_rejects user_id st s part rest). Qed.

Lemma list_delete_film_invalid_index_witness :
  list_delete_film "7" "delete_x_1" sample_state =
    (Return (Some END), sample_state,
     [Answer; ReplyText TxtDeleteError global_keyboard]) /\
  list_delete_film "7" "delete_-4" sample_state =
    (Return (Some END), sample_state,
     [Answer; ReplyText TxtDeleteError global_keyboard]).
Proof.
  split.
  - apply (list_delete_film_invalid_index "7" sample_state "x_1" "x" ["1"%string]);
      [reflexivity|reflexivity|]. left. reflexivity.
  - apply (list_delete_film_invalid_index "7" sample_state "-4" "-4" []);
      [reflexivity|reflexivity|]. right. exists (-4). split; [reflexivity|].
    simpl. lia.
Defined.

(** X13.  Updates of other users never change a user's stored list or
    session: whatever the updates and the answers of the metadata service
    are, as long as none of them comes from [other], the list of [other]
    in the data file and the session of [other] are after the run what
    they were before. *)
Theorem other_users_are_untouched
    (RequestException : option (Exn -> bool)) (Update_has_from_user : bool)
    (evs : list (Tmdb * string * Update)) (bot : Bot) (other : string) :
  Forall (fun ev => ev.1.2 <> other) evs ->
  let bot' := run_bot RequestException Update_has_from_user evs bot in
  stored (bot_world bot') !! other = stored (bot_world bot) !! other /\
  bot_sessions bot' !! other = bot_sessions bot !! other.
Proof.
  unfold run_bot. revert bot.
  induction evs as [|[[tmdb user_id] u] evs IH]; intros bot Hevs; [done|].
  apply Forall_cons_1 in Hevs as [Hev Hevs]. cbn [fst snd] in Hev.
  cbn [fold_left].
  destruct (IH (handle_update RequestException Update_has_from_user bot
                  (tmdb, user_id, u)) Hevs) as [H1 H2].
  destruct (handle_update_follows RequestException Update_has_from_user bot tmdb
              user_id u) as [(H3 & _) H4].
  cbn [world] in H3. cbv zeta. rewrite H1, H2.
  split; [by apply H3|by apply H4].
Qed.

Lemma other_users_are_untouched_witness :
  stored (bot_world (run_bot None true busy_evening shared_bot)) !! "8" =
    stored (bot_world shared_bot) !! "8" /\
  bot_sessions (run_bot None true busy_evening shared_bot) !! "8" =
    bot_sessions shared_bot !! "8".
Proof.
  apply (other_users_are_untouched None true busy_evening shared_bot "8").
  repeat constructor; done.
Defined.

(** X14.  Once the genre cache holds at least one genre it never changes
    again: no update of any user, whatever the metadata service answers,
    replaces or clears it. *)
Theorem genre_cache_is_permanent
    (RequestException : option (Exn -> bool)) (Update_has_from_user : bool)
    (evs : list (Tmdb * string * Update)) (bot : Bot) :
  cache_populated (bot_world bot) = true ->
  _genre_cache (bot_world (run_bot RequestException Update_has_from_user evs bot)) =
  _genre_cache (bot_world bot).
Proof.
  unfold run_bot. revert bot.
  induction evs as [|[[tmdb user_id] u] evs IH]; intros bot Hc; [done|].
  cbn [fold_left].
  destruct (handle_update_follows RequestException Update_has_from_user bot tmdb
              user_id u) as [(_ & H & _) _].
  cbn [world] in H. specialize (H Hc).
  rewrite IH; [done|]. unfold cache_populated in *. by rewrite H.
Qed.

Lemma genre_cache_is_permanent_witness :
  _genre_cache (bot_world (run_bot None true busy_evening shared_bot)) =
  _genre_cache (bot_world shared_bot).
Proof.
  apply (genre_cache_is_permanent None true busy_evening shared_bot).
  reflexivity.
Defined.

(** X15.  No handler removes a key from [context.user_data]: a key that a
    user's session holds stays in it through every later update, also
    through [/cancel] and through updates that end a conversation. *)
Theorem session_keys_persist
    (RequestException : option (Exn -> bool)) (Update_has_from_user : bool)
    (evs : list (Tmdb * string * Update)) (bot : Bot) (user_id : string) (k : Key) :
  has_key k (default empty_session (bot_sessions bot !! user_id)) = true ->
  has_key k
    (default empty_session
       (bot_sessions (run_bot RequestException Update_has_from_user evs bot)
          !! user_id)) = true.
Proof.
  unfold run_bot. revert bot.
  induction evs as [|[[tmdb sender] u] evs IH]; intros bot Hk; [done|].
  cbn [fold_left]. apply IH.
  destruct (handle_update_follows RequestException Update_has_from_user bot tmdb
              sender u) as [(_ & _ & H & _) H'].
  cbn [user_data] in H.
  destruct (decide (user_id = sender)) as [->|Hne]; [by apply H|].
  by rewrite H'.
Qed.

Lemma session_keys_persist_witness :
  has_key KeyListFilms
    (default empty_session
       (bot_sessions (run_bot None true busy_evening shared_bot) !! "7")) = true.
Proof.
  apply (session_keys_persist None true busy_evening shared_bot "7" KeyListFilms).
  reflexivity.
Defined.

(** X16.  Greeting, cancelling, listing and every step of the
    recommendation flows only read the data file: whatever the payload and
    the answers of the metadata service, none of these handlers writes the
    file, and the document is after the run what it was before (also when
    the handler raises). *)
Theorem browsing_never_writes
    (tmdb : Tmdb) (user_id data : string) (st : State) :
  Forall (fun m : M (option ConvState) =>
            data_file (world (m st).1.2) = data_file (world st) /\
            Forall no_write (m st).2)
    [start; help_command; add_start; add_cancel; recommend_start;
     recommend_cancel; close_recommendations; list_films user_id;
     recommend_choose tmdb user_id data;
     recommend_film_pick tmdb user_id data;
     recommend_genre_pick tmdb user_id data].
Proof.
  set (P := same_file (data_file (world st))).
  assert (forall s, P s -> P (with_client s)) as Hclient by done.
  assert (forall s genres, P s -> cache_populated (world s) = false ->
                           P (with_cache genres s)) as Hcache by done.
  assert (forall a, is_write a = false -> no_write a) as Hquiet by done.
  assert (forall s f, grows f -> P s -> P (mkState (world s) (f (user_data s))))
    as Hsession by done.
  assert (forall (E : Exn -> Prop) V (m : M (option ConvState)),
            obeys P no_write E V m ->
            data_file (world (m st).1.2) = data_file (world st) /\
            Forall no_write (m st).2) as Hrun.
  { intros E V m Hm. destruct (Hm st eq_refl) as (H1 & H2 & _). by split. }
  destruct (browsing_commands P no_write Hquiet)
    as (C1 & C2 & C3 & C4 & C5 & C6 & C7).
  repeat apply Forall_cons_2; [by eapply Hrun..| | | | |apply Forall_nil_2].
  - eapply Hrun. by apply (browsing_list_films P no_write Hquiet Hsession).
  - eapply Hrun.
    by apply (browsing_recommend_choose P no_write Hclient Hcache Hquiet Hsession).
  - eapply Hrun.
    by apply (browsing_recommend_film_pick P no_write Hclient Hcache Hquiet
                Hsession (fun _ => True)).
  - eapply Hrun.
    by apply (browsing_recommend_genre_pick P no_write Hclient Hcache Hquiet
                Hsession (fun _ => True)).
Qed.

(** X17.  The exceptions that leave a handler.  The commands, [list_films],
    [add_choice], [recommend_choose], [close_recommendations] and
    [list_delete_film] never raise.  A tap handled by
    [recommend_film_pick], [recommend_genre_pick] or the router raises
    nothing but [KeyError] and [ValueError]: no [IndexError] of a [split]
    and no error of the metadata service escapes.  [add_title] raises only
    when the [httpx] module has no attribute [RequestException], and then
    [AttributeError]. *)
Theorem handler_raises_only
    (RequestException : option (Exn -> bool)) (Update_has_from_user : bool)
    (tmdb : Tmdb) (user_id : string) (u : Update) (st : State) (e : Exn) :
  (handler RequestException Update_has_from_user tmdb user_id u st).1.1 = Raise e ->
  match u with
  | TapRecommendFilm _ | TapRecommendGenre _ | TapOther _ =>
      e = KeyError \/ e = ValueError
  | TitleMessage _ => e = AttributeError /\ RequestException = None
  | _ => False
  end.
Proof.
  set (P := fun _ : State => True). set (T := fun _ : Action => True).
  assert (forall (E : Exn -> Prop) V (m : M (option ConvState)),
            obeys P T E V m -> (m st).1.1 = Raise e -> E e) as Hrun.
  { intros E V m Hm He. destruct (Hm st I) as (_ & _ & H). by rewrite He in H. }
  destruct (browsing_commands P T ltac:(done))
    as (C1 & C2 & C3 & C4 & C5 & C6 & C7).
  destruct u; cbn [handler]; intros He.
  - by apply (Hrun _ _ _ C1).
  - by apply (Hrun _ _ _ C2).
  - by apply (Hrun _ _ _ C3).
  - by apply (Hrun _ _ _ C4).
  - by apply (Hrun _ _ _ C5).
  - by apply (Hrun _ _ _ C6).
  - by apply (Hrun _ _ _ (browsing_list_films P T ltac:(done) ltac:(done) user_id)).
  - refine (Hrun (fun e => e = AttributeError /\ RequestException = None) _ _ _ He).
    apply (saving_add_title user_id P T); try done.
    destruct Update_has_from_user; by intros v [= <-].
  - by apply (Hrun never _ _ (saving_add_choice user_id P T ltac:(done)
                ltac:(done) ltac:(done) ltac:(done) tmdb data never)).
  - by apply (Hrun _ _ _ (browsing_recommend_choose P T ltac:(done) ltac:(done)
                ltac:(done) ltac:(done) tmdb user_id data)).
  - by apply (Hrun _ _ _ (browsing_recommend_film_pick P T ltac:(done) ltac:(done)
                ltac:(done) ltac:(done) key_or_value_error ltac:(done)
                tmdb user_id data)).
  - by apply (Hrun _ _ _ (browsing_recommend_genre_pick P T ltac:(done) ltac:(done)
                ltac:(done) ltac:(done) key_or_value_error ltac:(done)
                tmdb user_id data)).
  - by apply (Hrun _ _ _ C7).
  - by apply (Hrun never _ _ (saving_list_delete_film user_id P T ltac:(done)
                ltac:(done) ltac:(done) data never)).
  - by apply (Hrun _ _ _ (saving_universal_callback_handler user_id P T ltac:(done)
                ltac:(done) ltac:(done) ltac:(done) ltac:(done)
                key_or_value_error ltac:(done) tmdb data)).
Qed.

Lemma handler_raises_only_witness :
  KeyError = KeyError \/ KeyError = ValueError.
Proof.
  apply (handler_raises_only None true tmdb_down "7" (TapRecommendFilm "more_film")
           sample_state KeyError).
  reflexivity.
Defined.

(** X18.  A page of recommendations always answers: whatever the metadata
    service does (also when it fails, and when the session holds no page
    number), [show_film_page] and [show_genre_page] return
    [RECOMMEND_MORE_FILM] and [RECOMMEND_MORE_GENRE], raise nothing, write
    no file and leave the session and the document as they are. *)
Theorem recommendation_page_always_answers
    (tmdb : Tmdb) (user_id : string) (film : Film) (genre_id : Z) (st : State) :
  let film_run := show_film_page tmdb user_id film st in
  let genre_run := show_genre_page tmdb user_id genre_id st in
  (film_run.1.1 = Return (Some RECOMMEND_MORE_FILM) /\
   user_data film_run.1.2 = user_data st /\
   data_file (world film_run.1.2) = data_file (world st) /\
   Forall no_write film_run.2) /\
  (genre_run.1.1 = Return (Some RECOMMEND_MORE_GENRE) /\
   user_data genre_run.1.2 = user_data st /\
   data_file (world genre_run.1.2) = data_file (world st) /\
   Forall no_write genre_run.2).
Proof.
  set (P := fun s : State =>
              user_data s = user_data st /\
              data_file (world s) = data_file (world st)).
  assert (forall s, P s -> P (with_client s)) as Hclient by done.
  assert (forall s genres, P s -> cache_populated (world s) = false ->
                           P (with_cache genres s)) as Hcache by done.
  assert (forall a, is_write a = false -> no_write a) as Hquiet by done.
  assert (forall c (m : M (option ConvState)),
            obeys P no_write never (eq (Some c)) m ->
            (m st).1.1 = Return (Some c) /\
            user_data (m st).1.2 = user_data st /\
            data_file (world (m st).1.2) = data_file (world st) /\
            Forall no_write (m st).2) as Hrun.
  { intros c m Hm. destruct (Hm st (conj eq_refl eq_refl)) as ((H1 & H2) & H3 & H4).
    destruct ((m st).1.1) as [a|e]; [|done]. by subst a. }
  split; apply Hrun.
  - apply (quiet_show_film_page P no_write Hclient Hcache Hquiet).
  - apply (quiet_show_genre_page P no_write Hclient Hcache Hquiet).
Qed.

(** X19.  A navigation tap of the film flow that finds no chosen film in
    the session (the payload [more_film], or [film_page_N]) is not caught:
    the handler answers the tap, stores the new page number under
    [film_page] all the same, and raises [KeyError].  The router passes the
    exception on. *)
Theorem film_navigation_without_film
    (tmdb : Tmdb) (user_id : string) (st : State) (n : Z) :
  ud_recommend_film (user_data st) = None ->
  Forall (fun h : string -> M (option ConvState) =>
            h "more_film" st =
              (Raise KeyError,
               mkState (world st)
                 (set_film_page (default 1 (ud_film_page (user_data st)) + 1)
                    (user_data st)),
               [Answer]) /\
            h ("film_page_" +:+ str n) st =
              (Raise KeyError,
               mkState (world st) (set_film_page n (user_data st)),
               [Answer]))
    [recommend_film_pick tmdb user_id; universal_callback_handler tmdb user_id].
Proof.
  intros Hfilm.
  assert (recommend_film_pick tmdb user_id "more_film" st =
            (Raise KeyError,
             mkState (world st)
               (set_film_page (default 1 (ud_film_page (user_data st)) + 1)
                  (user_data st)),
             [Answer])) as Hmore.
  { unfold recommend_film_pick. payload_tests. run_handler. by rewrite Hfilm. }
  assert (recommend_film_pick tmdb user_id ("film_page_" +:+ str n) st =
            (Raise KeyError,
             mkState (world st) (set_film_page n (user_data st)),
             [Answer])) as Hpage.
  { unfold recommend_film_pick. payload_tests.
    rewrite film_page_payload, split_str. run_handler.
    cbn [lookup list_lookup]. rewrite int_str.
    cbn [ud_recommend_film set_film_page]. by rewrite Hfilm. }
  repeat constructor; try done.
  - unfold universal_callback_handler. rewrite bind_get_user_data.
    by payload_tests.
  - unfold universal_callback_handler. rewrite bind_get_user_data.
    by payload_tests.
Qed.

Lemma film_navigation_without_film_witness :
  universal_callback_handler tmdb_down "7" "more_film" sample_state =
    (Raise KeyError,
     mkState (world sample_state) (set_film_page 2 (user_data sample_state)),
     [Answer]).
Proof.
  pose proof (film_navigation_without_film tmdb_down "7" sample_state 3 eq_refl) as H.
  apply Forall_cons_1 in H as [_ H]. apply Forall_cons_1 in H as [[H _] _].
  exact H.
Defined.

(** X20.  The same in the genre flow: [more_genre] or [genre_page_N]
    without a chosen genre stores the page number under [genre_page] and
    raises [KeyError]. *)
Theorem genre_navigation_without_genre
    (tmdb : Tmdb) (user_id : string) (st : State) (n : Z) :
  ud_recommend_genre_id (user_data st) = None ->
  Forall (fun h : string -> M (option ConvState) =>
            h "more_genre" st =
              (Raise KeyError,
               mkState (world st)
                 (set_genre_page (default 1 (ud_genre_page (user_data st)) + 1)
                    (user_data st)),
               [Answer]) /\
            h ("genre_page_" +:+ str n) st =
              (Raise KeyError,
               mkState (world st) (set_genre_page n (user_data st)),
               [Answer]))
    [recommend_genre_pick tmdb user_id; universal_callback_handler tmdb user_id].
Proof.
  intros Hgenre.
  assert (recommend_genre_pick tmdb user_id "more_genre" st =
            (Raise KeyError,
             mkState (world st)
               (set_genre_page (default 1 (ud_genre_page (user_data st)) + 1)
                  (user_data st)),
             [Answer])) as Hmore.
  { unfold recommend_genre_pick. payload_tests. run_handler. by rewrite Hgenre. }
  assert (recommend_genre_pick tmdb user_id ("genre_page_" +:+ str n) st =
            (Raise KeyError,
             mkState (world st) (set_genre_page n (user_data st)),
             [Answer])) as Hpage.
  { unfold recommend_genre_pick. payload_tests.
    rewrite genre_page_payload, split_str. run_handler.
    cbn [lookup list_lookup]. rewrite int_str.
    cbn [ud_recommend_genre_id set_genre_page]. by rewrite Hgenre. }
  repeat constructor; try done.
  - unfold universal_callback_handler. rewrite bind_get_user_data.
    by payload_tests.
  - unfold universal_callback_handler. rewrite bind_get_user_data.
    by payload_tests.
Qed.

Lemma genre_navigation_without_genre_witness :
  universal_callback_handler tmdb_down "7" "more_genre" sample_state =
    (Raise KeyError,
     mkState (world sample_state) (set_genre_page 2 (user_data sample_state)),
     [Answer]).
Proof.
  pose proof (genre_navigation_without_genre tmdb_down "7" sample_state 3 eq_refl)
    as H.
  apply Forall_cons_1 in H as [_ H]. apply Forall_cons_1 in H as [[H _] _].
  exact H.
Defined.

(** X21.  With a chosen film, the navigation of the film flow turns the
    page: [more_film] goes to the page after the stored one (after page 1
    when none is stored) and [film_page_N] to page [N].  In both cases the
    handler stores that page, changes nothing else in the session, asks the
    metadata service first for the upstream page that holds it, and
    returns [RECOMMEND_MORE_FILM], whatever the service answers. *)
Theorem film_navigation_turns_page
    (tmdb : Tmdb) (user_id : string) (st : State) (film : Film) (n : Z) :
  ud_recommend_film (user_data st) = Some film ->
  let turns data page :=
    let run := recommend_film_pick tmdb user_id data st in
    run.1.1 = Return (Some RECOMMEND_MORE_FILM) /\
    user_data run.1.2 = set_film_page page (user_data st) /\
    exists rest,
      run.2 = Answer ::
              HttpGet (RecommendationsRequest (film_id film) (tmdb_page page)) ::
              rest in
  turns "more_film"%string (default 1 (ud_film_page (user_data st)) + 1) /\
  turns ("film_page_" +:+ str n) n.
Proof.
  intros Hfilm turns.
  assert (forall page,
            let run :=
              answered (show_film_page tmdb user_id film
                          (mkState (world st) (set_film_page page (user_data st)))) in
            run.1.1 = Return (Some RECOMMEND_MORE_FILM) /\
            user_data run.1.2 = set_film_page page (user_data st) /\
            exists rest,
              run.2 = Answer ::
                      HttpGet (RecommendationsRequest (film_id film) (tmdb_page page)) ::
                      rest) as Hshow.
  { intros page. cbv zeta. unfold answered. cbn [fst snd].
    split; [apply (show_page_returns tmdb user_id film 0)|].
    split; [apply (show_page_session tmdb user_id film 0)|].
    destruct (show_film_page_requests tmdb user_id film
                (mkState (world st) (set_film_page page (user_data st))) page
                eq_refl) as [rest ->].
    by exists rest. }
  subst turns. cbv beta zeta. split.
  - rewrite (recommend_film_pick_more tmdb user_id st film Hfilm). apply Hshow.
  - rewrite (recommend_film_pick_page tmdb user_id st film n Hfilm). apply Hshow.
Qed.

Lemma film_navigation_turns_page_witness :
  user_data
    (recommend_film_pick tmdb_twenty "7" "more_film"
       (mkState (world viewer_state)
          (set_recommend_film dune (user_data viewer_state)))).1.2 =
  set_film_page 2 (set_recommend_film dune (user_data viewer_state)).
Proof.
  destruct (film_navigation_turns_page tmdb_twenty "7"
              (mkState (world viewer_state)
                 (set_recommend_film dune (user_data viewer_state)))
              dune 1 eq_refl) as [(_ & H & _) _].
  exact H.
Defined.

(** X22.  With a chosen genre, [more_genre] and [genre_page_N] turn the
    page in the same way, and the page number is sent upstream as it is:
    after at most a request for the genre list, the handler asks the
    metadata service for page [N] of the genre, stores [N] under
    [genre_page] and returns [RECOMMEND_MORE_GENRE]. *)
Theorem genre_navigation_turns_page
    (tmdb : Tmdb) (user_id : string) (st : State) (genre_id n : Z) :
  ud_recommend_genre_id (user_data st) = Some genre_id ->
  let turns data page :=
    let run := recommend_genre_pick tmdb user_id data st in
    run.1.1 = Return (Some RECOMMEND_MORE_GENRE) /\
    user_data run.1.2 = set_genre_page page (user_data st) /\
    exists before rest,
      run.2 = Answer :: before ++ HttpGet (DiscoverRequest genre_id page) :: rest /\
      Forall (fun a => a = HttpGet GenreListRequest) before in
  turns "more_genre"%string (default 1 (ud_genre_page (user_data st)) + 1) /\
  turns ("genre_page_" +:+ str n) n.
Proof.
  intros Hgenre turns.
  assert (forall page,
            let run :=
              answered (show_genre_page tmdb user_id genre_id
                          (mkState (world st) (set_genre_page page (user_data st)))) in
            run.1.1 = Return (Some RECOMMEND_MORE_GENRE) /\
            user_data run.1.2 = set_genre_page page (user_data st) /\
            exists before rest,
              run.2 = Answer :: before ++
                      HttpGet (DiscoverRequest genre_id page) :: rest /\
              Forall (fun a => a = HttpGet GenreListRequest) before) as Hshow.
  { intros page. cbv zeta. unfold answered. cbn [fst snd].
    split; [apply (show_page_returns tmdb user_id dune genre_id)|].
    split; [apply (show_page_session tmdb user_id dune genre_id)|].
    destruct (show_genre_page_requests tmdb user_id genre_id
                (mkState (world st) (set_genre_page page (user_data st))) page
                eq_refl) as (before & rest & -> & Hbefore).
    by exists before, rest. }
  subst turns. cbv beta zeta. split.
  - rewrite (recommend_genre_pick_more tmdb user_id st genre_id Hgenre). apply Hshow.
  - rewrite (recommend_genre_pick_page tmdb user_id st genre_id n Hgenre).
    apply Hshow.
Qed.

Lemma genre_navigation_turns_page_witness :
  user_data
    (recommend_genre_pick tmdb_down "7" "more_genre"
       (mkState (world sample_state)
          (set_recommend_genre_id 878 (user_data sample_state)))).1.2 =
  set_genre_page 2 (set_recommend_genre_id 878 (user_data sample_state)).
Proof.
  destruct (genre_navigation_turns_page tmdb_down "7"
              (mkState (world sample_state)
                 (set_recommend_genre_id 878 (user_data sample_state)))
              878 1 eq_refl) as [(_ & H & _) _].
  exact H.
Defined.

(** X23.  The buttons of the film menu lead to the films they name: after
    [recommend_choose] has handled [by_film] for a user whose stored list
    is [films], button [i] carries the title of [films[i]] and the payload
    [str(i)], and [recommend_film_pick] on that payload chooses
    [films[i]], starts at page 1, asks for page 1 of its recommendations
    and returns [RECOMMEND_MORE_FILM]. *)
Theorem recommend_by_film_then_pick
    (tmdb : Tmdb) (user_id : string) (st : State) (films : list Film)
    (i : nat) (film : Film) :
  stored (world st) !! user_id = Some films ->
  films !! i = Some film ->
  let chosen := recommend_choose tmdb user_id "by_film" st in
  let picked := recommend_film_pick tmdb user_id (str (Z.of_nat i)) chosen.1.2 in
  chosen.1.1 = Return (Some RECOMMEND_FILM_PICK) /\
  (exists keyboard,
     chosen.2 = [Answer; EditText TxtPickFilm (InlineKeyboardMarkup keyboard)] /\
     keyboard !! i =
       Some [CallbackButton (LblTitle (film_title film)) (str (Z.of_nat i))]) /\
  picked.1.1 = Return (Some RECOMMEND_MORE_FILM) /\
  user_data picked.1.2 =
    set_film_page 1 (set_recommend_film film (set_recommend_films films (user_data st))) /\
  exists rest,
    picked.2 =
    Answer :: HttpGet (RecommendationsRequest (film_id film) 1) :: rest.
Proof.
  intros Hfilms Hfilm chosen picked.
  assert (chosen =
            (Return (Some RECOMMEND_FILM_PICK),
             mkState (world st) (set_recommend_films films (user_data st)),
             [Answer;
              EditText TxtPickFilm
                (InlineKeyboardMarkup
                   (imap (fun i f =>
                            [CallbackButton (LblTitle (film_title f))
                               (str (Z.of_nat i))]) films))])) as Hchosen.
  { subst chosen picked. unfold recommend_choose. payload_tests. run_handler.
    rewrite Hfilms. cbn [default from_option id].
    destruct films as [|f fs]; [done|]. reflexivity. }
  subst picked. rewrite Hchosen. cbn [fst snd].
  split; [done|]. split.
  { eexists. split; [reflexivity|]. rewrite list_lookup_imap. by rewrite Hfilm. }
  rewrite (recommend_film_pick_number tmdb user_id _ films (Z.of_nat i) film);
    [|done|by rewrite getitem_of_nat].
  unfold answered. cbn [fst snd world user_data].
  split; [apply (show_page_returns tmdb user_id film 0)|].
  split; [apply (show_page_session tmdb user_id film 0)|].
  destruct (show_film_page_requests tmdb user_id film
              (mkState (world st)
                 (set_film_page 1
                    (set_recommend_film film
                       (set_recommend_films films (user_data st))))) 1 eq_refl)
    as [rest ->].
  by exists rest.
Qed.

Lemma recommend_by_film_then_pick_witness :
  ud_recommend_film
    (user_data
       (recommend_film_pick tmdb_twenty "7" (str (Z.of_nat 1))
          (recommend_choose tmdb_twenty "7" "by_film" sample_state).1.2).1.2) =
  Some alien.
Proof.
  destruct (recommend_by_film_then_pick tmdb_twenty "7" sample_state sample_films
              1 alien eq_refl eq_refl) as (_ & _ & _ & H & _).
  by rewrite H.
Defined.

(** X24.  The buttons of the genre menu lead to the genres they name, and
    the genre flow takes any number: with the genres cached,
    [recommend_choose] on [by_genre] sends one button per genre, with the
    name as text and [str(id)] as payload, and asks nothing of the
    metadata service; [recommend_genre_pick] on the payload [str(g)] of any
    integer [g], cached genre or not, stores [g] and page 1, asks for page
    1 of that genre and returns [RECOMMEND_MORE_GENRE]. *)
Theorem recommend_by_genre_then_pick
    (tmdb : Tmdb) (user_id : string) (st : State) (g : Z * string)
    (gs : list (Z * string)) (genre_id : Z) :
  _genre_cache (world st) = Some (g :: gs) ->
  let picked := recommend_genre_pick tmdb user_id (str genre_id) st in
  recommend_choose tmdb user_id "by_genre" st =
    (Return (Some RECOMMEND_GENRE_PICK), st,
     [Answer;
      EditText TxtPickGenre
        (InlineKeyboardMarkup
           (map (fun genre => [CallbackButton (LblTitle genre.2) (str genre.1)])
                (g :: gs)))]) /\
  picked.1.1 = Return (Some RECOMMEND_MORE_GENRE) /\
  user_data picked.1.2 =
    set_genre_page 1 (set_recommend_genre_id genre_id (user_data st)) /\
  exists before rest,
    picked.2 = Answer :: before ++ HttpGet (DiscoverRequest genre_id 1) :: rest /\
    Forall (fun a => a = HttpGet GenreListRequest) before.
Proof.
  intros Hcache picked. split.
  { unfold recommend_choose. payload_tests. run_handler.
    rewrite (get_genres_populated tmdb st g gs Hcache). by destruct st. }
  subst picked. rewrite recommend_genre_pick_number.
  unfold answered. cbn [fst snd].
  split; [apply (show_page_returns tmdb user_id dune genre_id)|].
  split; [apply (show_page_session tmdb user_id dune genre_id)|].
  destruct (show_genre_page_requests tmdb user_id genre_id
              (mkState (world st)
                 (set_genre_page 1 (set_recommend_genre_id genre_id (user_data st))))
              1 eq_refl) as (before & rest & -> & Hbefore).
  by exists before, rest.
Qed.

Lemma recommend_by_genre_then_pick_witness :
  user_data
    (recommend_genre_pick tmdb_down "7" (str 878)
       (mkState (bot_world shared_bot) empty_session)).1.2 =
  set_genre_page 1 (set_recommend_genre_id 878 empty_session).
Proof.
  destruct (recommend_by_genre_then_pick tmdb_down "7"
              (mkState (bot_world shared_bot) empty_session)
              (878, "Science Fiction"%string) [] 878 eq_refl) as (_ & _ & H & _).
  exact H.
Defined.

(** X25.  The buttons of the delete view act on the films they name: for
    the list [films] held by the session, [show_delete_interface] changes
    nothing and sends one button per film, with at most 33 characters of
    its title and the payload [delete_i], and a cancel button below them;
    a tap on button [i] removes [films[i]] from the session's list and
    writes that list to the file, and [show_updated_list] then shows
    exactly the list that was written. *)
Theorem delete_interface_then_tap
    (user_id : string) (st : State) (films : list Film) (i : nat) (film : Film) :
  ud_list_films (user_data st) = Some films ->
  films !! i = Some film ->
  let shown := list_delete_film user_id "show_delete_interface" st in
  let tapped := list_delete_film user_id ("delete_" +:+ str (Z.of_nat i)) st in
  let rest := delete i films in
  (exists keyboard,
     shown = (Return (Some LIST_SHOW), st,
              [Answer; EditText TxtChooseDelete (InlineKeyboardMarkup keyboard)]) /\
     length keyboard = S (length films) /\
     keyboard !! i =
       Some [CallbackButton (LblDeleteFilm (button_text (film_title film)))
               ("delete_" +:+ str (Z.of_nat i))] /\
     keyboard !! length films = Some [CallbackButton LblCancelDelete "cancel_delete"]) /\
  (len (button_text (film_title film)) <= 33)%nat /\
  ud_list_films (user_data tapped.1.2) = Some rest /\
  stored (world tapped.1.2) !! user_id = Some rest /\
  (list_delete_film user_id "show_updated_list" tapped.1.2).2 =
    [Answer;
     match rest with
     | [] => ReplyText TxtListEmpty global_keyboard
     | _ => EditText (TxtUpdatedList rest) delete_button
     end].
Proof.
  intros Hfilms Hfilm shown tapped rest.
  pose proof (lookup_lt_Some _ _ _ Hfilm) as Hi.
  split; [|split; [apply button_text_length|]].
  - eexists. split; [|split; [|split]].
    + subst shown. unfold list_delete_film. payload_tests. run_handler.
      rewrite Hfilms. cbn [default from_option id].
      destruct films as [|f fs]; [done|]. reflexivity.
    + rewrite length_app, length_imap. simpl. lia.
    + rewrite lookup_app_l by (rewrite length_imap; lia).
      rewrite list_lookup_imap. by rewrite Hfilm.
    + rewrite lookup_app_r by (rewrite length_imap; lia).
      by rewrite length_imap, Nat.sub_diag.
  - subst tapped.
    rewrite (list_delete_film_removes user_id st (Z.of_nat i) i film);
      rewrite ?Hfilms; cbn [default from_option id];
      [|lia|rewrite normalize_index_nonneg by lia; by rewrite Nat2Z.id|done].
    rewrite <- delete_take_drop. fold rest.
    cbn [fst snd world user_data ud_list_films set_list_films].
    rewrite stored_written, lookup_insert_eq.
    split; [done|]. split; [done|].
    unfold list_delete_film. payload_tests. run_handler.
    cbn [ud_list_films set_list_films default from_option id].
    by destruct rest.
Qed.

Lemma delete_interface_then_tap_witness :
  stored (world (list_delete_film "7" ("delete_" +:+ str (Z.of_nat 1))
                   sample_state).1.2) !! "7" =
  Some (delete 1%nat sample_films).
Proof.
  destruct (delete_interface_then_tap "7" sample_state sample_films 1%nat alien
              eq_refl eq_refl) as (_ & _ & _ & H & _).
  exact H.
Defined.

(** X26.  What a page of genre recommendations shows.  When the upstream
    page holds a film the user has not saved, the page lists every film of
    it the user has not saved and no other, however many they are; when the
    user has saved them all, it lists the first five of the upstream page;
    when the upstream page is empty it says that there is nothing more.
    The upstream page is the page of the session, and the list is the last
    thing the handler sends. *)
Theorem genre_page_selection
    (tmdb : Tmdb) (user_id : string) (genre_id : Z) (st : State) (p : Z)
    (results : list Candidate) :
  ud_genre_page (user_data st) = Some p ->
  tmdb_discover tmdb genre_id p = Gives results ->
  let saved f :=
    existsb (Z.eqb (cand_id f))
            (map film_id (default [] (stored (world st) !! user_id))) in
  exists shown before text markup,
    (show_genre_page tmdb user_id genre_id st).2 =
      before ++ [HttpGet (DiscoverRequest genre_id p); EditText text markup] /\
    match shown with
    | [] => results = [] /\ text = TxtNoMore /\ markup = close_only
    | _ =>
        exists genre_name genres_dict nav_buttons,
          text = TxtGenreRecommendations genre_name
                   (recommendation_lines genres_dict shown) /\
          markup = InlineKeyboardMarkup (recommendation_buttons shown ++ [nav_buttons])
    end /\
    (Exists (fun f => saved f = false) results ->
     shown = List.filter (fun f => negb (saved f)) results) /\
    (Forall (fun f => saved f = true) results -> shown = take 5 results).
Proof.
  intros Hpage Hresults saved.
  destruct (show_genre_page_run tmdb user_id genre_id st p results Hpage Hresults)
    as (genres_dict & before & _ & Hrun).
  cbv zeta in Hrun.
  set (unseen := List.filter (fun f => negb (saved f)) results) in *.
  repeat match type of Hrun with
         | context [List.filter ?f results] =>
             change (List.filter f results) with unseen in Hrun
         end.
  assert (Exists (fun f => saved f = false) results -> unseen <> []) as Hsome.
  { intros H. apply filter_some. eapply Exists_impl; [exact H|].
    cbv beta. by intros f ->. }
  assert (Forall (fun f => saved f = true) results -> unseen = []) as Hnone.
  { intros H. apply filter_none. eapply Forall_impl; [exact H|].
    cbv beta. by intros f ->. }
  exists (match unseen with [] => take 5 results | _ => unseen end), before.
  clearbody unseen. destruct unseen as [|f fs].
  - destruct (take 5 results) as [|f fs] eqn:Htake.
    + do 2 eexists. split; [exact Hrun|].
      split; [|split; [by intros H%Hsome|done]].
      split; [|done]. by destruct results.
    + do 2 eexists. split; [exact Hrun|].
      split; [by eexists _, _, _|]. split; [by intros H%Hsome|done].
  - do 2 eexists. split; [exact Hrun|].
    split; [by eexists _, _, _|]. split; [done|]. by intros H%Hnone.
Qed.

Lemma genre_page_selection_witness :
  exists (shown : list Candidate) before text markup,
    (show_genre_page tmdb_genre_twenty "7" 878
       (mkState (world viewer_state) (set_genre_page 1 empty_session))).2 =
      before ++ [HttpGet (DiscoverRequest 878 1); EditText text markup] /\
    length shown = 19%nat.
Proof.
  destruct (genre_page_selection tmdb_genre_twenty "7" 878
              (mkState (world viewer_state) (set_genre_page 1 empty_session))
              1 upstream_page eq_refl eq_refl)
    as (shown & before & text & markup & Hrun & _ & Hsome & _).
  exists shown, before, text, markup. split; [exact Hrun|].
  rewrite Hsome; [by vm_compute|].
  apply Exists_cons_tl, Exists_cons_hd. by vm_compute.
Defined.
